(** * Amarktai Marketing: content pipeline, media routing and viral scoring

    A shallow embedding of
      - [app/agents/optimizer_agent.py]   (the scoring engine),
      - [app/agents/media_agent_v2.py]    (provider registry and media router),
      - [app/workflows/nightly_workflow_v2.py] (variant generator and
        pipeline orchestrator),
      - [app/agents/research_agent_v2.py] (the aggregation of the trends),
      - [app/workers/tasks.py]            (the nightly task that calls the
        pipeline),
    followed by the properties of the written specification that these
    functions decide, and by further properties of the same functions,
    of the functions that they call and of their callers.

    Conventions of the embedding.
      - A Python [str] is a [string] of one-byte characters; [len] is
        [String.length], [s.lower()] lowers the ASCII letters, [a in b] on
        strings is [PyStr.contains].
      - A Python [int] is a [Z].  A Python [float] is a [Q]: the scoring
        engine passes the result of every float operation through a
        rounding function [fl], a variable of its section; the media costs,
        decimal amounts of money, are kept exact.
      - A dict whose iteration order is observed is an association list in
        insertion order; the credential maps, which are only looked up,
        are [gmap string string].  A dict of known shape is a record whose
        optional keys are [option] fields.
      - A call that may raise returns a [call_result]; a [try/except
        Exception] is a match on it.
      - What leaves the process is a variable of the section that uses it:
        the HTTP exchanges with the providers, the research and creative
        agents, the clock, the environment.
      - The LangGraph runtime that walks the graph is not part of the
        repository; [NightlyWorkflowV2.ainvoke] follows the edges that
        [_build_workflow] declares and writes what a handler returns to
        the state as the state's declaration asks. *)

From Stdlib Require Import ZArith QArith Qround List String Ascii Bool Lia Lqa.
From Stdlib Require Import DecimalString Sorted Permutation.
From stdpp Require Import base strings gmap.
Import ListNotations.
Open Scope string_scope.
Open Scope Z_scope.

(** ** Python strings *)

Module PyStr.

Definition lower_ascii (c : ascii) : ascii :=
  let n := nat_of_ascii c in
  if (Nat.leb 65 n && Nat.leb n 90)%bool then ascii_of_nat (n + 32) else c.

(** [s.lower()] *)
Fixpoint lower (s : string) : string :=
  match s with
  | EmptyString => EmptyString
  | String c s' => String (lower_ascii c) (lower s')
  end.

(** [needle in hay] *)
Fixpoint contains (needle hay : string) : bool :=
  match hay with
  | EmptyString => String.prefix needle hay
  | String _ hay' => String.prefix needle hay || contains needle hay'
  end.

(** [s.split(sep)[0]] for a one-character separator *)
Fixpoint split_head (sep : ascii) (s : string) : string :=
  match s with
  | EmptyString => EmptyString
  | String c s' =>
      if Ascii.eqb c sep then EmptyString else String c (split_head sep s')
  end.

(** [s[:n]] *)
Definition take (n : nat) (s : string) : string := String.substring 0 n s.

(** [s.replace(old, new)] for a non-empty [old]: occurrences are replaced
    from the left and do not overlap; [skip] counts the characters of a
    matched occurrence that are still to be dropped. *)
Fixpoint replace_from (old new : string) (skip : nat) (s : string) : string :=
  match s with
  | EmptyString => EmptyString
  | String c s' =>
      match skip with
      | S k => replace_from old new k s'
      | O =>
          if String.prefix old s
          then new ++ replace_from old new (String.length old - 1) s'
          else String c (replace_from old new 0 s')
      end
  end.

(** [s.replace("", new)] puts [new] before every character and at the end. *)
Fixpoint intersperse (new s : string) : string :=
  match s with
  | EmptyString => new
  | String c s' => new ++ String c (intersperse new s')
  end.

Definition replace (old new s : string) : string :=
  match old with
  | EmptyString => intersperse new s
  | String _ _ => replace_from old new 0 s
  end.

(** [str(n)] for an integer *)
Definition of_Z (n : Z) : string := NilZero.string_of_int (Z.to_int n).

(** [x in xs] for a list of strings *)
Definition mem (x : string) (xs : list string) : bool :=
  existsb (String.eqb x) xs.

(** The line feed. *)
Definition newline : ascii := "010"%char.

(** [c.isspace()] on the ASCII characters: the tab, line feed, vertical
    tab, form feed and carriage return (9 to 13), the four separators (28
    to 31) and the space (32).  [str.strip] removes these characters and
    the pattern [\s] matches them. *)
Definition is_space (c : ascii) : bool :=
  let n := nat_of_ascii c in
  (Nat.leb 9 n && Nat.leb n 13) || (Nat.leb 28 n && Nat.leb n 32).

(** [s.lstrip()], [s.rstrip()] and [s.strip()] *)
Fixpoint lstrip (s : string) : string :=
  match s with
  | EmptyString => EmptyString
  | String c s' => if is_space c then lstrip s' else s
  end.

Fixpoint rstrip (s : string) : string :=
  match s with
  | EmptyString => EmptyString
  | String c s' =>
      match rstrip s' with
      | EmptyString => if is_space c then EmptyString else String c EmptyString
      | String _ _ as kept => String c kept
      end
  end.

Definition strip (s : string) : string := rstrip (lstrip s).

(** [s.split(sep)] for a one-character separator: the pieces between
    the separators, empty pieces included; [[""]] for the empty string. *)
Fixpoint split (sep : ascii) (s : string) : list string :=
  match s with
  | EmptyString => [EmptyString]
  | String c s' =>
      if Ascii.eqb c sep then EmptyString :: split sep s'
      else match split sep s' with
           | piece :: pieces => String c piece :: pieces
           | [] => [String c EmptyString]
           end
  end.

(** [sep.join(pieces)] *)
Fixpoint join (sep : string) (pieces : list string) : string :=
  match pieces with
  | [] => EmptyString
  | [piece] => piece
  | piece :: rest => piece ++ sep ++ join sep rest
  end.


End PyStr.

(** ** Dynamic values

    The orchestrator hands dicts around whose values it never inspects
    (the content angle, the finalized item).  They keep their Python
    shape. *)

Unset Elimination Schemes.
Inductive pyval : Type :=
| PNone
| PBool (b : bool)
| PInt (n : Z)
| PNum (q : Q)
| PStr (s : string)
| PList (l : list pyval)
| PDict (d : list (string * pyval)).
Set Elimination Schemes.

Definition PyDict := list (string * pyval).

Module Py.

(** [d.get(k)] *)
Fixpoint get {A : Type} (k : string) (d : list (string * A)) : option A :=
  match d with
  | [] => None
  | (k', v) :: d' => if String.eqb k k' then Some v else get k d'
  end.

(** [d[k] = v]: an existing key keeps its position. *)
Fixpoint set {A : Type} (k : string) (v : A) (d : list (string * A))
  : list (string * A) :=
  match d with
  | [] => [(k, v)]
  | (k', v') :: d' =>
      if String.eqb k k' then (k, v) :: d' else (k', v') :: set k v d'
  end.

(** [list(d.values())] *)
Definition values {A : Type} (d : list (string * A)) : list A := map snd d.

(** Truth value of a string, as in [if s:] *)
Definition str_truthy (s : string) : bool :=
  match s with EmptyString => false | _ => true end.

(** Truth value of an optional string ([None] and [""] are false). *)
Definition opt_truthy (o : option string) : bool :=
  match o with Some s => str_truthy s | None => false end.

(** [k in d] for a key that the embedding holds as an optional field *)
Definition has {A : Type} (o : option A) : bool :=
  match o with Some _ => true | None => false end.

(** Truth value of a list or dict, as in [if xs:] *)
Definition nonempty {A : Type} (l : list A) : bool :=
  match l with [] => false | _ => true end.

End Py.

(** A call either returns or raises; [Raised msg] carries [str(e)]. *)
Inductive call_result (A : Type) : Type :=
| Returned (a : A)
| Raised (msg : string).
Arguments Returned {A} a.
Arguments Raised {A} msg.

(** ** The content package produced by the creative agent

    [generate_content_package] returns
    [{"platform", "webapp_id", "generated_at", "content_angle", "content"}]
    where ["content"] has the optional keys ["video_script"], ["caption"],
    ["image_prompts"] and ["cta"].  A field is [None] when the key is
    absent; the package [{}] that the orchestrator substitutes for a
    platform without a draft is [empty_package]. *)

Record Scene := { scene_audio : option string }.

Record VideoScript := {
  vs_title : option string;
  vs_hook : option string;
  vs_scenes : list Scene
}.

Record Caption := {
  cap_text : option string;
  cap_hashtags : list string
}.

Record ImagePrompts := { ip_primary : string }.

Record Cta := {
  cta_variations : option (list (string * string));
  cta_recommended : option string
}.

Record Content := {
  video_script : option VideoScript;
  caption : option Caption;
  image_prompts : option ImagePrompts;
  cta : option Cta
}.

Record ContentPackage := {
  pkg_content : option Content;
  pkg_content_angle : option PyDict
}.

Definition empty_content : Content :=
  {| video_script := None; caption := None; image_prompts := None; cta := None |}.

Definition empty_package : ContentPackage :=
  {| pkg_content := None; pkg_content_angle := None |}.

(** [content_package.get("content", {})] *)
Definition get_content (p : ContentPackage) : Content :=
  match pkg_content p with Some c => c | None => empty_content end.

(** [webapp_data]: the product descriptor; [None] is an absent key. *)
Record WebApp := {
  wa_id : option string;
  wa_name : option string;
  wa_category : option string
}.

(** ** [optimizer_agent.py] *)

Module OptimizerAgent.

Record ViralScoreResult := {
  overall : Z;
  hook_strength : Z;
  emotional_impact : Z;
  shareability : Z;
  timing_score : Z;
  uniqueness : Z;
  trend_alignment : Z;
  viral_probability : Z;
  estimated_reach : Z;
  positive_factors : list string;
  negative_factors : list string;
  recommendations : list string
}.

(** The patterns of [_score_hook] use no operator but one alternation;
    a pattern is the list of the literal strings it stands for and
    [re.search] looks for one of them. *)
Definition viral_patterns : list (list string) :=
  [ ["wait until"; "wait for"];
    ["this changes everything"];
    ["can't believe"];
    ["stop doing"];
    ["secret"];
    ["nobody"];
    ["pov:"];
    ["hot take"];
    ["unpopular opinion"] ].

Definition re_search (pattern : list string) (s : string) : bool :=
  existsb (fun lit => PyStr.contains lit s) pattern.

Definition _score_hook (hook platform : string) : Z :=
  let score := 50 in
  let hook_lower := PyStr.lower hook in
  let score :=
    fold_left (fun sc pattern =>
                 if re_search pattern hook_lower then sc + 10 else sc)
              viral_patterns score in
  let len := Z.of_nat (String.length hook) in
  let score :=
    if len <? 10 then score - 10
    else if 100 <? len then score - 5
    else score + 5 in
  let score :=
    if String.eqb platform "tiktok"
       && existsb (fun word => PyStr.contains word hook_lower)
                  ["pov"; "tell me"; "the way"]
    then score + 10 else score in
  Z.min 100 (Z.max 0 score).

Definition positive_triggers : list string :=
  ["amazing"; "incredible"; "love"; "perfect"; "game changer"; "transform"].
Definition negative_triggers : list string :=
  ["struggle"; "problem"; "frustrated"; "waste"; "difficult"].
Definition urgency_triggers : list string :=
  ["now"; "today"; "limited"; "urgent"; "don't miss"].

(** One [for trigger in ...: if trigger in text_lower: score += bonus] *)
Definition add_triggers (text_lower : string) (bonus : Z)
           (triggers : list string) (score : Z) : Z :=
  fold_left (fun sc trigger =>
               if PyStr.contains trigger text_lower then sc + bonus else sc)
            triggers score.

Definition _score_emotional_impact (text : string) : Z :=
  let score := 50 in
  let text_lower := PyStr.lower text in
  let score := add_triggers text_lower 5 positive_triggers score in
  let score := add_triggers text_lower 3 negative_triggers score in
  let score := add_triggers text_lower 4 urgency_triggers score in
  Z.min 100 score.

Definition caption_text (c : Caption) : string :=
  match cap_text c with Some t => t | None => "" end.

Definition _score_shareability (content_package : ContentPackage)
           (platform : string) : Z :=
  let score := 50 in
  let content := get_content content_package in
  let score := if Py.has (cta content) then score + 10 else score in
  let score :=
    match caption content with
    | Some c =>
        if 50 <? Z.of_nat (String.length (caption_text c))
        then score + 5 else score
    | None => score
    end in
  let score :=
    if Py.has (image_prompts content) || Py.has (video_script content)
    then score + 15 else score in
  let score :=
    if PyStr.mem platform ["tiktok"; "instagram"]
       && Py.has (video_script content)
    then score + 10 else score in
  Z.min 100 score.

Definition optimal_hours : list (string * list Z) :=
  [ ("youtube", [12; 15; 18]);
    ("tiktok", [7; 12; 19]);
    ("instagram", [11; 14; 19]);
    ("facebook", [9; 13; 15]);
    ("twitter", [8; 12; 17]);
    ("linkedin", [8; 12; 17]) ].

(** [hour] is [datetime.now().hour]. *)
Definition _score_timing (hour : Z) (platform : string) : Z :=
  let platform_key := PyStr.split_head "_" platform in
  let optimal :=
    match Py.get platform_key optimal_hours with
    | Some hs => hs
    | None => [12]
    end in
  if existsb (Z.eqb hour) optimal then 90
  else if existsb (fun h => Z.abs (hour - h) <=? 1) optimal then 75
  else 60.

Definition unique_formats : list string :=
  ["pov"; "transformation"; "day_in_life"; "comparison"].

Definition base_reach : list (string * Z) :=
  [ ("youtube", 10000);
    ("tiktok", 50000);
    ("instagram", 15000);
    ("facebook", 8000);
    ("twitter", 5000);
    ("linkedin", 3000) ].

Definition _generate_feedback (hook emotional shareable timing unique trend : Z)
  : list string * list string * list string :=
  (let positive := [] in
  let negative := [] in
  let recommendations := [] in
  let '(positive, negative, recommendations) :=
    if 70 <=? hook
    then (positive ++ ["Strong hook that grabs attention immediately"],
          negative, recommendations)
    else (positive,
          negative ++ ["Hook could be more compelling"],
          recommendations
            ++ ["Start with a question, bold statement, or curiosity gap"]) in
  let '(positive, recommendations) :=
    if 70 <=? emotional
    then (positive ++ ["Good emotional resonance with audience"],
          recommendations)
    else (positive,
          recommendations
            ++ ["Add more emotional language and relatable scenarios"]) in
  let '(positive, recommendations) :=
    if 70 <=? shareable
    then (positive ++ ["High shareability factor"], recommendations)
    else (positive,
          recommendations
            ++ ["Include a clear call-to-action and value proposition"]) in
  let '(positive, recommendations) :=
    if 80 <=? timing
    then (positive ++ ["Optimal posting time"], recommendations)
    else (positive,
          recommendations
            ++ ["Consider posting during peak engagement hours"]) in
  let '(positive, recommendations) :=
    if 70 <=? unique
    then (positive ++ ["Unique angle that stands out"], recommendations)
    else (positive,
          recommendations ++ ["Try a different content format or angle"]) in
  let '(positive, recommendations) :=
    if 70 <=? trend
    then (positive ++ ["Well-aligned with current trends"], recommendations)
    else (positive,
          recommendations ++ ["Incorporate trending topics or hashtags"]) in
  (positive, negative, recommendations))%list.

Definition viral_hooks : list (string * list string) :=
  [ ("youtube",
     [ "Wait until you see this...";
       "This changes EVERYTHING";
       "I can't believe this actually works";
       "Stop doing this wrong";
       "The secret nobody talks about" ]);
    ("tiktok",
     [ "POV: You finally found the answer";
       "This is your sign to...";
       "Tell me you {topic} without telling me you {topic}";
       "The way I just...";
       "Nobody asked but..." ]);
    ("instagram",
     [ "Save this for later!";
       "Which one are you?";
       "Tag someone who needs this";
       "This is your reminder to...";
       "The secret to..." ]);
    ("twitter",
     [ "Hot take:";
       "Unpopular opinion:";
       "What if I told you...";
       "The real reason...";
       "Stop believing this myth:" ]);
    ("linkedin",
     [ "I made a $X mistake so you don't have to";
       "After X years in {industry}, here's what I learned";
       "The biggest misconception about...";
       "Why most people fail at...";
       "The framework that changed everything" ]) ].

Definition _generate_hook_variations (platform : string) (webapp_data : WebApp)
  : list string :=
  let category :=
    match wa_category webapp_data with Some c => c | None => "SaaS" end in
  let platform_hooks :=
    match Py.get (PyStr.split_head "_" platform) viral_hooks with
    | Some hs => hs
    | None =>
        match Py.get "youtube" viral_hooks with Some hs => hs | None => [] end
    end in
  map (fun hook => PyStr.replace "{topic}" (PyStr.lower category) hook)
      (firstn 3 platform_hooks).

(** [self.trending_hashtags] *)
Definition trending_hashtags : list (string * list string) :=
  [ ("SaaS", ["#SaaS"; "#Productivity"; "#Startup"; "#TechTools";
              "#WorkSmarter"; "#AITools"; "#RemoteWork"]);
    ("Developer", ["#DevTools"; "#Programming"; "#Coding";
                   "#SoftwareEngineering"; "#OpenSource"; "#WebDev"]);
    ("Productivity", ["#Productivity"; "#TimeManagement"; "#Efficiency";
                      "#WorkLifeBalance"; "#Focus"; "#Success"]);
    ("AI", ["#AI"; "#MachineLearning"; "#ArtificialIntelligence";
            "#ChatGPT"; "#Automation"; "#FutureOfWork"]);
    ("Marketing", ["#Marketing"; "#DigitalMarketing"; "#ContentMarketing";
                   "#GrowthHacking"; "#SocialMedia"]) ].

(** The ["optimal"] entry of [hashtag_limits]. *)
Definition optimal_hashtag_count : list (string * nat) :=
  [ ("instagram", 8%nat); ("tiktok", 4%nat); ("twitter", 1%nat);
    ("linkedin", 4%nat); ("facebook", 3%nat); ("youtube", 4%nat) ].

(** What the orchestrator reads of the dict that [optimize_content]
    returns: [optimizations.hashtags.hashtags],
    [optimizations.hook_variations] and [viral_score]. *)
Record OptimizedContent := {
  opt_hashtags : list string;
  opt_hook_variations : list string;
  opt_viral_score : ViralScoreResult
}.

(** [int(x)] of a float: truncation towards zero. *)
Definition int_of (x : Q) : Z := Z.quot (Qnum x) (Z.pos (Qden x)).

Section Scoring.

(** [fl x] is the float that the result [x] of one arithmetic
    operation, or of reading one literal, is rounded to. *)
Variable fl : Q -> Q.

(** [repr_content c] is [str(content)], the text Python prints for the
    content dict. *)
Variable repr_content : Content -> string.

(** [self.trend_data.get("trending_categories", [])] and
    [self.trend_data.get("trending_hashtags", [])] *)
Variable trending_categories : list string.
Variable trend_hashtags : list string.

Definition fmul (x y : Q) : Q := fl (x * y).
Definition fadd (x y : Q) : Q := fl (x + y).
Definition fdiv (x y : Q) : Q := fl (x / y).

(** [webapp_data.get("name") in str(content)] raises [TypeError] when
    the name is missing. *)
Definition _score_uniqueness (content_package : ContentPackage)
           (webapp_data : WebApp) : call_result Z :=
  let score := 60 in
  let content := get_content content_package in
  let score :=
    match pkg_content_angle content_package with
    | Some angle =>
        if Py.nonempty angle then
          match Py.get "format" angle with
          | Some (PStr f) =>
              if PyStr.mem f unique_formats then score + 15 else score
          | _ => score
          end
        else score
    | None => score
    end in
  match wa_name webapp_data with
  | Some name =>
      let score :=
        if PyStr.contains name (repr_content content)
        then score + 10 else score in
      Returned (Z.min 100 score)
  | None =>
      Raised "'in <string>' requires string as left operand, not NoneType"
  end.

Definition _score_trend_alignment (webapp_data : WebApp) : Z :=
  let score := 50 in
  let category :=
    match wa_category webapp_data with Some c => c | None => "SaaS" end in
  let score :=
    if PyStr.mem category trending_categories then score + 25 else score in
  let score :=
    if PyStr.mem category ["SaaS"; "Developer Tools"; "AI"]
    then score + 15 else score in
  Z.min 100 score.

Definition _estimate_reach (viral_score : Z) (platform : string) : Z :=
  let platform_key := PyStr.split_head "_" platform in
  let base :=
    match Py.get platform_key base_reach with
    | Some b => b
    | None => 10000
    end in
  let multiplier := fdiv (inject_Z viral_score) 50 in
  int_of (fmul (inject_Z base) multiplier).

(** The weighted sum, evaluated left to right as Python does. *)
Definition weighted_sum (hook emotional shareable timing unique trend : Z)
  : Q :=
  fadd (fadd (fadd (fadd (fadd
    (fmul (inject_Z hook) (fl (25 # 100)))
    (fmul (inject_Z emotional) (fl (20 # 100))))
    (fmul (inject_Z shareable) (fl (20 # 100))))
    (fmul (inject_Z timing) (fl (10 # 100))))
    (fmul (inject_Z unique) (fl (15 # 100))))
    (fmul (inject_Z trend) (fl (10 # 100))).

Definition _calculate_viral_score (hour : Z)
           (content_package : ContentPackage) (platform : string)
           (webapp_data : WebApp) : call_result ViralScoreResult :=
  let content := get_content content_package in
  let hook :=
    match video_script content with
    | Some vs => match vs_hook vs with Some h => h | None => "" end
    | None => ""
    end in
  let text :=
    match caption content with
    | Some c => caption_text c
    | None => ""
    end in
  let hook_strength := _score_hook hook platform in
  let emotional_impact := _score_emotional_impact text in
  let shareability := _score_shareability content_package platform in
  let timing_score := _score_timing hour platform in
  match _score_uniqueness content_package webapp_data with
  | Raised msg => Raised msg
  | Returned uniqueness =>
      let trend_alignment := _score_trend_alignment webapp_data in
      let overall :=
        int_of (weighted_sum hook_strength emotional_impact shareability
                             timing_score uniqueness trend_alignment) in
      let viral_probability :=
        Z.min 100 (int_of (fmul (inject_Z overall) (fl (85 # 100)))) in
      let estimated_reach := _estimate_reach overall platform in
      let '(positive_factors, negative_factors, recommendations) :=
        _generate_feedback hook_strength emotional_impact shareability
                           timing_score uniqueness trend_alignment in
      Returned {|
        overall := overall;
        hook_strength := hook_strength;
        emotional_impact := emotional_impact;
        shareability := shareability;
        timing_score := timing_score;
        uniqueness := uniqueness;
        trend_alignment := trend_alignment;
        viral_probability := viral_probability;
        estimated_reach := estimated_reach;
        positive_factors := positive_factors;
        negative_factors := negative_factors;
        recommendations := recommendations
      |}
  end.

(** The hashtags selected by [_optimize_hashtags]. *)
Definition _optimize_hashtags (webapp_data : WebApp) (platform : string)
  : list string :=
  let category :=
    match wa_category webapp_data with Some c => c | None => "SaaS" end in
  let name :=
    PyStr.replace " " ""
      (match wa_name webapp_data with Some n => n | None => "Product" end) in
  let optimal :=
    match Py.get (PyStr.split_head "_" platform) optimal_hashtag_count with
    | Some n => n
    | None => 4%nat
    end in
  let category_hashtags :=
    match Py.get category trending_hashtags with
    | Some hs => hs
    | None =>
        match Py.get "SaaS" trending_hashtags with
        | Some hs => hs
        | None => []
        end
    end in
  let product_hashtag := "#" ++ name in
  let all_hashtags :=
    ([product_hashtag] ++ category_hashtags ++ trend_hashtags)%list in
  firstn optimal all_hashtags.

(** [optimize_content].  The optimized caption, the emoji text and the
    formatting table are computed and stored but not read by the
    orchestrator; of these steps only their exceptions are kept: the
    emoji step reads [content["caption"]["text"]], a [KeyError] when a
    caption has no text. *)
Definition optimize_content (hour : Z) (content_package : ContentPackage)
           (platform : string) (webapp_data : WebApp)
  : call_result OptimizedContent :=
  let content := get_content content_package in
  let hashtags := _optimize_hashtags webapp_data platform in
  let emoji_step : call_result unit :=
    match caption content with
    | Some c =>
        match cap_text c with
        | Some _ => Returned tt
        | None => Raised "'text'"
        end
    | None => Returned tt
    end in
  match emoji_step with
  | Raised msg => Raised msg
  | Returned _ =>
      match _calculate_viral_score hour content_package platform
                                   webapp_data with
      | Raised msg => Raised msg
      | Returned score =>
          Returned {|
            opt_hashtags := hashtags;
            opt_hook_variations :=
              _generate_hook_variations platform webapp_data;
            opt_viral_score := score
          |}
      end
  end.

End Scoring.

(** ** The caption

    [_optimize_caption], [_format_for_readability] and [_add_emojis]:
    [optimize_content] stores what they return under ["optimizations"]. *)

Definition is_sentence_end (c : ascii) : bool :=
  Ascii.eqb c "." || Ascii.eqb c "!" || Ascii.eqb c "?".

Definition starts_with_space (s : string) : bool :=
  match s with
  | String c _ => PyStr.is_space c
  | EmptyString => false
  end.

(** [re.sub(r'([.!?])\s+', r'\1\n', text)], scanning from the left: a
    sentence end that is followed by whitespace is kept, a line feed is
    put after it and the whole run of whitespace is dropped; [dropping]
    holds while that run lasts. *)
Fixpoint break_sentences (dropping : bool) (text : string) : string :=
  match text with
  | EmptyString => EmptyString
  | String c rest =>
      if dropping && PyStr.is_space c then break_sentences true rest
      else if is_sentence_end c && starts_with_space rest
      then String c (String PyStr.newline (break_sentences true rest))
      else String c (break_sentences false rest)
  end.

Definition _format_for_readability (text platform : string) : string :=
  let text := break_sentences false text in
  let lines := PyStr.split PyStr.newline text in
  let formatted_lines :=
    flat_map (fun line =>
                let line := PyStr.strip line in
                if Py.str_truthy line then [line] else [])
             lines in
  PyStr.join (String PyStr.newline EmptyString) formatted_lines.



(** [self.emoji_sets]; an emoji is the string of its UTF-8 bytes. *)
Definition emoji_sets : list (string * list string) :=
  [ ("professional",
     ["💼"; "📊"; "🎯"; "💡"; "📈"; "✅"; "🔍"; "📋"]);
    ("casual",
     ["🔥"; "💯"; "😎"; "👏"; "🙌"; "✨"; "💪"; "🚀"]);
    ("friendly",
     ["😊"; "👋"; "🎉"; "💫"; "🌟"; "❤️"; "🤝"; "🎊"]);
    ("urgent",
     ["⚡"; "🔥"; "⏰"; "🚨"; "💥"; "⚠️"; "🏃"; "💨"]) ].

Section Emojis.

(** [choice n l] is what the call number [n], counted from 0 within one
    run of [_add_emojis], of [random.choice] returns on the list [l]. *)
Variable choice : nat -> list string -> string.

(** One round of the loop over [enumerate(lines)]: the line that is
    appended to [enhanced_lines] and the new [emoji_count].  Every call
    of [random.choice] is followed by [emoji_count += 1], so the count
    also numbers the calls. *)
Definition enhance_line (emojis_to_add : list string) (max_emojis : nat)
           (i : nat) (line : string) (emoji_count : nat) : string * nat :=
  if Nat.leb max_emojis emoji_count then (line, emoji_count)
  else if Nat.eqb i 0 && Nat.ltb 10 (String.length line)
  then (choice emoji_count emojis_to_add ++ " " ++ line, S emoji_count)
  else if PyStr.contains "?" line && Nat.ltb emoji_count max_emojis
  then (line ++ " " ++ choice emoji_count ["🤔"; "💭"; "❓"], S emoji_count)
  else if existsb (fun word => PyStr.contains word (PyStr.lower line))
                  ["free"; "try"; "start"]
          && Nat.ltb emoji_count max_emojis
  then (line ++ " " ++ choice emoji_count ["🚀"; "✨"; "👆"], S emoji_count)
  else (line, emoji_count).

(** The loop: [enhanced_lines] and [emoji_count] after the lines
    [todo], the first of which has the index [i]. *)
Fixpoint enhance_lines (emojis_to_add : list string) (max_emojis : nat)
         (i : nat) (todo : list string) (acc : list string * nat)
  : list string * nat :=
  match todo with
  | [] => acc
  | line :: rest =>
      let '(enhanced_lines, emoji_count) := acc in
      let '(line, emoji_count) :=
        enhance_line emojis_to_add max_emojis i line emoji_count in
      enhance_lines emojis_to_add max_emojis (S i) rest
                    ((enhanced_lines ++ [line])%list, emoji_count)
  end.

(** The emojis and their number for a platform. *)
Definition emoji_strategy (platform tone : string) : list string * nat :=
  let emoji_set :=
    match Py.get tone emoji_sets with
    | Some emojis => emojis
    | None =>
        match Py.get "casual" emoji_sets with
        | Some emojis => emojis
        | None => []
        end
    end in
  if String.eqb platform "linkedin" then (["💼"; "📊"; "💡"; "✅"], 3%nat)
  else if String.eqb platform "twitter" then (["🔥"; "💯"; "⚡"; "🎯"], 2%nat)
  else (emoji_set, 5%nat).

Definition _add_emojis (text platform tone : string) : string :=
  let '(emojis_to_add, max_emojis) := emoji_strategy platform tone in
  let lines := PyStr.split PyStr.newline text in
  let '(enhanced_lines, _) :=
    enhance_lines emojis_to_add max_emojis 0 lines ([], 0%nat) in
  PyStr.join (String PyStr.newline EmptyString) enhanced_lines.

End Emojis.

End OptimizerAgent.

(** ** Python's [list.sort], [min] and [max] with a key *)

Module PySort.

(** [insert key x l] puts [x] before the first element of [l] whose key is
    not smaller: among equal keys the inserted element comes first. *)
Fixpoint insert {A : Type} (key : A -> Z) (x : A) (l : list A) : list A :=
  match l with
  | [] => [x]
  | y :: l' => if key x <=? key y then x :: l else y :: insert key x l'
  end.

(** [l.sort(key=key)]: a stable sort, elements with equal keys keep the
    order they had in [l]. *)
Fixpoint sort {A : Type} (key : A -> Z) (l : list A) : list A :=
  match l with
  | [] => []
  | x :: l' => insert key x (sort key l')
  end.

(** [max(l, key=key)] with [best] the maximum so far: a later element
    replaces it only when its key is strictly greater. *)
Fixpoint max_from {A : Type} (key : A -> Z) (best : A) (l : list A) : A :=
  match l with
  | [] => best
  | x :: l' =>
      if key best <? key x then max_from key x l' else max_from key best l'
  end.

(** [max(l, key=key)]; [None] stands for the [ValueError] on an empty
    list. *)
Definition max {A : Type} (key : A -> Z) (l : list A) : option A :=
  match l with
  | [] => None
  | x :: l' => Some (max_from key x l')
  end.

(** [min(l, key=key)] for float keys, first minimum wins. *)
Fixpoint min_from {A : Type} (key : A -> Q) (best : A) (l : list A) : A :=
  match l with
  | [] => best
  | x :: l' =>
      if Qle_bool (key best) (key x)
      then min_from key best l' else min_from key x l'
  end.

Definition min {A : Type} (key : A -> Q) (l : list A) : option A :=
  match l with
  | [] => None
  | x :: l' => Some (min_from key x l')
  end.

End PySort.

(** ** [media_agent_v2.py]

    Costs are amounts of money written as decimal literals; they are kept
    as exact rationals. *)

Module MediaAgentV2.

Inductive MediaType := IMAGE | VIDEO | AUDIO.

Inductive ProviderPriority := FREE | CHEAP | PREMIUM.

Definition priority_eqb (a b : ProviderPriority) : bool :=
  match a, b with
  | FREE, FREE | CHEAP, CHEAP | PREMIUM, PREMIUM => true
  | _, _ => false
  end.

Record MediaAsset := {
  id : string;
  type : MediaType;
  url : option string;
  local_path : option string;
  metadata : list (string * string);
  status : string;
  provider : string;
  cost : Q
}.

Definition with_id (a : MediaAsset) (new_id : string) : MediaAsset :=
  {| id := new_id; type := type a; url := url a;
     local_path := local_path a; metadata := metadata a;
     status := status a; provider := provider a; cost := cost a |}.

(** One entry of [self.providers], [self.video_providers] or
    [self.audio_providers].  [unit_cost] is the entry's
    ["cost_per_image"], ["cost_per_video"] or ["cost_per_char"]; the
    ["models"] table only feeds the requests and is left out. *)
Record ProviderConfig := {
  key : option string;
  base_url : string;
  priority : ProviderPriority;
  unit_cost : Q
}.

(** [priority_order], with the default 3 of [priority_order.get(_, 3)]
    never reached since the three tiers are all listed. *)
Definition priority_order (p : ProviderPriority) : Z :=
  match p with FREE => 0 | CHEAP => 1 | PREMIUM => 2 end.

Definition aspect_ratios : list (string * (Z * Z)) :=
  [ ("instagram", (1024, 1024));
    ("tiktok", (1080, 1920));
    ("youtube", (1920, 1080));
    ("twitter", (1600, 900));
    ("linkedin", (1200, 627));
    ("facebook", (1200, 630)) ].

Definition image_placeholder_url (width height : Z) : string :=
  "https://images.unsplash.com/photo-1551434678-e076c223a692?w="
    ++ PyStr.of_Z width ++ "&h=" ++ PyStr.of_Z height ++ "&fit=crop".

Definition video_placeholder_url : string :=
  "https://assets.mixkit.co/videos/preview/mixkit-typing-on-a-laptop-in-a-coffee-shop-484-large.mp4".

(** [" ".join(lines)] *)
Fixpoint join_spaces (lines : list string) : string :=
  match lines with
  | [] => ""
  | [l] => l
  | l :: rest => l ++ " " ++ join_spaces rest
  end.

Definition _extract_voiceover_text (script : VideoScript) : string :=
  let voiceover_lines :=
    flat_map (fun scene =>
                match scene_audio scene with
                | Some audio =>
                    if Py.str_truthy audio
                       && (5 <? Z.of_nat (String.length audio))
                    then [audio] else []
                | None => []
                end)
             (vs_scenes script) in
  if Py.nonempty voiceover_lines then join_spaces voiceover_lines
  else match vs_hook script with Some h => h | None => "" end.

Section Agent.

(** The constructor's arguments, and [os.environ]. *)
Variable user_api_keys : gmap string string.
Variable user_plan : string.
Variable environ : gmap string string.

(** [remote name prompt] is the outcome of the HTTP exchange with
    provider [name], polling included: the locator of the generated
    media, or the exception raised by a refused request, a malformed
    answer or an exhausted poll. *)
Variable remote : string -> string -> call_result string.

(** [now] is [datetime.now().timestamp()] as printed in an id. *)
Variable now : string.

Definition _get_key (key_name : string) : option string :=
  match user_api_keys !! key_name with
  | Some k => if Py.str_truthy k then Some k else environ !! key_name
  | None => environ !! key_name
  end.

Definition providers : list (string * ProviderConfig) :=
  [ ("huggingface",
     {| key := _get_key "HUGGINGFACE_TOKEN";
        base_url := "https://api-inference.huggingface.co/models";
        priority := FREE; unit_cost := 0 |});
    ("leonardo",
     {| key := _get_key "LEONARDO_API_KEY";
        base_url := "https://cloud.leonardo.ai/api/rest/v1";
        priority := PREMIUM; unit_cost := 3 # 100 |});
    ("openai",
     {| key := _get_key "OPENAI_API_KEY";
        base_url := "https://api.openai.com/v1";
        priority := PREMIUM; unit_cost := 4 # 100 |});
    ("replicate",
     {| key := _get_key "REPLICATE_API_TOKEN";
        base_url := "https://api.replicate.com/v1";
        priority := CHEAP; unit_cost := 1 # 100 |});
    ("fal",
     {| key := _get_key "FAL_AI_KEY";
        base_url := "https://fal.run";
        priority := CHEAP; unit_cost := 2 # 100 |});
    ("siliconflow",
     {| key := _get_key "SILICONFLOW_API_KEY";
        base_url := "https://api.siliconflow.cn/v1";
        priority := FREE; unit_cost := 0 |}) ].

Definition video_providers : list (string * ProviderConfig) :=
  [ ("runway",
     {| key := _get_key "RUNWAY_API_KEY";
        base_url := "https://api.runwayml.com/v1";
        priority := PREMIUM; unit_cost := 20 # 100 |});
    ("heygen",
     {| key := _get_key "HEYGEN_API_KEY";
        base_url := "https://api.heygen.com/v1";
        priority := PREMIUM; unit_cost := 30 # 100 |});
    ("replicate_video",
     {| key := _get_key "REPLICATE_API_TOKEN";
        base_url := "https://api.replicate.com/v1";
        priority := CHEAP; unit_cost := 5 # 100 |}) ].

Definition audio_providers : list (string * ProviderConfig) :=
  [ ("elevenlabs",
     {| key := _get_key "ELEVENLABS_API_KEY";
        base_url := "https://api.elevenlabs.io/v1";
        priority := PREMIUM; unit_cost := 1 # 10000 |});
    ("coqui",
     {| key := _get_key "COQUI_API_KEY";
        base_url := "https://app.coqui.ai/api/v1";
        priority := FREE; unit_cost := 0 |});
    ("playht",
     {| key := _get_key "PLAYHT_API_KEY";
        base_url := "https://play.ht/api/v1";
        priority := CHEAP; unit_cost := 5 # 100000 |}) ].

(** The table that [_get_available_providers] picks for a media type;
    [None] is its [else: return []]. *)
Definition table_of (media_type : string)
  : option (list (string * ProviderConfig)) :=
  if String.eqb media_type "image" then Some providers
  else if String.eqb media_type "video" then Some video_providers
  else if String.eqb media_type "audio" then Some audio_providers
  else None.

(** The sort key [priority_order.get(providers[x]["priority"], 3)]. *)
Definition sort_key (table : list (string * ProviderConfig)) (x : string)
  : Z :=
  match Py.get x table with
  | Some config => priority_order (priority config)
  | None => 3
  end.

(** The test of the loop over [providers.items()]:
    [config["key"]] holds a non-empty key, and
    [priority is None or config["priority"] == priority]. *)
Definition is_available (wanted : option ProviderPriority)
           (entry : string * ProviderConfig) : bool :=
  Py.opt_truthy (key (snd entry))
  && match wanted with
     | None => true
     | Some p => priority_eqb (priority (snd entry)) p
     end.

Definition _get_available_providers (media_type : string)
           (wanted : option ProviderPriority) : list string :=
  match table_of media_type with
  | None => []
  | Some table =>
      let available := map fst (List.filter (is_available wanted) table) in
      PySort.sort (sort_key table) available
  end.

(** [self.providers[name]["key"]] and the like; the names used below
    are all in their table. *)
Definition config_key (table : list (string * ProviderConfig))
           (name : string) : option string :=
  match Py.get name table with Some config => key config | None => None end.

Definition config_cost (table : list (string * ProviderConfig))
           (name : string) : Q :=
  match Py.get name table with Some config => unit_cost config | None => 0 end.

(** The common shape of the provider methods: without a key the method
    returns [None]; otherwise it performs the exchange, which raises or
    yields the locator that goes into a completed asset.  The upstream
    identifiers that some methods add to the metadata are left out. *)
Definition call_provider (table : list (string * ProviderConfig))
           (name : string) (ty : MediaType) (note : string * string)
           (price : Q) (prompt : string)
  : call_result (option MediaAsset) :=
  if Py.opt_truthy (config_key table name) then
    match remote name prompt with
    | Returned locator =>
        Returned (Some {| id := ""; type := ty; url := Some locator;
                          local_path := None; metadata := [note];
                          status := "completed"; provider := name;
                          cost := price |})
    | Raised msg => Raised msg
    end
  else Returned None.

Definition _generate_huggingface_image (prompt : string) (width height : Z) :=
  call_provider providers "huggingface" IMAGE ("prompt", prompt) 0 prompt.

Definition _generate_leonardo_image (prompt : string) (width height : Z) :=
  call_provider providers "leonardo" IMAGE ("prompt", prompt)
                (config_cost providers "leonardo") prompt.

Definition _generate_openai_image (prompt : string) (width height : Z) :=
  call_provider providers "openai" IMAGE ("prompt", prompt)
                (config_cost providers "openai") prompt.

Definition _generate_replicate_image (prompt : string) (width height : Z) :=
  call_provider providers "replicate" IMAGE ("prompt", prompt)
                (config_cost providers "replicate") prompt.

Definition _generate_fal_image (prompt : string) (width height : Z) :=
  call_provider providers "fal" IMAGE ("prompt", prompt)
                (config_cost providers "fal") prompt.

Definition _generate_siliconflow_image (prompt : string) (width height : Z) :=
  call_provider providers "siliconflow" IMAGE ("prompt", prompt) 0 prompt.

Definition _generate_runway_video (prompt : string)
           (image_url : option string) (duration : Z) :=
  call_provider video_providers "runway" VIDEO ("prompt", prompt)
                (config_cost video_providers "runway") prompt.

(** [generate_video] calls [self._generate_heygen_video] and
    [self._generate_replicate_video]; the class defines neither, so the
    attribute lookup raises inside the [try]. *)
Definition missing_method (method : string)
  : call_result (option MediaAsset) :=
  Raised ("'MediaAgentV2' object has no attribute '" ++ method ++ "'").

Definition _generate_elevenlabs_audio (text voice_id model_id : string)
  : call_result (option MediaAsset) :=
  call_provider audio_providers "elevenlabs" AUDIO
                ("text", PyStr.take 100 text)
                (inject_Z (Z.of_nat (String.length text))
                 * config_cost audio_providers "elevenlabs")%Q
                text.

Definition _generate_coqui_audio (text : string)
  : call_result (option MediaAsset) :=
  if Py.opt_truthy (config_key audio_providers "coqui")
  then Returned None else Returned None.

Definition _generate_playht_audio (text : string)
  : call_result (option MediaAsset) :=
  if Py.opt_truthy (config_key audio_providers "playht")
  then Returned None else Returned None.

(** The loop [for provider_name in providers: try: ... except: continue].
    [call name] is [None] for a name that the [if/elif] chain does not
    know ([continue]); a result that is an asset ends the loop, a
    [None] result or an exception moves on to the next name. *)
Fixpoint first_success
         (call : string -> option (call_result (option MediaAsset)))
         (names : list string) : option MediaAsset :=
  match names with
  | [] => None
  | provider_name :: rest =>
      match call provider_name with
      | Some (Returned (Some result)) => Some result
      | _ => first_success call rest
      end
  end.

Definition image_call (prompt : string) (width height : Z)
           (provider_name : string)
  : option (call_result (option MediaAsset)) :=
  if String.eqb provider_name "huggingface"
  then Some (_generate_huggingface_image prompt width height)
  else if String.eqb provider_name "leonardo"
  then Some (_generate_leonardo_image prompt width height)
  else if String.eqb provider_name "openai"
  then Some (_generate_openai_image prompt width height)
  else if String.eqb provider_name "replicate"
  then Some (_generate_replicate_image prompt width height)
  else if String.eqb provider_name "fal"
  then Some (_generate_fal_image prompt width height)
  else if String.eqb provider_name "siliconflow"
  then Some (_generate_siliconflow_image prompt width height)
  else None.

Definition generate_image (prompt platform : string) (width height : Z)
           (prefer_free : bool) : MediaAsset :=
  let asset_id := "img_" ++ now in
  let platform_key := PyStr.split_head "_" platform in
  let '(width, height) :=
    match Py.get platform_key aspect_ratios with
    | Some wh => wh
    | None => (width, height)
    end in
  let wanted :=
    if prefer_free && String.eqb user_plan "free" then Some FREE else None in
  let available := _get_available_providers "image" wanted in
  if negb (Py.nonempty available) then
    {| id := asset_id; type := IMAGE;
       url := Some (image_placeholder_url width height);
       local_path := None;
       metadata := [("prompt", prompt); ("platform", platform);
                    ("note", "Placeholder - no API keys")];
       status := "completed"; provider := "placeholder"; cost := 0 |}
  else
    match first_success (image_call prompt width height) available with
    | Some result => with_id result asset_id
    | None =>
        {| id := asset_id; type := IMAGE;
           url := Some (image_placeholder_url width height);
           local_path := None;
           metadata := [("prompt", prompt); ("platform", platform);
                        ("note", "Placeholder - all providers failed")];
           status := "completed"; provider := "placeholder"; cost := 0 |}
    end.

Definition video_call (prompt : string) (image_url : option string)
           (duration : Z) (provider_name : string)
  : option (call_result (option MediaAsset)) :=
  if String.eqb provider_name "runway"
  then Some (_generate_runway_video prompt image_url duration)
  else if String.eqb provider_name "heygen"
  then Some (missing_method "_generate_heygen_video")
  else if String.eqb provider_name "replicate_video"
  then Some (missing_method "_generate_replicate_video")
  else None.

Definition generate_video (prompt : string) (image_url : option string)
           (duration : Z) : MediaAsset :=
  let asset_id := "vid_" ++ now in
  let available := _get_available_providers "video" None in
  if negb (Py.nonempty available) then
    {| id := asset_id; type := VIDEO; url := Some video_placeholder_url;
       local_path := None;
       metadata := [("prompt", prompt);
                    ("note", "Placeholder - no API keys")];
       status := "completed"; provider := "placeholder"; cost := 0 |}
  else
    match first_success (video_call prompt image_url duration) available with
    | Some result => with_id result asset_id
    | None =>
        {| id := asset_id; type := VIDEO; url := Some video_placeholder_url;
           local_path := None;
           metadata := [("prompt", prompt);
                        ("note", "Placeholder - all providers failed")];
           status := "completed"; provider := "placeholder"; cost := 0 |}
    end.

Definition audio_call (text voice_id model_id : string)
           (provider_name : string)
  : option (call_result (option MediaAsset)) :=
  if String.eqb provider_name "elevenlabs"
  then Some (_generate_elevenlabs_audio text voice_id model_id)
  else if String.eqb provider_name "coqui"
  then Some (_generate_coqui_audio text)
  else if String.eqb provider_name "playht"
  then Some (_generate_playht_audio text)
  else None.

Definition generate_voiceover (text voice_id model_id : string)
  : MediaAsset :=
  let asset_id := "audio_" ++ now in
  let available := _get_available_providers "audio" None in
  if negb (Py.nonempty available) then
    {| id := asset_id; type := AUDIO; url := None; local_path := None;
       metadata := [("text", PyStr.take 100 text);
                    ("note", "No API keys available")];
       status := "completed"; provider := "none"; cost := 0 |}
  else
    match first_success (audio_call text voice_id model_id) available with
    | Some result => with_id result asset_id
    | None =>
        {| id := asset_id; type := AUDIO; url := None; local_path := None;
           metadata := [("text", PyStr.take 100 text);
                        ("note", "All providers failed")];
           status := "completed"; provider := "none"; cost := 0 |}
    end.

(** [generate_content_media]: the three generators never raise, so the
    branch that [asyncio.gather(..., return_exceptions=True)] keeps for
    a raised task is never taken and the tasks' results are the
    assets, in the order the tasks were listed. *)
Definition generate_content_media (content_package : ContentPackage)
           (platform : string) : list (string * MediaAsset) :=
  let content := get_content content_package in
  let image_tasks :=
    match image_prompts content with
    | Some prompts =>
        [("image",
          generate_image (ip_primary prompts) platform 1024 1024 true)]
    | None => []
    end in
  let video_tasks :=
    match video_script content with
    | Some script =>
        let title :=
          match vs_title script with
          | Some t => t
          | None => "product showcase"
          end in
        let video_prompt := "Short promotional video: " ++ title in
        let voiceover_text := _extract_voiceover_text script in
        ("video", generate_video video_prompt None 4)
          :: (if Py.str_truthy voiceover_text
              then [("audio",
                     generate_voiceover voiceover_text
                       "21m00Tcm4TlvDq8ikWAM" "eleven_multilingual_v2")]
              else [])
    | None => []
    end in
  fold_left (fun assets '(asset_type, result) =>
               Py.set asset_type result assets)
            (image_tasks ++ video_tasks)%list [].

Record CostEstimate := {
  cost_image : Q;
  cost_video : Q;
  cost_audio : Q;
  cost_total : Q
}.

Definition estimate_cost (content_package : ContentPackage) : CostEstimate :=
  let content := get_content content_package in
  let image :=
    if Py.has (image_prompts content) then
      match PySort.min (config_cost providers)
                       (_get_available_providers "image" None) with
      | Some cheapest => config_cost providers cheapest
      | None => 0%Q
      end
    else 0%Q in
  let video :=
    if Py.has (video_script content) then
      match PySort.min (config_cost video_providers)
                       (_get_available_providers "video" None) with
      | Some cheapest => config_cost video_providers cheapest
      | None => 0%Q
      end
    else 0%Q in
  let audio :=
    match video_script content with
    | Some script =>
        let text := _extract_voiceover_text script in
        match _get_available_providers "audio" None with
        | cheapest :: _ =>
            if Py.str_truthy text
            then (inject_Z (Z.of_nat (String.length text))
                  * config_cost audio_providers cheapest)%Q
            else 0%Q
        | [] => 0%Q
        end
    | None => 0%Q
    end in
  {| cost_image := image; cost_video := video; cost_audio := audio;
     cost_total := (image + video + audio)%Q |}.

End Agent.

End MediaAgentV2.

(** ** [nightly_workflow_v2.py] *)

Module NightlyWorkflowV2.

Inductive WorkflowStage :=
| RESEARCH | CREATIVE | MEDIA | OPTIMIZE | AB_TEST | APPROVAL_QUEUE | COMPLETE.

(** One entry of [research_results["trending_topics"]]: the research
    agent builds each with a ["topic"] key whose value may be [None]. *)
Record TrendingTopic := { topic : option string }.

(** [research_results]; a missing key is [None] or the empty list that
    every reader passes as the default of [.get]. *)
Record ResearchResults := {
  research_date : option string;
  trending_topics : list TrendingTopic;
  content_angles : list PyDict;
  recommended_hashtags : list string;
  res_trending_categories : list string;
  res_trending_hashtags : list string
}.

Definition empty_research : ResearchResults :=
  {| research_date := None; trending_topics := []; content_angles := [];
     recommended_hashtags := []; res_trending_categories := [];
     res_trending_hashtags := [] |}.

(** A variant dict of [_generate_ab_variants]. *)
Record Variant := {
  variant_id : string;
  v_title : string;
  v_caption : string;
  v_hashtags : list string;
  v_viral_score : Z;
  v_confidence : Q;
  v_content_angle : PyDict;
  v_test_hypothesis : string
}.

Record ContentWorkflowState := {
  user_id : string;
  webapp_id : string;
  webapp_data : WebApp;
  user_api_keys : gmap string string;
  user_plan : string;
  platforms : list string;
  research_results : ResearchResults;
  content_packages : list (string * ContentPackage);
  media_assets : list (string * list (string * MediaAgentV2.MediaAsset));
  optimized_content : list (string * OptimizerAgent.OptimizedContent);
  viral_scores : list (string * OptimizerAgent.ViralScoreResult);
  ab_test_variants : list (string * list Variant);
  final_content : list PyDict;
  current_stage : WorkflowStage;
  errors : list string;
  cost_estimate : Q;
  actual_cost : Q
}.

Definition set_research_results
           (v : ResearchResults)
           (state : ContentWorkflowState) : ContentWorkflowState :=
  {| user_id := user_id state; webapp_id := webapp_id state;
     webapp_data := webapp_data state;
     user_api_keys := user_api_keys state;
     user_plan := user_plan state; platforms := platforms state;
     research_results := v;
     content_packages := content_packages state;
     media_assets := media_assets state;
     optimized_content := optimized_content state;
     viral_scores := viral_scores state;
     ab_test_variants := ab_test_variants state;
     final_content := final_content state;
     current_stage := current_stage state; errors := errors state;
     cost_estimate := cost_estimate state;
     actual_cost := actual_cost state |}.

Definition set_content_packages
           (v : list (string * ContentPackage))
           (state : ContentWorkflowState) : ContentWorkflowState :=
  {| user_id := user_id state; webapp_id := webapp_id state;
     webapp_data := webapp_data state;
     user_api_keys := user_api_keys state;
     user_plan := user_plan state; platforms := platforms state;
     research_results := research_results state;
     content_packages := v; media_assets := media_assets state;
     optimized_content := optimized_content state;
     viral_scores := viral_scores state;
     ab_test_variants := ab_test_variants state;
     final_content := final_content state;
     current_stage := current_stage state; errors := errors state;
     cost_estimate := cost_estimate state;
     actual_cost := actual_cost state |}.

Definition set_media_assets
           (v : list (string * list (string * MediaAgentV2.MediaAsset)))
           (state : ContentWorkflowState) : ContentWorkflowState :=
  {| user_id := user_id state; webapp_id := webapp_id state;
     webapp_data := webapp_data state;
     user_api_keys := user_api_keys state;
     user_plan := user_plan state; platforms := platforms state;
     research_results := research_results state;
     content_packages := content_packages state; media_assets := v;
     optimized_content := optimized_content state;
     viral_scores := viral_scores state;
     ab_test_variants := ab_test_variants state;
     final_content := final_content state;
     current_stage := current_stage state; errors := errors state;
     cost_estimate := cost_estimate state;
     actual_cost := actual_cost state |}.

Definition set_optimized_content
           (v : list (string * OptimizerAgent.OptimizedContent))
           (state : ContentWorkflowState) : ContentWorkflowState :=
  {| user_id := user_id state; webapp_id := webapp_id state;
     webapp_data := webapp_data state;
     user_api_keys := user_api_keys state;
     user_plan := user_plan state; platforms := platforms state;
     research_results := research_results state;
     content_packages := content_packages state;
     media_assets := media_assets state; optimized_content := v;
     viral_scores := viral_scores state;
     ab_test_variants := ab_test_variants state;
     final_content := final_content state;
     current_stage := current_stage state; errors := errors state;
     cost_estimate := cost_estimate state;
     actual_cost := actual_cost state |}.

Definition set_viral_scores
           (v : list (string * OptimizerAgent.ViralScoreResult))
           (state : ContentWorkflowState) : ContentWorkflowState :=
  {| user_id := user_id state; webapp_id := webapp_id state;
     webapp_data := webapp_data state;
     user_api_keys := user_api_keys state;
     user_plan := user_plan state; platforms := platforms state;
     research_results := research_results state;
     content_packages := content_packages state;
     media_assets := media_assets state;
     optimized_content := optimized_content state;
     viral_scores := v; ab_test_variants := ab_test_variants state;
     final_content := final_content state;
     current_stage := current_stage state; errors := errors state;
     cost_estimate := cost_estimate state;
     actual_cost := actual_cost state |}.

Definition set_ab_test_variants
           (v : list (string * list Variant))
           (state : ContentWorkflowState) : ContentWorkflowState :=
  {| user_id := user_id state; webapp_id := webapp_id state;
     webapp_data := webapp_data state;
     user_api_keys := user_api_keys state;
     user_plan := user_plan state; platforms := platforms state;
     research_results := research_results state;
     content_packages := content_packages state;
     media_assets := media_assets state;
     optimized_content := optimized_content state;
     viral_scores := viral_scores state; ab_test_variants := v;
     final_content := final_content state;
     current_stage := current_stage state; errors := errors state;
     cost_estimate := cost_estimate state;
     actual_cost := actual_cost state |}.

Definition set_final_content
           (v : list PyDict)
           (state : ContentWorkflowState) : ContentWorkflowState :=
  {| user_id := user_id state; webapp_id := webapp_id state;
     webapp_data := webapp_data state;
     user_api_keys := user_api_keys state;
     user_plan := user_plan state; platforms := platforms state;
     research_results := research_results state;
     content_packages := content_packages state;
     media_assets := media_assets state;
     optimized_content := optimized_content state;
     viral_scores := viral_scores state;
     ab_test_variants := ab_test_variants state; final_content := v;
     current_stage := current_stage state; errors := errors state;
     cost_estimate := cost_estimate state;
     actual_cost := actual_cost state |}.

Definition set_current_stage
           (v : WorkflowStage)
           (state : ContentWorkflowState) : ContentWorkflowState :=
  {| user_id := user_id state; webapp_id := webapp_id state;
     webapp_data := webapp_data state;
     user_api_keys := user_api_keys state;
     user_plan := user_plan state; platforms := platforms state;
     research_results := research_results state;
     content_packages := content_packages state;
     media_assets := media_assets state;
     optimized_content := optimized_content state;
     viral_scores := viral_scores state;
     ab_test_variants := ab_test_variants state;
     final_content := final_content state; current_stage := v;
     errors := errors state; cost_estimate := cost_estimate state;
     actual_cost := actual_cost state |}.

Definition set_errors
           (v : list string)
           (state : ContentWorkflowState) : ContentWorkflowState :=
  {| user_id := user_id state; webapp_id := webapp_id state;
     webapp_data := webapp_data state;
     user_api_keys := user_api_keys state;
     user_plan := user_plan state; platforms := platforms state;
     research_results := research_results state;
     content_packages := content_packages state;
     media_assets := media_assets state;
     optimized_content := optimized_content state;
     viral_scores := viral_scores state;
     ab_test_variants := ab_test_variants state;
     final_content := final_content state;
     current_stage := current_stage state; errors := v;
     cost_estimate := cost_estimate state;
     actual_cost := actual_cost state |}.

Definition set_cost_estimate
           (v : Q)
           (state : ContentWorkflowState) : ContentWorkflowState :=
  {| user_id := user_id state; webapp_id := webapp_id state;
     webapp_data := webapp_data state;
     user_api_keys := user_api_keys state;
     user_plan := user_plan state; platforms := platforms state;
     research_results := research_results state;
     content_packages := content_packages state;
     media_assets := media_assets state;
     optimized_content := optimized_content state;
     viral_scores := viral_scores state;
     ab_test_variants := ab_test_variants state;
     final_content := final_content state;
     current_stage := current_stage state; errors := errors state;
     cost_estimate := v; actual_cost := actual_cost state |}.

Definition stage_name (s : WorkflowStage) : string :=
  match s with
  | RESEARCH => "research"
  | CREATIVE => "creative"
  | MEDIA => "media"
  | OPTIMIZE => "optimize"
  | AB_TEST => "ab_test"
  | APPROVAL_QUEUE => "approval_queue"
  | COMPLETE => "complete"
  end.

Definition _get_fallback_content_angles (webapp_data : WebApp) : list PyDict :=
  let name :=
    match wa_name webapp_data with Some n => n | None => "Your Product" end in
  [ [ ("title", PStr ("How " ++ name ++ " Saves You Time"));
      ("hook", PStr "Stop wasting time on manual tasks...");
      ("platforms", PList [PStr "youtube"; PStr "tiktok"; PStr "instagram"]);
      ("format", PStr "tutorial");
      ("key_message", PStr (name ++ " automates your workflow"));
      ("cta", PStr "Try it free") ];
    [ ("title", PStr ("Before vs After with " ++ name));
      ("hook", PStr "This is what changed everything...");
      ("platforms", PList [PStr "tiktok"; PStr "instagram"; PStr "facebook"]);
      ("format", PStr "transformation");
      ("key_message", PStr "See real results");
      ("cta", PStr "Start now") ] ].

Definition _determine_content_type (platform : string) : string :=
  if PyStr.contains "shorts" platform || PyStr.contains "reels" platform
     || String.eqb platform "tiktok"
  then "video"
  else if PyStr.mem platform ["instagram"; "facebook"] then "image"
  else "text".

(** The assets are [MediaAsset] objects, so of the two tests in the loop
    it is [hasattr(asset, 'url') and asset.url] that applies. *)
Definition _extract_media_urls (platform : string)
           (media_assets : list (string * list (string * MediaAgentV2.MediaAsset)))
  : list string :=
  let platform_assets :=
    match Py.get platform media_assets with Some a => a | None => [] end in
  flat_map (fun '(asset_type, asset) =>
              match MediaAgentV2.url asset with
              | Some u => if Py.str_truthy u then [u] else []
              | None => []
              end)
           platform_assets.

(** [original_content] and [optimized_content] are [None] for the [{}]
    that [_ab_test_node] passes when the platform has no entry. *)

(** The dict [variant_a]. *)
Definition variant_a (original_content : option ContentPackage)
           (optimized_content : option OptimizerAgent.OptimizedContent)
  : Variant :=
  let original :=
    match original_content with Some p => p | None => empty_package end in
  let text :=
    match caption (get_content original) with
    | Some c => OptimizerAgent.caption_text c
    | None => ""
    end in
  {| variant_id := "A";
     v_title := PyStr.take 50 text;
     v_caption := text;
     v_hashtags :=
       match optimized_content with
       | Some o => OptimizerAgent.opt_hashtags o
       | None => []
       end;
     v_viral_score :=
       match optimized_content with
       | Some o => OptimizerAgent.overall (OptimizerAgent.opt_viral_score o)
       | None => 50
       end;
     v_confidence := 8 # 10;
     v_content_angle :=
       match pkg_content_angle original with Some a => a | None => [] end;
     v_test_hypothesis := "Original optimized version" |}.

(** [variant_b]: a copy of [variant_a] with a new id, title, hypothesis
    and score. *)
Definition variant_b (a : Variant) (first_hook : string) : Variant :=
  {| variant_id := "B";
     v_title := first_hook;
     v_caption := v_caption a;
     v_hashtags := v_hashtags a;
     v_viral_score := Z.min 100 (v_viral_score a + 5);
     v_confidence := v_confidence a;
     v_content_angle := v_content_angle a;
     v_test_hypothesis := "Alternative hook variation" |}.

(** [variant_c]: a copy of [variant_a] with a new id, caption and
    hypothesis. *)
Definition variant_c (a : Variant) (recommended replacement : string)
  : Variant :=
  {| variant_id := "C";
     v_title := v_title a;
     v_caption := PyStr.replace recommended replacement (v_caption a);
     v_hashtags := v_hashtags a;
     v_viral_score := v_viral_score a;
     v_confidence := v_confidence a;
     v_content_angle := v_content_angle a;
     v_test_hypothesis := "Alternative CTA" |}.

Definition _generate_ab_variants (platform : string)
           (original_content : option ContentPackage)
           (optimized_content : option OptimizerAgent.OptimizedContent)
  : list Variant :=
  let original :=
    match original_content with Some p => p | None => empty_package end in
  let content := get_content original in
  let a := variant_a original_content optimized_content in
  let variants := [a] in
  let variants :=
    if Py.has (video_script content) then
      let hooks :=
        match optimized_content with
        | Some o => OptimizerAgent.opt_hook_variations o
        | None => []
        end in
      match hooks with
      | first_hook :: _ => (variants ++ [variant_b a first_hook])%list
      | [] => variants
      end
    else variants in
  if (Z.of_nat (length variants) <? 3) then
    let ctas :=
      match cta content with
      | Some c =>
          match cta_variations c with Some vs => vs | None => [] end
      | None => []
      end in
    let recommended :=
      match cta content with
      | Some c => match cta_recommended c with Some r => r | None => "" end
      | None => ""
      end in
    match Py.values ctas with
    | [] => variants
    | first_cta :: others =>
        let replacement :=
          match others with
          | second_cta :: _ => second_cta
          | [] => first_cta
          end in
        (variants ++ [variant_c a recommended replacement])%list
    end
  else variants.

(** [state.get("errors", []) + [msg]] *)
Definition add_error (errs : list string) (msg : string) : list string :=
  (errs ++ [msg])%list.

Section Run.

(** The collaborators of a run.
    - [research_webapp] is [ResearchAgentV2().research_webapp].
    - [generate_content_package call] is the [call]-th call, counted
      from 0 over the platform list, of
      [CreativeAgent().generate_content_package]; the agent draws
      random choices, so two calls with the same arguments may differ.
    - [fl] and [repr_content] are those of the scoring engine, [hour]
      is the hour of the clock, [environ], [remote] and [now] are those
      of the media agent. *)
Variable research_webapp : WebApp -> call_result ResearchResults.
Variable generate_content_package :
  nat -> ResearchResults -> WebApp -> string -> call_result ContentPackage.
Variable fl : Q -> Q.
Variable repr_content : Content -> string.
Variable hour : Z.
Variable environ : gmap string string.
Variable remote : string -> string -> call_result string.
Variable now : string.

Definition _research_node (state : ContentWorkflowState)
  : ContentWorkflowState :=
  match research_webapp (webapp_data state) with
  | Returned research_results =>
      set_current_stage RESEARCH
        (set_research_results research_results state)
  | Raised e =>
      set_research_results
        {| research_date := None;
           trending_topics := [];
           content_angles :=
             _get_fallback_content_angles (webapp_data state);
           recommended_hashtags := [];
           res_trending_categories := [];
           res_trending_hashtags := [] |}
        (set_errors ["Research failed: " ++ e] state)
  end.

(** The loop of [_creative_node]; [call] numbers the calls, the
    accumulator is [content_packages] and [state["errors"]]. *)
Fixpoint creative_loop (state : ContentWorkflowState) (call : nat)
         (todo : list string)
         (acc : list (string * ContentPackage) * list string)
  : list (string * ContentPackage) * list string :=
  match todo with
  | [] => acc
  | platform :: rest =>
      let '(content_packages, errs) := acc in
      match generate_content_package call (research_results state)
                                     (webapp_data state) platform with
      | Returned package =>
          creative_loop state (S call) rest
                        (Py.set platform package content_packages, errs)
      | Raised e =>
          creative_loop state (S call) rest
            (content_packages,
             add_error errs ("Creative failed for " ++ platform ++ ": " ++ e))
      end
  end.

Definition _creative_node (state : ContentWorkflowState)
  : ContentWorkflowState :=
  let '(content_packages, errs) :=
    creative_loop state 0 (platforms state) ([], errors state) in
  set_current_stage CREATIVE
    (set_content_packages content_packages (set_errors errs state)).

(** [_media_node].  The media agent's two methods never raise, so the
    [except] branch of the loop is not reached.  The assets are
    [MediaAsset] objects and not dicts: the inner loop that adds
    [asset.get("cost")] to the total skips all of them, and the total
    is the sum of the estimates. *)
Definition _media_node (state : ContentWorkflowState)
  : ContentWorkflowState :=
  let estimate :=
    MediaAgentV2.estimate_cost (user_api_keys state) environ in
  let generate :=
    MediaAgentV2.generate_content_media
      (user_api_keys state) (user_plan state) environ remote now in
  let '(media, total_cost) :=
    fold_left
      (fun '(media, total_cost) '(platform, package) =>
         (Py.set platform (generate package platform) media,
          (total_cost + MediaAgentV2.cost_total (estimate package))%Q))
      (content_packages state) ([], 0%Q) in
  set_current_stage MEDIA
    (set_cost_estimate total_cost (set_media_assets media state)).

Definition _optimize_node (state : ContentWorkflowState)
  : ContentWorkflowState :=
  let optimize :=
    OptimizerAgent.optimize_content fl repr_content
      (res_trending_categories (research_results state))
      (res_trending_hashtags (research_results state)) hour in
  let '(optimized, scores, errs) :=
    fold_left
      (fun '(optimized, scores, errs) '(platform, package) =>
         match optimize package platform (webapp_data state) with
         | Returned o =>
             (Py.set platform o optimized,
              Py.set platform (OptimizerAgent.opt_viral_score o) scores,
              errs)
         | Raised e =>
             (optimized, scores,
              add_error errs
                ("Optimization failed for " ++ platform ++ ": " ++ e))
         end)
      (content_packages state) ([], [], errors state) in
  set_current_stage OPTIMIZE
    (set_viral_scores scores
       (set_optimized_content optimized (set_errors errs state))).

(** [_ab_test_node]: [_generate_ab_variants] does not raise on a
    package of the shape above, so the [except] branch is not
    reached. *)
Definition _ab_test_node (state : ContentWorkflowState)
  : ContentWorkflowState :=
  let variants_of :=
    fold_left
      (fun ab_test_variants platform =>
         Py.set platform
           (_generate_ab_variants platform
              (Py.get platform (content_packages state))
              (Py.get platform (optimized_content state)))
           ab_test_variants)
      (platforms state) [] in
  set_current_stage AB_TEST (set_ab_test_variants variants_of state).

Definition py_opt_str (o : option string) : pyval :=
  match o with Some s => PStr s | None => PNone end.

(** The dict literal that [_finalize_node] builds for a platform. *)
Definition content_item (state : ContentWorkflowState) (platform : string)
           (best_variant : Variant) : PyDict :=
  [ ("id", PStr ("content_" ++ platform ++ "_" ++ now));
    ("user_id", PStr (user_id state));
    ("webapp_id", PStr (webapp_id state));
    ("platform", PStr platform);
    ("type", PStr (_determine_content_type platform));
    ("status", PStr "pending");
    ("title", PStr (v_title best_variant));
    ("caption", PStr (v_caption best_variant));
    ("hashtags", PList (map PStr (v_hashtags best_variant)));
    ("media_urls",
     PList (map PStr (_extract_media_urls platform (media_assets state))));
    ("viral_score", PInt (v_viral_score best_variant));
    ("confidence_score", PNum (v_confidence best_variant));
    ("content_angle", PDict (v_content_angle best_variant));
    ("ab_test_id", PNone);
    ("variant_id", PStr (variant_id best_variant));
    ("is_variant", PBool true);
    ("generation_metadata",
     PDict
       [ ("research_date",
          py_opt_str (research_date (research_results state)));
         ("trending_topics",
          PList (map (fun t => py_opt_str (topic t))
                     (firstn 5 (trending_topics (research_results state)))));
         ("cost_estimate", PNum (cost_estimate state)) ]) ].

(** [_finalize_node]: a platform whose variant list is empty or
    missing gets no item. *)
Definition _finalize_node (state : ContentWorkflowState)
  : ContentWorkflowState :=
  let final :=
    fold_left
      (fun final_content platform =>
         let variants :=
           match Py.get platform (ab_test_variants state) with
           | Some vs => vs
           | None => []
           end in
         match PySort.max v_viral_score variants with
         | Some best_variant =>
             (final_content
                ++ [content_item state platform best_variant])%list
         | None => final_content
         end)
      (platforms state) [] in
  set_current_stage COMPLETE (set_final_content final state).

(** The graph of [_build_workflow]: six nodes, the entry point and the
    edges, the last of which leads to [END]. *)
Inductive Node := research | creative | media | optimize | ab_test | finalize.

Definition entry_point : Node := research.

Definition edge (n : Node) : option Node :=
  match n with
  | research => Some creative
  | creative => Some media
  | media => Some optimize
  | optimize => Some ab_test
  | ab_test => Some finalize
  | finalize => None
  end.

Definition handler (n : Node) : ContentWorkflowState -> ContentWorkflowState :=
  match n with
  | research => _research_node
  | creative => _creative_node
  | media => _media_node
  | optimize => _optimize_node
  | ab_test => _ab_test_node
  | finalize => _finalize_node
  end.

(** The compiled graph keeps one channel per key of
    [ContentWorkflowState].  The value that a handler returns under a
    key is written to the key's channel: a plain key takes the
    returned value, and the key [errors], declared
    [Annotated[List[str], operator.add]], takes [operator.add] of the
    channel's value and the returned value.  Every handler returns
    the whole state, so every key is written after every handler. *)
Definition operator_add (a b : list string) : list string := (a ++ b)%list.

Definition write (channels returned : ContentWorkflowState)
  : ContentWorkflowState :=
  set_errors (operator_add (errors channels) (errors returned)) returned.

(** One step of the graph: the handler reads the channels, and what it
    returns is written to them. *)
Definition step (n : Node) (channels : ContentWorkflowState)
  : ContentWorkflowState :=
  write channels (handler n channels).

(** Running the compiled graph from a node.  [steps] bounds the walk;
    the graph has six nodes and no cycle. *)
Fixpoint invoke_from (steps : nat) (n : Node)
         (channels : ContentWorkflowState) : ContentWorkflowState :=
  match steps with
  | O => channels
  | S steps' =>
      let channels' := step n channels in
      match edge n with
      | Some n' => invoke_from steps' n' channels'
      | None => channels'
      end
  end.

(** [workflow.ainvoke(input)]: the input is written to the channels,
    whose [errors] starts as the empty list, and the graph runs from
    its entry point; the result is the channels' values. *)
Definition ainvoke (input : ContentWorkflowState) : ContentWorkflowState :=
  invoke_from 6 entry_point (write (set_errors [] input) input).

(** The dict that [run] returns when the graph returns. *)
Record RunResult := {
  success : bool;
  content : list PyDict;
  run_errors : list string;
  run_cost_estimate : Q;
  stages_completed : WorkflowStage;
  run_viral_scores : list (string * OptimizerAgent.ViralScoreResult)
}.

(** [run].  The handlers above are total, so the [except] around
    [ainvoke] is not reached. *)
Definition run (user_id webapp_id : string) (webapp_data : WebApp)
           (platforms : list string) (user_api_keys : gmap string string)
           (user_plan : string) : RunResult :=
  let initial_state :=
    {| user_id := user_id; webapp_id := webapp_id;
       webapp_data := webapp_data; user_api_keys := user_api_keys;
       user_plan := user_plan; platforms := platforms;
       research_results := empty_research; content_packages := [];
       media_assets := []; optimized_content := []; viral_scores := [];
       ab_test_variants := []; final_content := [];
       current_stage := RESEARCH; errors := [];
       cost_estimate := 0; actual_cost := 0 |} in
  let result := ainvoke initial_state in
  {| success := true;
     content := final_content result;
     run_errors := errors result;
     run_cost_estimate := cost_estimate result;
     stages_completed := current_stage result;
     run_viral_scores := viral_scores result |}.

End Run.

End NightlyWorkflowV2.

(** ** [research_agent_v2.py]

    [_aggregate_trends], which [research_webapp] calls on what the
    sources returned. *)

Module ResearchAgentV2.

(** An entry of [google_trends["rising_queries"]]: [query.get("query")]
    is [None] when the key is missing, [query.get("value")] is any
    value. *)
Record RisingQuery := { query : option string; value : pyval }.

(** The four lists that [_aggregate_trends] reads from
    [research_results]; a source that failed or lacks the key gives the
    empty list. *)
Record TrendSources := {
  reddit_topics : list string;
  x_hashtags : list string;
  tiktok_themes : list string;
  google_queries : list RisingQuery
}.

(** An entry of [all_topics]; only the entries from Google Trends have
    the key ["growth"]. *)
Record Topic := {
  topic : option string;
  source : string;
  score : Z;
  growth : option pyval
}.

Definition all_topics (research_results : TrendSources) : list Topic :=
  (map (fun topic =>
          {| topic := Some topic; source := "reddit"; score := 1;
             growth := None |})
       (reddit_topics research_results)
   ++ map (fun hashtag =>
             {| topic := Some (PyStr.replace "#" "" hashtag); source := "x";
                score := 2; growth := None |})
          (x_hashtags research_results)
   ++ map (fun theme =>
             {| topic := Some theme; source := "tiktok"; score := 2;
                growth := None |})
          (tiktok_themes research_results)
   ++ map (fun q =>
             {| topic := query q; source := "google_trends"; score := 3;
                growth := Some (value q) |})
          (google_queries research_results))%list.

(** The loop that removes the duplicates: [topic["topic"].lower()]
    raises on [None]. *)
Fixpoint unique_loop (todo : list Topic) (seen : gset string)
         (unique_topics : list Topic) : call_result (list Topic) :=
  match todo with
  | [] => Returned unique_topics
  | t :: rest =>
      match topic t with
      | None => Raised "'NoneType' object has no attribute 'lower'"
      | Some name =>
          let key := PyStr.lower name in
          if bool_decide (key ∉ seen) && (2 <? Z.of_nat (String.length key))
          then unique_loop rest ({[key]} ∪ seen) (unique_topics ++ [t])%list
          else unique_loop rest seen unique_topics
      end
  end.

(** [sorted(unique_topics, key=lambda x: x["score"], reverse=True)[:15]];
    the sort is stable, also with [reverse=True]. *)
Definition _aggregate_trends (research_results : TrendSources)
  : call_result (list Topic) :=
  match unique_loop (all_topics research_results) ∅ [] with
  | Returned unique_topics =>
      Returned (firstn 15 (PySort.sort (fun t => - score t) unique_topics))
  | Raised e => Raised e
  end.

End ResearchAgentV2.

(** ** [workers/tasks.py]

    [run_nightly_content_generation], the caller of
    [NightlyWorkflowV2.run].  The database session is what the task
    reads from it and adds to it: the rows that the queries return are
    arguments, the rows passed to [db.add] are a list, and the queries
    and [db.commit] are taken to return (SQLAlchemy is not part of the
    repository). *)

Module Tasks.

(** The columns of [User] that the task reads or writes; [plan] is
    [user.plan.value]. *)
Record User := {
  id : string;
  plan : string;
  monthly_content_quota : Z;
  monthly_content_used : Z
}.

(** The ORM class [WebApp], with the columns that reach the keys of
    [webapp_data] that the agents read; none of them is nullable. *)
Record WebAppRow := {
  w_id : string;
  w_name : string;
  w_category : string
}.

Inductive ContentStatus :=
| PENDING | APPROVED | REJECTED | POSTED | FAILED | SCHEDULED.

(** The ORM class [Content], with the columns that the task sets. *)
Record ContentRow := {
  c_id : pyval;
  c_user_id : string;
  c_webapp_id : string;
  c_platform : pyval;
  c_type : pyval;
  c_status : ContentStatus;
  c_title : pyval;
  c_caption : pyval;
  c_hashtags : pyval;
  c_media_urls : pyval;
  c_viral_score : pyval;
  c_confidence_score : pyval;
  c_llm_tokens_used : pyval;
  c_generation_metadata : pyval
}.

(** [d.get(k, default)]; [d.get(k)] is [get_or k PNone d]. *)
Definition get_or (k : string) (default : pyval) (d : PyDict) : pyval :=
  match Py.get k d with Some v => v | None => default end.

(** [type(v).__name__] *)
Definition type_name (v : pyval) : string :=
  match v with
  | PNone => "NoneType"
  | PBool _ => "bool"
  | PInt _ => "int"
  | PNum _ => "float"
  | PStr _ => "str"
  | PList _ => "list"
  | PDict _ => "dict"
  end.

(** [Content(id=content_data["id"], ...)]: the arguments are evaluated
    in the order in which they are written; a subscript on a missing
    key raises [KeyError], and [.get] on a value that is no dict raises
    [AttributeError]. *)
Definition new_content (user : User) (webapp : WebAppRow)
           (content_data : PyDict) : call_result ContentRow :=
  match Py.get "id" content_data with
  | None => Raised "'id'"
  | Some item_id =>
  match Py.get "platform" content_data with
  | None => Raised "'platform'"
  | Some item_platform =>
  match Py.get "type" content_data with
  | None => Raised "'type'"
  | Some item_type =>
  match Py.get "title" content_data with
  | None => Raised "'title'"
  | Some item_title =>
  match Py.get "caption" content_data with
  | None => Raised "'caption'"
  | Some item_caption =>
  match get_or "generation_metadata" (PDict []) content_data with
  | PDict metadata =>
      Returned
        {| c_id := item_id;
           c_user_id := id user;
           c_webapp_id := w_id webapp;
           c_platform := item_platform;
           c_type := item_type;
           c_status := PENDING;
           c_title := item_title;
           c_caption := item_caption;
           c_hashtags := get_or "hashtags" (PList []) content_data;
           c_media_urls := get_or "media_urls" (PList []) content_data;
           c_viral_score := get_or "viral_score" PNone content_data;
           c_confidence_score := get_or "confidence_score" PNone content_data;
           c_llm_tokens_used := get_or "tokens_used" (PInt 0) metadata;
           c_generation_metadata :=
             get_or "generation_metadata" (PDict []) content_data |}
  | other =>
      Raised ("'" ++ type_name other ++ "' object has no attribute 'get'")
  end end end end end end.

(** The loop over [result.get("content", [])]: every item becomes a row
    that is added to the session; an exception leaves the loop with
    the rows added so far. *)
Fixpoint add_contents (user : User) (webapp : WebAppRow)
         (items : list PyDict) (session : list ContentRow)
  : list ContentRow * option string :=
  match items with
  | [] => (session, None)
  | content_data :: rest =>
      match new_content user webapp content_data with
      | Returned new_row => add_contents user webapp rest (session ++ [new_row])
      | Raised e => (session, Some e)
      end
  end.

Definition default_platforms : list string :=
  ["youtube"; "tiktok"; "instagram"; "twitter"; "linkedin"; "facebook"].

(** [user.monthly_content_used += n] *)
Definition add_used (n : Z) (user : User) : User :=
  {| id := id user; plan := plan user;
     monthly_content_quota := monthly_content_quota user;
     monthly_content_used := monthly_content_used user + n |}.

Section Task.

(** The collaborators of the runs, as in [NightlyWorkflowV2.run]; those
    that may differ from one run of the workflow to the next take the
    number of the run as their first argument. *)
Variable research_webapp :
  nat -> WebApp -> call_result NightlyWorkflowV2.ResearchResults.
Variable generate_content_package :
  nat -> nat -> NightlyWorkflowV2.ResearchResults -> WebApp -> string ->
  call_result ContentPackage.
Variable fl : Q -> Q.
Variable repr_content : Content -> string.
Variable hour : nat -> Z.
Variable environ : gmap string string.
Variable remote : nat -> string -> string -> call_result string.
Variable now : nat -> string.

(** [workflow.run(...)] for the run numbered [run_no]. *)
Definition workflow_run (run_no : nat) :=
  NightlyWorkflowV2.run (research_webapp run_no)
                        (generate_content_package run_no) fl repr_content
                        (hour run_no) environ (remote run_no) (now run_no).

(** The body of the loop over [webapps].  [integrations] is the list
    [[i.platform for i in integrations]] of the connected integrations.
    The last statement of the [try], [track_generation_cost.delay], is
    left out: whether it returns or raises, the session and the user
    are the same. *)
Definition webapp_body (user_api_keys : gmap string string)
           (integrations : list string) (run_no : nat) (webapp : WebAppRow)
           (state : list ContentRow * User) : list ContentRow * User :=
  let '(session, user) := state in
  let platforms :=
    match integrations with
    | [] => default_platforms
    | _ :: _ => integrations
    end in
  let result :=
    workflow_run run_no
      (id user) (w_id webapp)
      {| wa_id := Some (w_id webapp); wa_name := Some (w_name webapp);
         wa_category := Some (w_category webapp) |}
      (if String.eqb (plan user) "free" then firstn 3 platforms
       else platforms)
      user_api_keys (plan user) in
  if NightlyWorkflowV2.success result then
    match add_contents user webapp (NightlyWorkflowV2.content result)
                       session with
    | (session', None) =>
        (session',
         add_used (Z.of_nat (length (NightlyWorkflowV2.content result))) user)
    | (session', Some e) => (session', user)
    end
  else (session, user).

Fixpoint webapps_loop (user_api_keys : gmap string string)
         (integrations : list string) (run_no : nat)
         (webapps : list WebAppRow) (state : list ContentRow * User)
  : list ContentRow * User :=
  match webapps with
  | [] => state
  | webapp :: rest =>
      webapps_loop user_api_keys integrations (S run_no) rest
        (webapp_body user_api_keys integrations run_no webapp state)
  end.

(** The body of the loop over [users], for a user whose first run has
    the number [run_no]: the rows that are added to the session and
    committed, and the user as it is committed. *)
Definition user_body (run_no : nat) (user : User)
           (webapps : list WebAppRow) (user_api_keys : gmap string string)
           (integrations : list string) : list ContentRow * User :=
  match webapps with
  | [] => ([], user)
  | _ :: _ =>
      if monthly_content_quota user <=? monthly_content_used user
      then ([], user)
      else webapps_loop user_api_keys integrations run_no webapps ([], user)
  end.

End Task.

End Tasks.

(** * Sample inputs

    The product "Flowly" of the specification's scenarios, a draft as the
    creative agent builds it for an image platform, and a draft for a
    short-video platform. *)

Module Samples.

Definition flowly : WebApp :=
  {| wa_id := Some "w1"; wa_name := Some "Flowly"; wa_category := Some "SaaS" |}.

Definition flowly_cta : Cta :=
  {| cta_variations :=
       Some [ ("primary", "Try Flowly free for 14 days");
              ("secondary", "Start your free trial") ];
     cta_recommended := Some "Try Flowly free for 14 days" |}.

Definition twitter_draft : ContentPackage :=
  {| pkg_content :=
       Some {| video_script := None;
               caption :=
                 Some {| cap_text :=
                           Some "Stop doing this by hand. Try Flowly free for 14 days";
                         cap_hashtags := [] |};
               image_prompts := Some {| ip_primary := "product showcase" |};
               cta := Some flowly_cta |};
     pkg_content_angle := Some [("format", PStr "comparison")] |}.

Definition tiktok_draft : ContentPackage :=
  {| pkg_content :=
       Some {| video_script :=
                 Some {| vs_title := Some "Before vs After with Flowly";
                         vs_hook := Some "POV: the secret nobody tells you";
                         vs_scenes :=
                           [ {| scene_audio := Some "We've all been there..." |} ] |};
               caption :=
                 Some {| cap_text := Some "I love this. Try Flowly free for 14 days";
                         cap_hashtags := ["Flowly"] |};
               image_prompts := None;
               cta := Some flowly_cta |};
     pkg_content_angle := Some [("format", PStr "pov")] |}.

(** A draft whose CTA dict holds one alternative only. *)
Definition single_cta_draft : ContentPackage :=
  {| pkg_content :=
       Some {| video_script := None;
               caption :=
                 Some {| cap_text := Some "Try Flowly now"; cap_hashtags := [] |};
               image_prompts := None;
               cta :=
                 Some {| cta_variations := Some [("primary", "Try Flowly now")];
                         cta_recommended := Some "Try Flowly now" |} |};
     pkg_content_angle := None |}.

(** The exact arithmetic, for [fl]; a printer that shows nothing, for
    [repr_content]. *)
Definition exact (x : Q) : Q := x.
Definition no_repr (c : Content) : string := "".

(** An exchange that always fails, and one that always succeeds. *)
Definition offline (name prompt : string) : call_result string :=
  Raised "connection refused".
Definition online (name prompt : string) : call_result string :=
  Returned ("https://cdn.example/" ++ name).

(** The specification's scenario: the platforms "youtube" and "twitter",
    research returns, the creative call for "youtube" raises, no
    credential is supplied and no exchange goes through. *)
Definition research_ok (w : WebApp)
  : call_result NightlyWorkflowV2.ResearchResults :=
  Returned
    {| NightlyWorkflowV2.research_date := Some "2024-05-01T01:00:00";
       NightlyWorkflowV2.trending_topics :=
         [ {| NightlyWorkflowV2.topic := Some "Workflow automation" |} ];
       NightlyWorkflowV2.content_angles := [];
       NightlyWorkflowV2.recommended_hashtags := [];
       NightlyWorkflowV2.res_trending_categories := [];
       NightlyWorkflowV2.res_trending_hashtags := [] |}.

Definition creative_youtube_down (call : nat)
           (research : NightlyWorkflowV2.ResearchResults) (w : WebApp)
           (platform : string) : call_result ContentPackage :=
  if String.eqb platform "youtube" then Raised "upstream timeout"
  else Returned twitter_draft.

(** The state that [run] starts the graph from in this scenario. *)
Definition youtube_down_input : NightlyWorkflowV2.ContentWorkflowState :=
  {| NightlyWorkflowV2.user_id := "u1";
     NightlyWorkflowV2.webapp_id := "w1";
     NightlyWorkflowV2.webapp_data := flowly;
     NightlyWorkflowV2.user_api_keys := ∅;
     NightlyWorkflowV2.user_plan := "free";
     NightlyWorkflowV2.platforms := ["youtube"; "twitter"];
     NightlyWorkflowV2.research_results := NightlyWorkflowV2.empty_research;
     NightlyWorkflowV2.content_packages := [];
     NightlyWorkflowV2.media_assets := [];
     NightlyWorkflowV2.optimized_content := [];
     NightlyWorkflowV2.viral_scores := [];
     NightlyWorkflowV2.ab_test_variants := [];
     NightlyWorkflowV2.final_content := [];
     NightlyWorkflowV2.current_stage := NightlyWorkflowV2.RESEARCH;
     NightlyWorkflowV2.errors := [];
     NightlyWorkflowV2.cost_estimate := 0;
     NightlyWorkflowV2.actual_cost := 0 |}.

Definition youtube_down_run : NightlyWorkflowV2.RunResult :=
  NightlyWorkflowV2.run research_ok creative_youtube_down exact no_repr 12
                        ∅ offline "1.5" "u1" "w1" flowly
                        ["youtube"; "twitter"] ∅ "free".

End Samples.

(** * Properties of the scoring engine *)

Module ScoringFacts.

Import OptimizerAgent.

(** ** Feedback rules *)

(** A rule of [_generate_feedback]: the threshold it tests, the factor it
    adds at or above it and the recommendation it adds below it. *)
Record Rule := {
  threshold : Z;
  factor : string;
  recommendation : string
}.

Definition rule_positive (r : Rule) (score : Z) : list string :=
  if threshold r <=? score then [factor r] else [].

Definition rule_recommendation (r : Rule) (score : Z) : list string :=
  if threshold r <=? score then [] else [recommendation r].

(** The six rules in the order hook, emotional, shareability, timing,
    uniqueness, trend, with the thresholds the code tests. *)
Definition code_rules : list Rule :=
  [ {| threshold := 70;
       factor := "Strong hook that grabs attention immediately";
       recommendation :=
         "Start with a question, bold statement, or curiosity gap" |};
    {| threshold := 70;
       factor := "Good emotional resonance with audience";
       recommendation :=
         "Add more emotional language and relatable scenarios" |};
    {| threshold := 70;
       factor := "High shareability factor";
       recommendation :=
         "Include a clear call-to-action and value proposition" |};
    {| threshold := 80;
       factor := "Optimal posting time";
       recommendation := "Consider posting during peak engagement hours" |};
    {| threshold := 70;
       factor := "Unique angle that stands out";
       recommendation := "Try a different content format or angle" |};
    {| threshold := 70;
       factor := "Well-aligned with current trends";
       recommendation := "Incorporate trending topics or hashtags" |} ].

(** The rules as the specification words them: every threshold is 70. *)
Definition spec_rules : list Rule :=
  map (fun r => {| threshold := 70; factor := factor r;
                   recommendation := recommendation r |})
      code_rules.

(** Applying a list of rules to the scores, one rule per score. *)
Definition apply_rules (rules : list Rule) (scores : list Z)
  : list string * list string :=
  (concat (map (fun '(r, s) => rule_positive r s) (combine rules scores)),
   concat (map (fun '(r, s) => rule_recommendation r s)
               (combine rules scores))).

(** C5, as amended: the positive factors and the recommendations of
    [_generate_feedback] are those of one threshold rule per sub-score, in
    the order hook, emotional, shareability, timing, uniqueness, trend,
    where the threshold is 70 for every sub-score but timing, whose
    threshold is 80; the only negative factor is the hook's, added below
    its threshold. *)
Theorem feedback_follows_code_rules :
  forall hook emotional shareable timing unique trend : Z,
    let '(positive, negative, recommendations) :=
      _generate_feedback hook emotional shareable timing unique trend in
    (positive, recommendations)
      = apply_rules code_rules
                    [hook; emotional; shareable; timing; unique; trend]
    /\ negative
       = if 70 <=? hook then [] else ["Hook could be more compelling"].
Proof.
  intros hook emotional shareable timing unique trend.
  unfold _generate_feedback, apply_rules, rule_positive, rule_recommendation.
  cbn [code_rules combine map concat threshold factor recommendation].
  destruct (70 <=? hook), (70 <=? emotional), (70 <=? shareable),
    (80 <=? timing), (70 <=? unique), (70 <=? trend);
    split; reflexivity.
Qed.

(** C5, as stated, fails on the timing score 75 (the value
    [_score_timing] gives one hour off an optimal hour): it is at least
    70, yet the code adds the recommendation and no positive factor, and
    so differs from the rules with every threshold at 70. *)
Lemma feedback_timing_75_counterexample :
  _score_timing 13 "youtube" = 75
  /\ (let '(positive, _, recommendations) :=
        _generate_feedback 75 75 75 75 75 75 in
      ~ In "Optimal posting time" positive
      /\ In "Consider posting during peak engagement hours" recommendations
      /\ (positive, recommendations)
         <> apply_rules spec_rules [75; 75; 75; 75; 75; 75]).
Proof.
  split; [reflexivity|].
  cbv -[In]. repeat split.
  - intros H. simpl in H. intuition discriminate.
  - left. reflexivity.
  - discriminate.
Qed.

(** ** Emotional impact *)

Definition lexicon : list string :=
  (positive_triggers ++ negative_triggers ++ urgency_triggers)%list.

(** The number of triggers of a list that occur in a text. *)
Definition present (text_lower : string) (triggers : list string) : Z :=
  Z.of_nat (length (List.filter (fun t => PyStr.contains t text_lower) triggers)).

Lemma add_triggers_count (text_lower : string) (bonus : Z)
      (triggers : list string) (score : Z) :
  add_triggers text_lower bonus triggers score
  = score + bonus * present text_lower triggers.
Proof.
  unfold add_triggers, present. revert score.
  induction triggers as [|t triggers IH]; intros score; simpl.
  - lia.
  - rewrite IH. destruct (PyStr.contains t text_lower); simpl length; lia.
Qed.

(** Every trigger counts once: the score is 50 plus 5, 3 and 4 for each
    positive, negative and urgency trigger that occurs, capped at 100. *)
Lemma emotional_impact_closed_form (text : string) :
  _score_emotional_impact text
  = Z.min 100 (50 + 5 * present (PyStr.lower text) positive_triggers
               + 3 * present (PyStr.lower text) negative_triggers
               + 4 * present (PyStr.lower text) urgency_triggers).
Proof.
  unfold _score_emotional_impact. rewrite !add_triggers_count. reflexivity.
Qed.

Lemma present_ext (a b : string) (triggers : list string) :
  (forall w, In w triggers -> PyStr.contains w a = PyStr.contains w b) ->
  present a triggers = present b triggers.
Proof.
  unfold present. intros H. f_equal. f_equal.
  apply List.filter_ext_in. exact H.
Qed.

(** C10: the emotional-impact score depends only on which words of the
    three lexicons occur in the lower-cased text; two texts in which the
    same lexicon words occur, however often, get the same score. *)
Theorem emotional_impact_counts_each_trigger_once :
  forall text1 text2 : string,
    (forall w, In w lexicon ->
               PyStr.contains w (PyStr.lower text1)
               = PyStr.contains w (PyStr.lower text2)) ->
    _score_emotional_impact text1 = _score_emotional_impact text2.
Proof.
  intros text1 text2 H.
  rewrite !emotional_impact_closed_form.
  rewrite (present_ext (PyStr.lower text1) (PyStr.lower text2) positive_triggers),
    (present_ext (PyStr.lower text1) (PyStr.lower text2) negative_triggers),
    (present_ext (PyStr.lower text1) (PyStr.lower text2) urgency_triggers);
    try reflexivity;
    intros w Hw; apply H; unfold lexicon; rewrite !in_app_iff; auto.
Qed.

(** A text that repeats "love" and "now" scores as the text that has
    each once. *)
Lemma emotional_impact_repetition_witness :
  _score_emotional_impact "Love it now. LOVE it now! love it NOW"
  = _score_emotional_impact "love it now"
  /\ _score_emotional_impact "love it now" = 59.
Proof.
  split; [|reflexivity].
  apply emotional_impact_counts_each_trigger_once.
  intros w Hw. cbv [lexicon positive_triggers negative_triggers
                    urgency_triggers app] in Hw.
  simpl in Hw.
  repeat (destruct Hw as [<-|Hw]; [reflexivity|]).
  contradiction.
Defined.

(** ** Ranges *)

Definition in_range (z : Z) : Prop := 0 <= z <= 100.

(** Splits on the tests of a score that is a sequence of [if]s. *)
Ltac split_tests :=
  repeat match goal with
         | |- context [if ?c then _ else _] => destruct c
         | |- context [match ?o with Some _ => _ | None => _ end] =>
             destruct o
         end.

Lemma score_hook_in_range (hook platform : string) :
  in_range (_score_hook hook platform).
Proof. unfold in_range, _score_hook. lia. Qed.

Lemma score_emotional_impact_in_range (text : string) :
  in_range (_score_emotional_impact text).
Proof.
  unfold in_range. rewrite emotional_impact_closed_form.
  unfold present. lia.
Qed.

Lemma score_shareability_in_range (p : ContentPackage) (platform : string) :
  in_range (_score_shareability p platform).
Proof.
  unfold in_range, _score_shareability.
  generalize (get_content p). intros content.
  split_tests; lia.
Qed.

Lemma score_timing_in_range (hour : Z) (platform : string) :
  in_range (_score_timing hour platform).
Proof. unfold in_range, _score_timing. split_tests; lia. Qed.

Lemma score_uniqueness_in_range (repr_content : Content -> string)
      (p : ContentPackage) (w : WebApp) (u : Z) :
  _score_uniqueness repr_content p w = Returned u -> in_range u.
Proof.
  unfold in_range, _score_uniqueness.
  destruct (wa_name w); [|discriminate].
  intros [= <-].
  destruct (pkg_content_angle p) as [angle|];
    [destruct (Py.nonempty angle);
     [destruct (Py.get "format" angle) as [[]|]|]|];
    split_tests; lia.
Qed.

Lemma score_trend_alignment_in_range (cats : list string) (w : WebApp) :
  in_range (_score_trend_alignment cats w).
Proof. unfold in_range, _score_trend_alignment. split_tests; lia. Qed.

(** What the proofs ask of float rounding: on the non-negative values up
    to 1000 the rounded value is not negative and exceeds the exact one
    by at most a millionth of it plus a millionth.  Rounding to the
    nearest double stays far inside this bound, and so does the
    identity. *)
Definition rounds (fl : Q -> Q) : Prop :=
  forall x : Q,
    (0 <= x)%Q -> (x <= 1000)%Q ->
    (0 <= fl x)%Q /\ (fl x <= x * (1000001 # 1000000) + (1 # 1000000))%Q.

Lemma rounds_id : rounds (fun x => x).
Proof. intros x H0 H1. split; [assumption|]. lra. Qed.

Lemma inject_Z_in_range (z : Z) :
  in_range z -> (0 <= inject_Z z)%Q /\ (inject_Z z <= 100)%Q.
Proof.
  intros [H0 H1]. split.
  - change 0%Q with (inject_Z 0). rewrite <- Zle_Qle. exact H0.
  - change 100%Q with (inject_Z 100). rewrite <- Zle_Qle. exact H1.
Qed.

(** A weighted term [score * weight]: the literal is rounded, then the
    product. *)
Lemma weighted_term_bound (fl : Q -> Q) (z : Z) (w bound : Q) :
  rounds fl -> in_range z ->
  (0 <= w)%Q -> (w <= 1)%Q ->
  (100 * w + (1 # 1000) <= bound)%Q ->
  (0 <= fmul fl (inject_Z z) (fl w))%Q
  /\ (fmul fl (inject_Z z) (fl w) <= bound)%Q.
Proof.
  intros Hfl Hz Hw0 Hw1 Hb. unfold fmul.
  destruct (inject_Z_in_range z Hz) as [Hz0 Hz1].
  destruct (Hfl w Hw0 ltac:(lra)) as [Hc0 Hc1].
  set (c := fl w) in *. set (q := inject_Z z) in *.
  assert (Hp0 : (0 <= q * c)%Q) by (apply Qmult_le_0_compat; assumption).
  assert (Hp1 : (q * c <= 100 * c)%Q)
    by (apply Qmult_le_compat_r; assumption).
  destruct (Hfl (q * c)%Q Hp0 ltac:(lra)) as [Hr0 Hr1].
  split; [assumption|]. lra.
Qed.

Lemma fadd_bound (fl : Q -> Q) (a b ba bb bound : Q) :
  rounds fl ->
  (0 <= a)%Q -> (a <= ba)%Q -> (0 <= b)%Q -> (b <= bb)%Q ->
  (ba + bb <= 200)%Q ->
  ((ba + bb) + (1 # 1000) <= bound)%Q ->
  (0 <= fadd fl a b)%Q /\ (fadd fl a b <= bound)%Q.
Proof.
  intros Hfl Ha0 Ha1 Hb0 Hb1 Hs Hbound. unfold fadd.
  destruct (Hfl (a + b)%Q ltac:(lra) ltac:(lra)) as [H0 H1].
  split; [assumption|]. lra.
Qed.

Lemma weighted_sum_bounds (fl : Q -> Q)
      (hook emotional shareable timing unique trend : Z) :
  rounds fl ->
  in_range hook -> in_range emotional -> in_range shareable ->
  in_range timing -> in_range unique -> in_range trend ->
  (0 <= weighted_sum fl hook emotional shareable timing unique trend)%Q
  /\ (weighted_sum fl hook emotional shareable timing unique trend < 101)%Q.
Proof.
  intros Hfl Hh He Hs Ht Hu Hr. unfold weighted_sum.
  destruct (weighted_term_bound fl hook (25 # 100) (2501 # 100) Hfl Hh)
    as [h0 h1]; [lra..|].
  destruct (weighted_term_bound fl emotional (20 # 100) (2001 # 100) Hfl He)
    as [e0 e1]; [lra..|].
  destruct (weighted_term_bound fl shareable (20 # 100) (2001 # 100) Hfl Hs)
    as [s0 s1]; [lra..|].
  destruct (weighted_term_bound fl timing (10 # 100) (1001 # 100) Hfl Ht)
    as [t0 t1]; [lra..|].
  destruct (weighted_term_bound fl unique (15 # 100) (1501 # 100) Hfl Hu)
    as [u0 u1]; [lra..|].
  destruct (weighted_term_bound fl trend (10 # 100) (1001 # 100) Hfl Hr)
    as [r0 r1]; [lra..|].
  destruct (fadd_bound fl _ _ _ _ (4503 # 100) Hfl h0 h1 e0 e1)
    as [a0 a1]; [lra..|].
  destruct (fadd_bound fl _ _ _ _ (6505 # 100) Hfl a0 a1 s0 s1)
    as [b0 b1]; [lra..|].
  destruct (fadd_bound fl _ _ _ _ (7507 # 100) Hfl b0 b1 t0 t1)
    as [c0 c1]; [lra..|].
  destruct (fadd_bound fl _ _ _ _ (9009 # 100) Hfl c0 c1 u0 u1)
    as [d0 d1]; [lra..|].
  destruct (fadd_bound fl _ _ _ _ (10011 # 100) Hfl d0 d1 r0 r1)
    as [f0 f1]; [lra..|].
  split; [assumption|]. lra.
Qed.

Lemma int_of_in_range (q : Q) :
  (0 <= q)%Q -> (q < 101)%Q -> in_range (int_of q).
Proof.
  destruct q as [n d]. unfold Qle, Qlt, in_range, int_of. simpl.
  intros H0 H1.
  assert (Hn : 0 <= n) by lia.
  rewrite Z.quot_div_nonneg by lia.
  split.
  - apply Z.div_pos; lia.
  - assert (n / Z.pos d < 101); [|lia].
    apply Z.div_lt_upper_bound; lia.
Qed.

(** The six sub-scores and the overall score of a result. *)
Definition scores_in_range (r : ViralScoreResult) : Prop :=
  in_range (hook_strength r) /\ in_range (emotional_impact r)
  /\ in_range (shareability r) /\ in_range (timing_score r)
  /\ in_range (uniqueness r) /\ in_range (trend_alignment r)
  /\ in_range (overall r).

(** The score is returned for every product that has a name; without a
    name [_score_uniqueness] raises. *)
Lemma calculate_viral_score_returns (fl : Q -> Q)
      (repr_content : Content -> string) (trending_categories : list string)
      (hour : Z) (content_package : ContentPackage) (platform : string)
      (webapp_data : WebApp) (name : string) :
  wa_name webapp_data = Some name ->
  exists r,
    _calculate_viral_score fl repr_content trending_categories hour
                           content_package platform webapp_data
    = Returned r.
Proof.
  intros Hname. unfold _calculate_viral_score, _score_uniqueness.
  rewrite Hname.
  destruct (_generate_feedback _ _ _ _ _ _) as [[pos neg] recs].
  eexists. reflexivity.
Qed.

(** C8: for every content package, platform, product, trend data and
    hour, and whatever the rounding of the float operations within the
    stated error, a result that [_calculate_viral_score] returns has its
    six sub-scores and its overall score in [0,100]; and it returns a
    result for every product that has a name. *)
Theorem viral_scores_in_range :
  forall (fl : Q -> Q) (repr_content : Content -> string)
         (trending_categories : list string) (hour : Z)
         (content_package : ContentPackage) (platform : string)
         (webapp_data : WebApp),
    rounds fl ->
    (forall r,
        _calculate_viral_score fl repr_content trending_categories hour
                               content_package platform webapp_data
        = Returned r ->
        scores_in_range r)
    /\ (forall name,
           wa_name webapp_data = Some name ->
           exists r,
             _calculate_viral_score fl repr_content trending_categories hour
                                    content_package platform webapp_data
             = Returned r).
Proof.
  intros fl repr_content cats hour p platform w Hfl.
  unfold _calculate_viral_score. split.
  - intros r.
    destruct (_score_uniqueness repr_content p w) as [u|msg] eqn:Hu;
      [|discriminate].
    apply score_uniqueness_in_range in Hu.
    destruct (_generate_feedback _ _ _ _ _ _) as [[pos neg] recs].
    intros [= <-]. unfold scores_in_range. cbn.
    pose proof (score_hook_in_range
                  match video_script (get_content p) with
                  | Some vs =>
                      match vs_hook vs with Some h => h | None => "" end
                  | None => ""
                  end platform) as Hh.
    pose proof (score_emotional_impact_in_range
                  match caption (get_content p) with
                  | Some c => caption_text c
                  | None => ""
                  end) as He.
    pose proof (score_shareability_in_range p platform) as Hs.
    pose proof (score_timing_in_range hour platform) as Ht.
    pose proof (score_trend_alignment_in_range cats w) as Hr.
    repeat split; try (first [apply Hh|apply He|apply Hs|apply Ht
                              |apply Hu|apply Hr]).
    + apply int_of_in_range; apply weighted_sum_bounds; assumption.
    + apply int_of_in_range; apply weighted_sum_bounds; assumption.
  - intros name Hname.
    apply (calculate_viral_score_returns fl repr_content cats hour p platform
             w name Hname).
Qed.

(** The theorem at the sample short-video draft, with exact arithmetic
    and the clock at noon. *)
Lemma viral_scores_in_range_witness :
  rounds Samples.exact
  /\ exists r,
      _calculate_viral_score Samples.exact Samples.no_repr ["SaaS"] 12
                             Samples.tiktok_draft "tiktok" Samples.flowly
      = Returned r
      /\ scores_in_range r.
Proof.
  split; [exact rounds_id|].
  destruct (viral_scores_in_range Samples.exact Samples.no_repr ["SaaS"] 12
              Samples.tiktok_draft "tiktok" Samples.flowly rounds_id)
    as [Hrange Hreturns].
  destruct (Hreturns "Flowly" eq_refl) as [r Hr].
  exists r. split; [exact Hr|exact (Hrange r Hr)].
Defined.

Example sample_viral_score :
  exists r,
    _calculate_viral_score Samples.exact Samples.no_repr ["SaaS"] 12
                           Samples.tiktok_draft "tiktok" Samples.flowly
    = Returned r
    /\ (hook_strength r, emotional_impact r, shareability r, timing_score r,
        uniqueness r, trend_alignment r, overall r)
       = (95, 55, 85, 90, 75, 90, 81).
Proof. eexists. split; reflexivity. Qed.

End ScoringFacts.

(** * Properties of the provider registry and the media router *)

Module MediaFacts.

Import MediaAgentV2.

(** ** The stable sort *)

Lemma insert_In {A : Type} (key : A -> Z) (x y : A) (l : list A) :
  In y (PySort.insert key x l) <-> y = x \/ In y l.
Proof.
  induction l as [|z l IH]; simpl.
  - intuition.
  - destruct (key x <=? key z); simpl; [intuition|].
    rewrite IH. intuition.
Qed.

Lemma sort_In {A : Type} (key : A -> Z) (y : A) (l : list A) :
  In y (PySort.sort key l) <-> In y l.
Proof.
  induction l as [|x l IH]; simpl; [reflexivity|].
  rewrite insert_In, IH. intuition.
Qed.

Section StableSort.

Context {A : Type} (key : A -> Z) (tie : A -> A -> Prop).

(** Smaller key first; among equal keys, [tie] decides. *)
Definition key_then_tie (a b : A) : Prop :=
  key a < key b \/ (key a = key b /\ tie a b).

Lemma insert_sorted (x : A) (l : list A) :
  StronglySorted key_then_tie l ->
  (forall y, In y l -> key y = key x -> tie x y) ->
  StronglySorted key_then_tie (PySort.insert key x l).
Proof.
  induction l as [|z l IH]; intros Hsorted Htie; simpl.
  - repeat constructor.
  - apply StronglySorted_inv in Hsorted. destruct Hsorted as [Hl Hz].
    destruct (key x <=? key z) eqn:Hxz.
    + apply Z.leb_le in Hxz.
      constructor; [constructor; assumption|].
      assert (Hkeys : forall y, In y (z :: l) -> key z <= key y).
      { intros y [<-|Hy]; [lia|].
        rewrite List.Forall_forall in Hz.
        destruct (Hz y Hy) as [?|[? _]]; lia. }
      rewrite List.Forall_forall. intros y Hy.
      specialize (Hkeys y Hy).
      destruct (Z.eq_dec (key x) (key y)) as [Heq|Hne].
      * right. split; [assumption|]. apply Htie; [assumption|congruence].
      * left. lia.
    + apply Z.leb_gt in Hxz.
      constructor.
      * apply IH; [assumption|].
        intros y Hy. apply Htie. right. assumption.
      * rewrite List.Forall_forall. intros y Hy.
        apply insert_In in Hy. destruct Hy as [->|Hy].
        -- left. assumption.
        -- rewrite List.Forall_forall in Hz. apply Hz. assumption.
Qed.

(** When elements of equal key stand in [tie] order in [l], sorting [l]
    by key alone yields a list ordered by key and then by [tie]: the
    sort is stable. *)
Lemma sort_sorted (l : list A) :
  ForallOrdPairs (fun a b => key a = key b -> tie a b) l ->
  StronglySorted key_then_tie (PySort.sort key l).
Proof.
  induction 1 as [|x l Hx Hl IH]; simpl.
  - constructor.
  - apply insert_sorted; [assumption|].
    intros y Hy Heq. apply sort_In in Hy.
    rewrite List.Forall_forall in Hx. apply Hx; [exact Hy|congruence].
Qed.

End StableSort.

Lemma ForallOrdPairs_map_filter {A B : Type} (P : B -> B -> Prop)
      (f : A -> B) (keep : A -> bool) (l : list A) :
  ForallOrdPairs P (map f l) ->
  ForallOrdPairs P (map f (List.filter keep l)).
Proof.
  induction l as [|x l IH]; simpl; intros H.
  - constructor.
  - inversion H as [|? ? Hx Hl]; subst.
    destruct (keep x); simpl; [|auto].
    constructor; [|auto].
    rewrite List.Forall_forall in *. intros y Hy.
    apply Hx. apply in_map_iff in Hy. destruct Hy as [a [<- Ha]].
    apply List.filter_In in Ha. apply in_map. tauto.
Qed.

Lemma get_of_In {A : Type} (k : string) (v : A) (d : list (string * A)) :
  List.NoDup (map fst d) -> In (k, v) d -> Py.get k d = Some v.
Proof.
  induction d as [|[k' v'] d IH]; simpl; intros Hnd Hin; [contradiction|].
  inversion Hnd as [|? ? Hnotin Hnd']; subst.
  destruct Hin as [[= -> ->]|Hin].
  - rewrite String.eqb_refl. reflexivity.
  - destruct (String.eqb k k') eqn:Hk.
    + apply String.eqb_eq in Hk. subst k'.
      exfalso. apply Hnotin. apply (in_map fst) in Hin. exact Hin.
    + apply IH; assumption.
Qed.

(** ** The registry *)

(** The tier of a listed provider, then its declared cost. *)
Definition tier_then_cost (table : list (string * ProviderConfig))
  : string -> string -> Prop :=
  key_then_tie (sort_key table)
               (fun a b => (config_cost table a <= config_cost table b)%Q).

(** In a table, providers of one tier are declared by ascending cost. *)
Definition declared_by_cost (table : list (string * ProviderConfig)) : Prop :=
  ForallOrdPairs
    (fun a b => sort_key table a = sort_key table b ->
                (config_cost table a <= config_cost table b)%Q)
    (map fst table).

Definition has_credential (table : list (string * ProviderConfig))
           (name : string) : Prop :=
  Py.opt_truthy (config_key table name) = true.

Lemma listing_of_table (table : list (string * ProviderConfig))
      (wanted : option ProviderPriority) :
  List.NoDup (map fst table) ->
  declared_by_cost table ->
  let listed :=
    PySort.sort (sort_key table)
                (map fst (List.filter (is_available wanted) table)) in
  Forall (has_credential table) listed
  /\ StronglySorted (tier_then_cost table) listed.
Proof.
  intros Hnd Hcost listed. split.
  - rewrite List.Forall_forall. intros name Hname.
    apply sort_In in Hname. apply in_map_iff in Hname.
    destruct Hname as [[name' config] [Hfst Hin]]. simpl in Hfst. subst name'.
    apply List.filter_In in Hin. destruct Hin as [Hin Hav].
    unfold has_credential, config_key.
    rewrite (get_of_In name config table Hnd Hin).
    unfold is_available in Hav. simpl in Hav.
    apply andb_true_iff in Hav. tauto.
  - apply sort_sorted. apply ForallOrdPairs_map_filter. exact Hcost.
Qed.

Section Tables.

Variable user_api_keys environ : gmap string string.

(** Lets the keys of a table be any values: the order of a table does
    not depend on them. *)
Ltac any_keys :=
  repeat match goal with
         | |- context [_get_key ?u ?e ?k] =>
             generalize (_get_key u e k); intro
         end.

Lemma providers_names : List.NoDup (map fst (providers user_api_keys environ)).
Proof.
  unfold providers. any_keys. simpl.
  repeat (constructor; [simpl; intuition discriminate|]). constructor.
Qed.

Lemma video_providers_names :
  List.NoDup (map fst (video_providers user_api_keys environ)).
Proof.
  unfold video_providers. any_keys. simpl.
  repeat (constructor; [simpl; intuition discriminate|]). constructor.
Qed.

Lemma audio_providers_names :
  List.NoDup (map fst (audio_providers user_api_keys environ)).
Proof.
  unfold audio_providers. any_keys. simpl.
  repeat (constructor; [simpl; intuition discriminate|]). constructor.
Qed.

Lemma providers_by_cost : declared_by_cost (providers user_api_keys environ).
Proof.
  unfold declared_by_cost, providers. any_keys.
  repeat constructor; cbv; intros; congruence.
Qed.

Lemma video_providers_by_cost :
  declared_by_cost (video_providers user_api_keys environ).
Proof.
  unfold declared_by_cost, video_providers. any_keys.
  repeat constructor; cbv; intros; congruence.
Qed.

Lemma audio_providers_by_cost :
  declared_by_cost (audio_providers user_api_keys environ).
Proof.
  unfold declared_by_cost, audio_providers. any_keys.
  repeat constructor; cbv; intros; congruence.
Qed.

End Tables.

(** C7: for every media type with a table and every credential map, the
    providers that [_get_available_providers] lists all have a
    credential, and they stand in ascending order of tier (free, cheap,
    premium) and, within a tier, of declared cost.  The code sorts by
    tier only; the sort is stable and each table declares the providers
    of a tier by ascending cost. *)
Theorem available_providers_have_keys_and_are_ordered :
  forall (user_api_keys environ : gmap string string)
         (media_type : string) (wanted : option ProviderPriority)
         (table : list (string * ProviderConfig)),
    table_of user_api_keys environ media_type = Some table ->
    Forall (has_credential table)
           (_get_available_providers user_api_keys environ media_type wanted)
    /\ StronglySorted
         (tier_then_cost table)
         (_get_available_providers user_api_keys environ media_type wanted).
Proof.
  intros keys environ media_type wanted table Htable.
  assert (Htab : List.NoDup (map fst table) /\ declared_by_cost table).
  { unfold table_of in Htable.
    destruct (String.eqb media_type "image").
    { injection Htable as <-.
      split; [apply providers_names|apply providers_by_cost]. }
    destruct (String.eqb media_type "video").
    { injection Htable as <-.
      split; [apply video_providers_names|apply video_providers_by_cost]. }
    destruct (String.eqb media_type "audio"); [|discriminate].
    injection Htable as <-.
    split; [apply audio_providers_names|apply audio_providers_by_cost]. }
  unfold _get_available_providers. rewrite Htable.
  apply listing_of_table; apply Htab.
Qed.

(** A media type without a table lists nothing. *)
Lemma unknown_media_type_lists_nothing
      (user_api_keys environ : gmap string string) (media_type : string)
      (wanted : option ProviderPriority) :
  table_of user_api_keys environ media_type = None ->
  _get_available_providers user_api_keys environ media_type wanted = [].
Proof. unfold _get_available_providers. intros ->. reflexivity. Qed.

(** Keys for one provider of each tier, and for a second premium one. *)
Definition four_keys : gmap string string :=
  <["OPENAI_API_KEY" := "sk-1"]>
    (<["LEONARDO_API_KEY" := "leo-1"]>
       (<["FAL_AI_KEY" := "fal-1"]>
          (<["SILICONFLOW_API_KEY" := "sf-1"]> ∅))).

Lemma available_providers_witness :
  _get_available_providers four_keys ∅ "image" None
  = ["siliconflow"; "fal"; "leonardo"; "openai"]
  /\ Forall (has_credential (providers four_keys ∅))
            (_get_available_providers four_keys ∅ "image" None)
  /\ StronglySorted (tier_then_cost (providers four_keys ∅))
                    (_get_available_providers four_keys ∅ "image" None).
Proof.
  split; [vm_compute; reflexivity|].
  exact (available_providers_have_keys_and_are_ordered
           four_keys ∅ "image" None (providers four_keys ∅) eq_refl).
Defined.

(** ** The router *)

Lemma first_success_none
      (call : string -> option (call_result (option MediaAsset)))
      (names : list string) :
  (forall name r, In name names -> call name <> Some (Returned (Some r))) ->
  first_success call names = None.
Proof.
  induction names as [|name names IH]; simpl; intros H; [reflexivity|].
  destruct (call name) as [[[r|]|msg]|] eqn:Hcall;
    try (apply IH; intros; apply H; right; assumption).
  exfalso. apply (H name r); [left; reflexivity|assumption].
Qed.

Lemma first_success_some
      (call : string -> option (call_result (option MediaAsset)))
      (names : list string) (r : MediaAsset) :
  first_success call names = Some r ->
  exists name, In name names /\ call name = Some (Returned (Some r)).
Proof.
  induction names as [|name names IH]; simpl; [discriminate|].
  destruct (call name) as [[[r'|]|msg]|] eqn:Hcall; intros H;
    try (destruct (IH H) as [n [Hn Hc]]; exists n; split; [right|]; assumption).
  injection H as <-. exists name. split; [left; reflexivity|assumption].
Qed.

Section Router.

Variable user_api_keys : gmap string string.
Variable user_plan : string.
Variable environ : gmap string string.
Variable remote : string -> string -> call_result string.
Variable now : string.

(** The exchange with a provider fails. *)
Definition fails (name prompt : string) : Prop :=
  exists msg, remote name prompt = Raised msg.

(** What a provider method returns when it returns an asset. *)
Lemma call_provider_returned (table : list (string * ProviderConfig))
      (name : string) (ty : MediaType) (note : string * string)
      (price : Q) (prompt : string) (r : MediaAsset) :
  call_provider remote table name ty note price prompt
  = Returned (Some r) ->
  provider r = name /\ status r = "completed"
  /\ exists locator, remote name prompt = Returned locator.
Proof.
  unfold call_provider.
  destruct (Py.opt_truthy _); [|discriminate].
  destruct (remote name prompt) as [locator|msg]; [|discriminate].
  intros [= <-]. simpl. eauto.
Qed.

Ltac by_name Hname :=
  apply String.eqb_eq in Hname; subst;
  match goal with
  | H : Some _ = Some _ |- _ =>
      injection H as H; apply call_provider_returned in H;
      destruct H as [? [? [? ?]]]; eauto
  end.

Lemma image_call_returned (prompt : string) (width height : Z)
      (name : string) (r : MediaAsset) :
  image_call user_api_keys environ remote prompt width height name
  = Some (Returned (Some r)) ->
  provider r = name /\ exists locator, remote name prompt = Returned locator.
Proof.
  unfold image_call, _generate_huggingface_image, _generate_leonardo_image,
    _generate_openai_image, _generate_replicate_image, _generate_fal_image,
    _generate_siliconflow_image.
  intros H.
  repeat match type of H with
         | (if String.eqb name ?lit then _ else _) = _ =>
             destruct (String.eqb name lit) eqn:Hname;
             [by_name Hname|clear Hname]
         end.
  discriminate.
Qed.

Lemma video_call_returned (prompt : string) (image_url : option string)
      (duration : Z) (name : string) (r : MediaAsset) :
  video_call user_api_keys environ remote prompt image_url duration name
  = Some (Returned (Some r)) ->
  provider r = name /\ exists locator, remote name prompt = Returned locator.
Proof.
  unfold video_call, _generate_runway_video, missing_method.
  intros H.
  destruct (String.eqb name "runway") eqn:Hname; [by_name Hname|].
  destruct (String.eqb name "heygen"); [discriminate|].
  destruct (String.eqb name "replicate_video"); discriminate.
Qed.

Lemma audio_call_returned (text voice_id model_id : string)
      (name : string) (r : MediaAsset) :
  audio_call user_api_keys environ remote text voice_id model_id name
  = Some (Returned (Some r)) ->
  provider r = name /\ exists locator, remote name text = Returned locator.
Proof.
  unfold audio_call, _generate_elevenlabs_audio, _generate_coqui_audio,
    _generate_playht_audio.
  intros H.
  destruct (String.eqb name "elevenlabs") eqn:Hname; [by_name Hname|].
  destruct (String.eqb name "coqui");
    [destruct (Py.opt_truthy _); discriminate|].
  destruct (String.eqb name "playht");
    [destruct (Py.opt_truthy _); discriminate|].
  discriminate.
Qed.

(** The asset that stands in when no provider delivers. *)
Definition stands_in (who : string) (a : MediaAsset) : Prop :=
  status a = "completed" /\ provider a = who /\ (cost a == 0)%Q.

Lemma generate_image_stands_in (prompt platform : string)
      (width height : Z) (prefer_free : bool) :
  let wanted :=
    if prefer_free && String.eqb user_plan "free" then Some FREE else None in
  (forall name,
      In name (_get_available_providers user_api_keys environ "image" wanted) ->
      fails name prompt) ->
  stands_in "placeholder"
            (generate_image user_api_keys user_plan environ remote now
                            prompt platform width height prefer_free).
Proof.
  intros wanted Hfail. unfold generate_image. fold wanted.
  destruct (Py.get _ aspect_ratios) as [[w h]|];
    (destruct (negb (Py.nonempty _));
     [repeat split; reflexivity|
       rewrite first_success_none; [repeat split; reflexivity|];
       intros name r Hin Hcall;
       apply image_call_returned in Hcall;
       destruct Hcall as [_ [locator Hloc]];
       destruct (Hfail name Hin) as [msg Hmsg]; congruence]).
Qed.

Lemma generate_video_stands_in (prompt : string)
      (image_url : option string) (duration : Z) :
  (forall name,
      In name (_get_available_providers user_api_keys environ "video" None) ->
      fails name prompt) ->
  stands_in "placeholder"
            (generate_video user_api_keys environ remote now
                            prompt image_url duration).
Proof.
  intros Hfail. unfold generate_video.
  destruct (negb (Py.nonempty _)); [repeat split; reflexivity|].
  rewrite first_success_none; [repeat split; reflexivity|].
  intros name r Hin Hcall.
  apply video_call_returned in Hcall.
  destruct Hcall as [_ [locator Hloc]].
  destruct (Hfail name Hin) as [msg Hmsg]. congruence.
Qed.

Lemma generate_voiceover_stands_in (text voice_id model_id : string) :
  (forall name,
      In name (_get_available_providers user_api_keys environ "audio" None) ->
      fails name text) ->
  stands_in "none"
            (generate_voiceover user_api_keys environ remote now
                                text voice_id model_id)
  /\ url (generate_voiceover user_api_keys environ remote now
                             text voice_id model_id) = None.
Proof.
  intros Hfail. unfold generate_voiceover.
  destruct (negb (Py.nonempty _)); [repeat split; reflexivity|].
  rewrite first_success_none; [repeat split; reflexivity|].
  intros name r Hin Hcall.
  apply audio_call_returned in Hcall.
  destruct Hcall as [_ [locator Hloc]].
  destruct (Hfail name Hin) as [msg Hmsg]. congruence.
Qed.

End Router.

(** C3, as amended: when every candidate of a capability fails (or there
    is none), the generator returns a completed asset of cost 0.  For an
    image and for a video its provider is "placeholder"; for a voiceover
    its provider is "none" and it has no locator.  The generators are
    total: they never raise. *)
Theorem generators_stand_in_when_all_candidates_fail :
  forall (user_api_keys : gmap string string) (user_plan : string)
         (environ : gmap string string)
         (remote : string -> string -> call_result string) (now : string)
         (prompt platform : string) (width height : Z) (prefer_free : bool)
         (video_prompt : string) (image_url : option string) (duration : Z)
         (text voice_id model_id : string),
    (forall name,
        In name (_get_available_providers
                   user_api_keys environ "image"
                   (if prefer_free && String.eqb user_plan "free"
                    then Some FREE else None)) ->
        fails remote name prompt) ->
    (forall name,
        In name (_get_available_providers user_api_keys environ "video" None) ->
        fails remote name video_prompt) ->
    (forall name,
        In name (_get_available_providers user_api_keys environ "audio" None) ->
        fails remote name text) ->
    stands_in "placeholder"
              (generate_image user_api_keys user_plan environ remote now
                              prompt platform width height prefer_free)
    /\ stands_in "placeholder"
                 (generate_video user_api_keys environ remote now
                                 video_prompt image_url duration)
    /\ stands_in "none"
                 (generate_voiceover user_api_keys environ remote now
                                     text voice_id model_id)
    /\ url (generate_voiceover user_api_keys environ remote now
                               text voice_id model_id) = None.
Proof.
  intros keys plan environ remote now prompt platform width height
         prefer_free video_prompt image_url duration text voice_id model_id
         Himage Hvideo Haudio.
  split; [apply generate_image_stands_in; exact Himage|].
  split; [apply generate_video_stands_in; exact Hvideo|].
  apply generate_voiceover_stands_in; exact Haudio.
Qed.

(** The theorem with keys for four image providers and every exchange
    refused. *)
Lemma generators_stand_in_witness :
  stands_in "placeholder"
            (generate_image four_keys "pro" ∅ Samples.offline "1.5"
                            "product showcase" "twitter" 1024 1024 true)
  /\ stands_in "placeholder"
               (generate_video four_keys ∅ Samples.offline "1.5"
                               "Short promotional video: demo" None 4)
  /\ stands_in "none"
               (generate_voiceover four_keys ∅ Samples.offline "1.5"
                                   "We've all been there..."
                                   "21m00Tcm4TlvDq8ikWAM"
                                   "eleven_multilingual_v2")
  /\ url (generate_voiceover four_keys ∅ Samples.offline "1.5"
                             "We've all been there..."
                             "21m00Tcm4TlvDq8ikWAM"
                             "eleven_multilingual_v2") = None.
Proof.
  apply generators_stand_in_when_all_candidates_fail;
    intros name _; exists "connection refused"; reflexivity.
Defined.

(** C3, as stated, fails for the audio capability: with no credential at
    all the candidate list is empty and the voiceover's provider is
    "none", not "placeholder". *)
Lemma voiceover_without_keys_counterexample :
  _get_available_providers ∅ ∅ "audio" None = []
  /\ provider (generate_voiceover ∅ ∅ Samples.offline "1.5"
                                  "We've all been there..."
                                  "21m00Tcm4TlvDq8ikWAM"
                                  "eleven_multilingual_v2") = "none"
  /\ provider (generate_voiceover ∅ ∅ Samples.offline "1.5"
                                  "We've all been there..."
                                  "21m00Tcm4TlvDq8ikWAM"
                                  "eleven_multilingual_v2") <> "placeholder".
Proof.
  split; [vm_compute; reflexivity|].
  split; [vm_compute; reflexivity|].
  vm_compute. discriminate.
Qed.

(** Without any credential no table lists a provider. *)
Lemma no_credentials_list_nothing (media_type : string)
      (wanted : option ProviderPriority) :
  _get_available_providers ∅ ∅ media_type wanted = [].
Proof.
  unfold _get_available_providers, table_of.
  destruct (String.eqb media_type "image"); [reflexivity|].
  destruct (String.eqb media_type "video"); [reflexivity|].
  destruct (String.eqb media_type "audio"); reflexivity.
Qed.

(** Without any credential each generator takes its first branch. *)
Lemma no_credentials_image (user_plan : string)
      (remote : string -> string -> call_result string) (now : string)
      (prompt platform : string) (width height : Z) (prefer_free : bool) :
  let a := generate_image ∅ user_plan ∅ remote now prompt platform
                          width height prefer_free in
  type a = IMAGE /\ stands_in "placeholder" a.
Proof.
  unfold generate_image. rewrite no_credentials_list_nothing.
  destruct (Py.get _ aspect_ratios) as [[w h]|];
    repeat split; reflexivity.
Qed.

Lemma no_credentials_video (remote : string -> string -> call_result string)
      (now : string) (prompt : string) (image_url : option string)
      (duration : Z) :
  let a := generate_video ∅ ∅ remote now prompt image_url duration in
  type a = VIDEO /\ stands_in "placeholder" a.
Proof.
  unfold generate_video. rewrite no_credentials_list_nothing.
  repeat split; reflexivity.
Qed.

Lemma no_credentials_voiceover
      (remote : string -> string -> call_result string) (now : string)
      (text voice_id model_id : string) :
  let a := generate_voiceover ∅ ∅ remote now text voice_id model_id in
  type a = AUDIO /\ stands_in "none" a /\ url a = None.
Proof.
  unfold generate_voiceover. rewrite no_credentials_list_nothing.
  repeat split; reflexivity.
Qed.

(** With no credential at all, every asset that [generate_content_media]
    returns is a completed stand-in of cost 0 whose provider follows its
    kind: an image is stored under "image" and a video under "video",
    both with the provider "placeholder"; a voiceover is stored under
    "audio" with the provider "none" and without a locator. *)
Lemma no_credentials_assets (user_plan : string)
      (remote : string -> string -> call_result string) (now : string)
      (content_package : ContentPackage) (platform : string) :
  Forall (fun '(kind, a) =>
            match type a with
            | IMAGE => kind = "image" /\ stands_in "placeholder" a
            | VIDEO => kind = "video" /\ stands_in "placeholder" a
            | AUDIO => kind = "audio" /\ stands_in "none" a /\ url a = None
            end)
         (generate_content_media ∅ user_plan ∅ remote now
                                 content_package platform).
Proof.
  assert (Himage : forall prompt,
             let a := generate_image ∅ user_plan ∅ remote now prompt platform
                                     1024 1024 true in
             match type a with
             | IMAGE => "image" = "image" /\ stands_in "placeholder" a
             | VIDEO => "image" = "video" /\ stands_in "placeholder" a
             | AUDIO => "image" = "audio" /\ stands_in "none" a
                        /\ url a = None
             end).
  { intros prompt a.
    destruct (no_credentials_image user_plan remote now prompt platform
                1024 1024 true) as [Hty Hst].
    fold a in Hty, Hst. rewrite Hty. split; [reflexivity|exact Hst]. }
  assert (Hvideo : forall prompt,
             let a := generate_video ∅ ∅ remote now prompt None 4 in
             match type a with
             | IMAGE => "video" = "image" /\ stands_in "placeholder" a
             | VIDEO => "video" = "video" /\ stands_in "placeholder" a
             | AUDIO => "video" = "audio" /\ stands_in "none" a
                        /\ url a = None
             end).
  { intros prompt a.
    destruct (no_credentials_video remote now prompt None 4) as [Hty Hst].
    fold a in Hty, Hst. rewrite Hty. split; [reflexivity|exact Hst]. }
  assert (Haudio : forall text voice model,
             let a := generate_voiceover ∅ ∅ remote now text voice model in
             match type a with
             | IMAGE => "audio" = "image" /\ stands_in "placeholder" a
             | VIDEO => "audio" = "video" /\ stands_in "placeholder" a
             | AUDIO => "audio" = "audio" /\ stands_in "none" a
                        /\ url a = None
             end).
  { intros text voice model a.
    destruct (no_credentials_voiceover remote now text voice model)
      as [Hty Hst].
    fold a in Hty, Hst. rewrite Hty. split; [reflexivity|exact Hst]. }
  unfold generate_content_media.
  destruct (image_prompts _) as [prompts|], (video_script _) as [script|];
    simpl; try destruct (Py.str_truthy _); simpl;
    repeat (apply List.Forall_cons;
            [first [apply Himage|apply Hvideo|apply Haudio]|]);
    apply List.Forall_nil.
Qed.

(** ** The plan's tier preference *)

Definition tier_of (table : list (string * ProviderConfig)) (name : string)
  : option ProviderPriority :=
  match Py.get name table with
  | Some config => Some (priority config)
  | None => None
  end.

Lemma priority_eqb_eq (a b : ProviderPriority) :
  priority_eqb a b = true -> a = b.
Proof. destruct a, b; simpl; congruence. Qed.

(** A tier filter keeps the providers of that tier only. *)
Lemma filtered_listing_tier (user_api_keys environ : gmap string string)
      (tier : ProviderPriority) (name : string) :
  In name (_get_available_providers user_api_keys environ "image" (Some tier)) ->
  tier_of (providers user_api_keys environ) name = Some tier
  /\ has_credential (providers user_api_keys environ) name.
Proof.
  unfold _get_available_providers.
  change (table_of user_api_keys environ "image")
    with (Some (providers user_api_keys environ)).
  cbv beta iota zeta.
  intros Hname. apply sort_In in Hname. apply in_map_iff in Hname.
  destruct Hname as [[name' config] [Hfst Hin]]. simpl in Hfst. subst name'.
  apply List.filter_In in Hin. destruct Hin as [Hin Hav].
  unfold tier_of, has_credential, config_key.
  rewrite (get_of_In name config _ (providers_names user_api_keys environ) Hin).
  unfold is_available in Hav. simpl in Hav.
  apply andb_true_iff in Hav. destruct Hav as [Hkey Htier].
  apply priority_eqb_eq in Htier. rewrite Htier. split; [reflexivity|assumption].
Qed.

(** C4, as amended: for a free-plan request (with [prefer_free], the
    default) the candidates are the free-tier providers that have a
    credential, and there is no second listing over all tiers: the
    result comes from one of these candidates or is the placeholder, and
    it is the placeholder whenever the free-tier listing is empty or all
    of its candidates fail, whatever the other tiers hold. *)
Theorem free_plan_images_use_the_free_tier_only :
  forall (user_api_keys environ : gmap string string)
         (remote : string -> string -> call_result string) (now : string)
         (prompt platform : string) (width height : Z),
    let free :=
      _get_available_providers user_api_keys environ "image" (Some FREE) in
    let result :=
      generate_image user_api_keys "free" environ remote now
                     prompt platform width height true in
    Forall (fun name =>
              tier_of (providers user_api_keys environ) name = Some FREE
              /\ has_credential (providers user_api_keys environ) name)
           free
    /\ (provider result = "placeholder" \/ In (provider result) free)
    /\ (free = [] -> stands_in "placeholder" result)
    /\ ((forall name, In name free -> fails remote name prompt) ->
        stands_in "placeholder" result).
Proof.
  intros keys environ remote now prompt platform width height free result.
  split; [|split; [|split]].
  - apply List.Forall_forall. intros name Hname.
    apply filtered_listing_tier. exact Hname.
  - subst result. unfold generate_image.
    change (if true && String.eqb "free" "free" then Some FREE else None)
      with (Some FREE).
    fold free.
    destruct (Py.get _ aspect_ratios) as [[w h]|];
      (destruct (negb (Py.nonempty free)); [left; reflexivity|];
       destruct (first_success _ free) as [r|] eqn:Hfirst;
       [|left; reflexivity];
       right; apply first_success_some in Hfirst;
       destruct Hfirst as [name [Hin Hcall]];
       apply image_call_returned in Hcall;
       destruct Hcall as [Hprov _]; simpl; rewrite Hprov; exact Hin).
  - intros Hempty. subst result.
    apply (generate_image_stands_in keys "free" environ remote now
             prompt platform width height true).
    change (if true && String.eqb "free" "free" then Some FREE else None)
      with (Some FREE).
    fold free. rewrite Hempty. contradiction.
  - intros Hfail. subst result.
    apply (generate_image_stands_in keys "free" environ remote now
             prompt platform width height true).
    exact Hfail.
Qed.

(** C4, as stated, fails: a free-plan user whose only credential is for
    the premium provider "openai" has an empty free-tier listing and a
    non-empty listing over all tiers, the exchange with "openai" would
    succeed, and yet the image is the placeholder. *)
Lemma free_plan_no_fallback_counterexample :
  let keys : gmap string string := <["OPENAI_API_KEY" := "sk-1"]> ∅ in
  _get_available_providers keys ∅ "image" (Some FREE) = []
  /\ _get_available_providers keys ∅ "image" None = ["openai"]
  /\ Samples.online "openai" "product showcase"
     = Returned "https://cdn.example/openai"
  /\ provider (generate_image keys "free" ∅ Samples.online "1.5"
                              "product showcase" "instagram" 1024 1024 true)
     = "placeholder".
Proof. vm_compute. repeat split; reflexivity. Qed.

End MediaFacts.

(** * Properties of the variant generator and the orchestrator *)

Module WorkflowFacts.

Import NightlyWorkflowV2.

(** ** [max] *)

(** [max_from] returns the first element of [best :: l] whose key is the
    greatest: every element before it has a strictly smaller key, every
    element after it a key that is not greater. *)
Lemma max_from_first_greatest {A : Type} (key : A -> Z) (l : list A) :
  forall best : A,
  exists before after,
    best :: l = (before ++ PySort.max_from key best l :: after)%list
    /\ Forall (fun v => key v < key (PySort.max_from key best l)) before
    /\ Forall (fun v => key v <= key (PySort.max_from key best l)) after.
Proof.
  induction l as [|x l IH]; intros best; simpl.
  - exists [], []. repeat split; constructor.
  - destruct (key best <? key x) eqn:Hlt.
    + apply Z.ltb_lt in Hlt.
      destruct (IH x) as [before [after [Heq [Hb Ha]]]].
      exists (best :: before), after.
      split; [simpl; f_equal; exact Heq|].
      split; [|assumption].
      constructor; [|assumption].
      assert (key x <= key (PySort.max_from key x l)); [|lia].
      destruct before as [|b before]; simpl in Heq.
      * injection Heq as Hx _. rewrite <- Hx. lia.
      * injection Heq as Hx _. subst b.
        apply List.Forall_inv in Hb. lia.
    + apply Z.ltb_ge in Hlt.
      destruct (IH best) as [before [after [Heq [Hb Ha]]]].
      destruct before as [|b before]; simpl in Heq.
      * injection Heq as Hbest Hl.
        exists [], (x :: after).
        split; [simpl; f_equal; [exact Hbest|f_equal; exact Hl]|].
        split; [constructor|].
        constructor; [|assumption].
        rewrite <- Hbest. assumption.
      * injection Heq as Hbest Hl. subst b.
        exists (best :: x :: before), after.
        split; [simpl; f_equal; f_equal; exact Hl|].
        split; [|assumption].
        pose proof (List.Forall_inv Hb) as Hbest. cbv beta in Hbest.
        apply List.Forall_inv_tail in Hb.
        constructor; [assumption|].
        constructor; [lia|assumption].
Qed.

(** ** Variants *)

(** The CTA alternatives of the base draft:
    [list(content["cta"]["variations"].values())]. *)
Definition cta_alternatives (original_content : option ContentPackage)
  : list string :=
  match original_content with
  | Some p =>
      match cta (get_content p) with
      | Some c =>
          match cta_variations c with
          | Some vs => Py.values vs
          | None => []
          end
      | None => []
      end
  | None => []
  end.

Definition has_variant (name : string) (variants : list Variant) : Prop :=
  exists v, In v variants /\ variant_id v = name.

(** The variants are the control, then "B" when the draft has a video
    script and the optimizer produced hooks, then "C" when the draft has
    a CTA alternative. *)
Lemma ab_variants_shape (platform : string)
      (original_content : option ContentPackage)
      (optimized_content : option OptimizerAgent.OptimizedContent) :
  exists hook_part recommended,
    (hook_part = []
     \/ exists hook,
         hook_part = [variant_b (variant_a original_content optimized_content) hook])
    /\ _generate_ab_variants platform original_content optimized_content
       = (variant_a original_content optimized_content
            :: hook_part
            ++ match cta_alternatives original_content with
               | [] => []
               | first_cta :: others =>
                   [variant_c (variant_a original_content optimized_content)
                              recommended
                              match others with
                              | second_cta :: _ => second_cta
                              | [] => first_cta
                              end]
               end)%list.
Proof.
  unfold _generate_ab_variants, cta_alternatives.
  destruct original_content as [p|];
    [|exists [], ""; split; [left; reflexivity|reflexivity]].
  generalize (get_content p). intros content.
  destruct (Py.has (video_script content));
    [destruct (match optimized_content with
               | Some o => OptimizerAgent.opt_hook_variations o
               | None => []
               end) as [|hook hooks];
     [exists []
     |exists [variant_b (variant_a (Some p) optimized_content) hook]]
    |exists []];
    exists (match cta content with
            | Some c =>
                match cta_recommended c with Some r => r | None => "" end
            | None => ""
            end);
    (split; [first [left; reflexivity|right; eexists; reflexivity]|]);
    destruct (cta content) as [c|]; try reflexivity;
    destruct (cta_variations c) as [vs|]; try reflexivity;
    destruct (Py.values vs) as [|first_cta others]; reflexivity.
Qed.

(** The recommended CTA of the draft, [""] when it has none:
    [content["cta"].get("recommended", "")]. *)
Definition recommended_cta (original_content : option ContentPackage)
  : string :=
  match original_content with
  | Some p =>
      match cta (get_content p) with
      | Some c => match cta_recommended c with Some r => r | None => "" end
      | None => ""
      end
  | None => ""
  end.

(** A variant "C" is the control with the recommended CTA replaced in
    its caption by the second alternative, or by the first when there
    is one only. *)
Lemma cta_variant_substitutes (platform : string)
      (original_content : option ContentPackage)
      (optimized_content : option OptimizerAgent.OptimizedContent)
      (c : Variant) :
  In c (_generate_ab_variants platform original_content optimized_content) ->
  variant_id c = "C" ->
  exists first_cta others,
    cta_alternatives original_content = first_cta :: others
    /\ c = variant_c (variant_a original_content optimized_content)
                     (recommended_cta original_content)
                     match others with
                     | second_cta :: _ => second_cta
                     | [] => first_cta
                     end.
Proof.
  unfold _generate_ab_variants, cta_alternatives, recommended_cta.
  destruct original_content as [p|];
    [|intros [<-|[]]; discriminate].
  generalize (get_content p). intros content.
  destruct (Py.has (video_script content));
    [destruct (match optimized_content with
               | Some o => OptimizerAgent.opt_hook_variations o
               | None => []
               end) as [|hook hooks]|];
    cbn [length app Z.of_nat Z.ltb Z.compare Pos.compare Pos.compare_cont
         Pos.of_succ_nat Pos.succ];
    (destruct (cta content) as [ct|];
     [destruct (cta_variations ct) as [vs|];
      [destruct (Py.values vs) as [|first_cta others]|]|]);
    intros Hc Hid;
    lazy beta iota zeta delta [In app Z.ltb Z.compare Pos.compare
                               Pos.compare_cont length Z.of_nat
                               Pos.of_succ_nat Pos.succ Py.values map] in Hc;
    repeat match type of Hc with
           | _ \/ _ => destruct Hc as [<-|Hc]; try discriminate Hid
           | False => contradiction
           end;
    eauto.
Qed.

(** C6, as amended: the variant list starts with the control "A"; it
    holds a variant "C" if and only if the base draft has at least one
    CTA alternative (one is enough); a variant "C" has the control's
    viral score; and it is the control with the recommended CTA replaced
    in its caption by the second alternative when there are two or more,
    by the first otherwise. *)
Theorem variant_c_iff_some_cta_alternative :
  forall (platform : string) (original_content : option ContentPackage)
         (optimized_content : option OptimizerAgent.OptimizedContent),
  exists control rest,
    _generate_ab_variants platform original_content optimized_content
    = control :: rest
    /\ variant_id control = "A"
    /\ (has_variant "C" (control :: rest)
        <-> cta_alternatives original_content <> [])
    /\ (forall c, In c (control :: rest) -> variant_id c = "C" ->
                  v_viral_score c = v_viral_score control)
    /\ (forall c, In c (control :: rest) -> variant_id c = "C" ->
          exists first_cta others,
            cta_alternatives original_content = first_cta :: others
            /\ c = variant_c control (recommended_cta original_content)
                             match others with
                             | second_cta :: _ => second_cta
                             | [] => first_cta
                             end).
Proof.
  intros platform original optimized.
  pose proof (cta_variant_substitutes platform original optimized) as Hcta.
  destruct (ab_variants_shape platform original optimized)
    as [hook_part [recommended [Hhook Hshape]]].
  rewrite Hshape in Hcta |- *. eexists. eexists. split; [reflexivity|].
  split; [reflexivity|].
  assert (Hb : forall v, In v hook_part -> variant_id v <> "C").
  { intros v Hv. destruct Hhook as [->|[hook ->]]; [contradiction|].
    destruct Hv as [<-|[]]. discriminate. }
  unfold has_variant.
  match goal with
  | |- ?A /\ ?B /\ _ =>
      cut (A /\ B);
      [intros [HA HB]; split; [exact HA|split; [exact HB|exact Hcta]]|]
  end.
  clear Hcta.
  destruct (cta_alternatives original) as [|first_cta others].
  - rewrite app_nil_r. split.
    + split; [|congruence].
      intros [v [[<-|Hv] Hid]]; [discriminate|].
      exfalso. exact (Hb v Hv Hid).
    + intros c [<-|Hc] Hid; [reflexivity|].
      exfalso. exact (Hb c Hc Hid).
  - split.
    + split; [discriminate|]. intros _.
      eexists.
      split; [right; apply in_or_app; right; left; reflexivity|reflexivity].
    + intros c [<-|Hc] Hid; [reflexivity|].
      apply in_app_or in Hc. destruct Hc as [Hc|[<-|[]]].
      * exfalso. exact (Hb c Hc Hid).
      * reflexivity.
Qed.

(** C6, as stated, fails: a base draft with one CTA alternative, fewer
    than two, still gets a variant "C". *)
Lemma single_cta_counterexample :
  cta_alternatives (Some Samples.single_cta_draft) = ["Try Flowly now"]
  /\ map variant_id
         (_generate_ab_variants "twitter" (Some Samples.single_cta_draft) None)
     = ["A"; "C"].
Proof. split; reflexivity. Qed.

(** ** Dicts *)

Lemma get_set_eq {A : Type} (k : string) (v : A) (d : list (string * A)) :
  Py.get k (Py.set k v d) = Some v.
Proof.
  induction d as [|[k' v'] d IH]; simpl.
  - rewrite String.eqb_refl. reflexivity.
  - destruct (String.eqb k k') eqn:Hk; simpl.
    + rewrite String.eqb_refl. reflexivity.
    + rewrite Hk. exact IH.
Qed.

Lemma get_set_ne {A : Type} (k k' : string) (v : A) (d : list (string * A)) :
  k <> k' -> Py.get k (Py.set k' v d) = Py.get k d.
Proof.
  intros Hne. apply String.eqb_neq in Hne.
  induction d as [|[k2 v2] d IH]; simpl.
  - rewrite Hne. reflexivity.
  - destruct (String.eqb k' k2) eqn:Hk; simpl.
    + apply String.eqb_eq in Hk. subst k2. rewrite Hne. reflexivity.
    + destruct (String.eqb k k2); [reflexivity|exact IH].
Qed.

Lemma Forall_values_set {A : Type} (P : A -> Prop) (k : string) (v : A)
      (d : list (string * A)) :
  P v -> Forall P (Py.values d) -> Forall P (Py.values (Py.set k v d)).
Proof.
  unfold Py.values. intros Hv.
  induction d as [|[k' v'] d IH]; simpl; intros Hd.
  - constructor; [assumption|constructor].
  - inversion Hd; subst.
    destruct (String.eqb k k'); simpl; constructor; auto.
Qed.

(** After [for q in keys: d[q] = f(q)] every key of the loop holds its
    value. *)
Lemma get_after_sets {A : Type} (f : string -> A) (keys : list string) :
  forall (d : list (string * A)) (k : string),
    Py.get k (fold_left (fun d q => Py.set q (f q) d) keys d)
    = if in_dec string_dec k keys then Some (f k) else Py.get k d.
Proof.
  induction keys as [|q keys IH]; intros d k; simpl; [reflexivity|].
  rewrite IH.
  destruct (in_dec string_dec k keys) as [Hin|Hnotin].
  - destruct (string_dec q k); reflexivity.
  - destruct (string_dec q k) as [->|Hne].
    + apply get_set_eq.
    + apply get_set_ne. congruence.
Qed.

(** ** Finalization *)

(** The items that [_finalize_node] appends for one platform. *)
Definition items_of (now : string) (state : ContentWorkflowState)
           (platform : string) : list PyDict :=
  match PySort.max v_viral_score
                   match Py.get platform (ab_test_variants state) with
                   | Some vs => vs
                   | None => []
                   end with
  | Some best_variant => [content_item now state platform best_variant]
  | None => []
  end.

Lemma finalize_loop (now : string) (state : ContentWorkflowState)
      (todo : list string) :
  forall acc : list PyDict,
    fold_left
      (fun final_content platform =>
         match PySort.max v_viral_score
                          match Py.get platform (ab_test_variants state) with
                          | Some vs => vs
                          | None => []
                          end with
         | Some best_variant =>
             (final_content
                ++ [content_item now state platform best_variant])%list
         | None => final_content
         end)
      todo acc
    = (acc ++ flat_map (items_of now state) todo)%list.
Proof.
  induction todo as [|platform rest IH]; intros acc; simpl.
  - rewrite app_nil_r. reflexivity.
  - rewrite IH. unfold items_of at 2.
    destruct (PySort.max _ _); simpl.
    + rewrite <- app_assoc. reflexivity.
    + reflexivity.
Qed.

Lemma finalize_items (now : string) (state : ContentWorkflowState) :
  final_content (_finalize_node now state)
  = flat_map (items_of now state) (platforms state).
Proof.
  unfold _finalize_node.
  cbn [final_content set_current_stage set_final_content].
  apply finalize_loop.
Qed.

(** The variant list that [_finalize_node] reads for a platform:
    [state["ab_test_variants"].get(platform, [])]. *)
Definition variants_of (state : ContentWorkflowState) (platform : string)
  : list Variant :=
  match Py.get platform (ab_test_variants state) with
  | Some vs => vs
  | None => []
  end.

(** The item of [_finalize_node] for a platform of the run is the item
    of the variant that [max] returns: it is among the final items, and
    every final item of the platform is this item. *)
Lemma finalize_picks (now : string) (state : ContentWorkflowState)
      (platform : string) (winner : Variant) :
  In platform (platforms state) ->
  PySort.max v_viral_score (variants_of state platform) = Some winner ->
  In (content_item now state platform winner)
     (final_content (_finalize_node now state))
  /\ Forall (fun item =>
               Py.get "platform" item = Some (PStr platform) ->
               item = content_item now state platform winner)
            (final_content (_finalize_node now state)).
Proof.
  intros Hin Hmax. rewrite finalize_items. split.
  - apply in_flat_map. exists platform. split; [exact Hin|].
    unfold items_of. fold (variants_of state platform). rewrite Hmax.
    left. reflexivity.
  - apply List.Forall_forall. intros item Hitem Hplatform.
    apply in_flat_map in Hitem. destruct Hitem as [other [_ Hitem]].
    unfold items_of in Hitem. fold (variants_of state other) in Hitem.
    destruct (PySort.max v_viral_score (variants_of state other))
      as [best|] eqn:Hbest; [|contradiction].
    destruct Hitem as [<-|[]].
    cbn in Hplatform. injection Hplatform as ->.
    rewrite Hmax in Hbest. injection Hbest as ->. reflexivity.
Qed.

(** C9: for every platform of the run whose variant list is not empty,
    the item that [_finalize_node] produces for the platform is the item
    of a winner whose score is at least every variant's score, and every
    variant declared before the winner has a strictly smaller score:
    among the variants that tie for the highest score the earliest one
    is selected, so that the control, the head of the list, is selected
    whenever it ties with the winner.  No other item is produced for the
    platform. *)
Theorem winner_has_highest_score_and_earliest_wins_ties :
  forall (now : string) (state : ContentWorkflowState) (platform : string)
         (variants : list Variant),
    In platform (platforms state) ->
    Py.get platform (ab_test_variants state) = Some variants ->
    variants <> [] ->
    exists winner before after,
      variants = (before ++ winner :: after)%list
      /\ Forall (fun v => v_viral_score v < v_viral_score winner) before
      /\ Forall (fun v => v_viral_score v <= v_viral_score winner) after
      /\ In (content_item now state platform winner)
            (final_content (_finalize_node now state))
      /\ Forall (fun item =>
                   Py.get "platform" item = Some (PStr platform) ->
                   item = content_item now state platform winner)
                (final_content (_finalize_node now state))
      /\ (forall control rest,
             variants = control :: rest ->
             v_viral_score control = v_viral_score winner ->
             winner = control).
Proof.
  intros now state platform [|first rest] Hin Hget Hne; [contradiction|].
  destruct (max_from_first_greatest v_viral_score rest first)
    as [before [after [Heq [Hb Ha]]]].
  exists (PySort.max_from v_viral_score first rest), before, after.
  split; [exact Heq|]. split; [exact Hb|]. split; [exact Ha|].
  destruct (finalize_picks now state platform
              (PySort.max_from v_viral_score first rest) Hin)
    as [Hitem Hitems];
    [unfold variants_of; rewrite Hget; reflexivity|].
  split; [exact Hitem|]. split; [exact Hitems|].
  intros control others Hvariants Htie.
  rewrite Hvariants in Heq.
  destruct before as [|b before]; simpl in Heq.
  - injection Heq as -> _. reflexivity.
  - injection Heq as <- _. apply List.Forall_inv in Hb. lia.
Qed.

(** Three variants that tie at the highest score. *)
Definition tied_variants : list Variant :=
  map (fun '(name, headline, hypothesis) =>
         {| variant_id := name; v_title := headline;
            v_caption := "Try Flowly free for 14 days";
            v_hashtags := ["#Flowly"]; v_viral_score := 100;
            v_confidence := 8 # 10; v_content_angle := [];
            v_test_hypothesis := hypothesis |})
      [ ("A", "Try Flowly free for 14 days", "Original optimized version");
        ("B", "POV: You finally found the answer",
         "Alternative hook variation");
        ("C", "Try Flowly free for 14 days", "Alternative CTA") ].

(** A state that reaches FINALIZE with these variants for "tiktok". *)
Definition tied_state : ContentWorkflowState :=
  {| user_id := "u1"; webapp_id := "w1"; webapp_data := Samples.flowly;
     user_api_keys := ∅; user_plan := "free"; platforms := ["tiktok"];
     research_results := empty_research; content_packages := [];
     media_assets := []; optimized_content := []; viral_scores := [];
     ab_test_variants := [("tiktok", tied_variants)]; final_content := [];
     current_stage := AB_TEST; errors := [];
     cost_estimate := 0; actual_cost := 0 |}.

(** On that state the one item of FINALIZE is the control's. *)
Lemma winner_witness :
  map (Py.get "variant_id") (final_content (_finalize_node "1.5" tied_state))
  = [Some (PStr "A")]
  /\ exists winner before after,
      tied_variants = (before ++ winner :: after)%list
      /\ Forall (fun v => v_viral_score v < v_viral_score winner) before
      /\ Forall (fun v => v_viral_score v <= v_viral_score winner) after
      /\ In (content_item "1.5" tied_state "tiktok" winner)
            (final_content (_finalize_node "1.5" tied_state))
      /\ Forall (fun item =>
                   Py.get "platform" item = Some (PStr "tiktok") ->
                   item = content_item "1.5" tied_state "tiktok" winner)
                (final_content (_finalize_node "1.5" tied_state))
      /\ (forall control rest,
             tied_variants = control :: rest ->
             v_viral_score control = v_viral_score winner ->
             winner = control).
Proof.
  split; [reflexivity|].
  apply (winner_has_highest_score_and_earliest_wins_ties
           "1.5" tied_state "tiktok" tied_variants).
  - left. reflexivity.
  - reflexivity.
  - discriminate.
Defined.

(** The claim's reading of an item. *)
Definition is_filled (v : option pyval) : bool :=
  match v with
  | Some (PStr s) => Py.str_truthy s
  | Some (PList l) => Py.nonempty l
  | _ => false
  end.

Definition mandatory_fields_filled (item : PyDict) : bool :=
  is_filled (Py.get "title" item)
  && is_filled (Py.get "caption" item)
  && is_filled (Py.get "media_urls" item).

(** An item is flagged when it has a true ["degraded"] entry or the
    status ["degraded"]. *)
Definition flagged_degraded (item : PyDict) : bool :=
  match Py.get "degraded" item with
  | Some (PBool true) => true
  | _ => false
  end
  || match Py.get "status" item with
     | Some (PStr s) => String.eqb s "degraded"
     | _ => false
     end.

(** C2, as amended: every item that FINALIZE produces is the item of
    the winner, the variant that [max] returns, for a platform of the
    run, has the status "pending" and carries no "degraded" entry,
    whether or not its title, caption and media URLs are filled: the
    stage marks no item as degraded and keeps none out of the approval
    queue. *)
Theorem finalized_items_are_pending_and_unflagged :
  forall (now : string) (state : ContentWorkflowState),
    Forall (fun item =>
              Py.get "status" item = Some (PStr "pending")
              /\ Py.get "degraded" item = None
              /\ flagged_degraded item = false
              /\ exists platform best_variant,
                  In platform (platforms state)
                  /\ PySort.max v_viral_score (variants_of state platform)
                     = Some best_variant
                  /\ item = content_item now state platform best_variant)
           (final_content (_finalize_node now state)).
Proof.
  intros now state. rewrite finalize_items.
  apply List.Forall_forall. intros item Hitem.
  apply in_flat_map in Hitem. destruct Hitem as [platform [Hp Hitem]].
  unfold items_of in Hitem. fold (variants_of state platform) in Hitem.
  destruct (PySort.max v_viral_score (variants_of state platform))
    as [best|] eqn:Hbest; [|contradiction].
  destruct Hitem as [<-|[]].
  repeat split; try reflexivity.
  exists platform, best. repeat split; assumption.
Qed.

(** ** The run *)

(** The error entry of [_creative_node] for a platform and the text of
    the exception. *)
Definition creative_message (failure : string * string) : string :=
  "Creative failed for " ++ fst failure ++ ": " ++ snd failure.

(** A draft on which the optimizer does not raise: a caption, when
    there is one, has a text. *)
Definition draft_well_formed (p : ContentPackage) : Prop :=
  match caption (get_content p) with
  | Some c => cap_text c <> None
  | None => True
  end.

(** A list followed by itself. *)
Definition doubled (l : list string) : list string := (l ++ l)%list.

Lemma length_doubled (l : list string) :
  length (doubled l) = (2 * length l)%nat.
Proof. unfold doubled. rewrite length_app. lia. Qed.

Section Orchestrator.

Variable research_webapp : WebApp -> call_result ResearchResults.
Variable generate_content_package :
  nat -> ResearchResults -> WebApp -> string -> call_result ContentPackage.
Variable fl : Q -> Q.
Variable repr_content : Content -> string.
Variable hour : Z.
Variable environ : gmap string string.
Variable remote : string -> string -> call_result string.
Variable now : string.

(** The platforms, in order, whose creative call raises, each with the
    text of its exception; [call] numbers the calls as the loop does. *)
Fixpoint creative_failures (research : ResearchResults)
         (webapp_data : WebApp) (call : nat) (todo : list string)
  : list (string * string) :=
  match todo with
  | [] => []
  | platform :: rest =>
      match generate_content_package call research webapp_data platform with
      | Returned _ => creative_failures research webapp_data (S call) rest
      | Raised e =>
          (platform, e)
            :: creative_failures research webapp_data (S call) rest
      end
  end.

Lemma creative_loop_errors (state : ContentWorkflowState)
      (todo : list string) :
  forall (call : nat) (drafts : list (string * ContentPackage))
         (errs : list string),
    snd (creative_loop generate_content_package state call todo
                       (drafts, errs))
    = (errs ++ map creative_message
                   (creative_failures (research_results state)
                                      (webapp_data state) call todo))%list.
Proof.
  induction todo as [|platform rest IH]; intros call drafts errs; simpl.
  - rewrite app_nil_r. reflexivity.
  - destruct (generate_content_package call _ _ platform) as [package|e].
    + apply IH.
    + rewrite IH. unfold add_error. rewrite <- app_assoc. reflexivity.
Qed.

Lemma creative_loop_drafts (P : ContentPackage -> Prop)
      (state : ContentWorkflowState) (todo : list string) :
  (forall call platform package,
      generate_content_package call (research_results state)
                               (webapp_data state) platform
      = Returned package ->
      P package) ->
  forall (call : nat) (drafts : list (string * ContentPackage))
         (errs : list string),
    Forall P (Py.values drafts) ->
    Forall P (Py.values
                (fst (creative_loop generate_content_package state call
                                    todo (drafts, errs)))).
Proof.
  intros Hdraft.
  induction todo as [|platform rest IH]; intros call drafts errs Hd; simpl.
  - exact Hd.
  - destruct (generate_content_package call _ _ platform) as [package|e]
      eqn:Hcall.
    + apply IH. apply Forall_values_set; [|exact Hd].
      exact (Hdraft call platform package Hcall).
    + apply IH. exact Hd.
Qed.

Lemma optimize_content_returns (cats tags : list string)
      (package : ContentPackage) (platform : string) (webapp_data : WebApp)
      (name : string) :
  wa_name webapp_data = Some name ->
  draft_well_formed package ->
  exists o,
    OptimizerAgent.optimize_content fl repr_content cats tags hour
                                    package platform webapp_data
    = Returned o.
Proof.
  intros Hname Hdraft. unfold OptimizerAgent.optimize_content.
  unfold draft_well_formed in Hdraft.
  destruct (ScoringFacts.calculate_viral_score_returns
              fl repr_content cats hour package platform webapp_data name
              Hname) as [r Hr].
  rewrite Hr.
  destruct (caption (get_content package)) as [c|]; [|eauto].
  destruct (cap_text c); [eauto|contradiction].
Qed.

(** The loop of [_optimize_node] adds no error when every draft is
    optimized. *)
Lemma optimize_loop_errors (cats tags : list string) (webapp_data : WebApp)
      (drafts : list (string * ContentPackage)) :
  (forall platform package,
      In (platform, package) drafts ->
      exists o,
        OptimizerAgent.optimize_content fl repr_content cats tags hour
                                        package platform webapp_data
        = Returned o) ->
  forall acc,
    snd (fold_left
           (fun '(optimized, scores, errs) '(platform, package) =>
              match OptimizerAgent.optimize_content
                      fl repr_content cats tags hour package platform
                      webapp_data with
              | Returned o =>
                  (Py.set platform o optimized,
                   Py.set platform (OptimizerAgent.opt_viral_score o) scores,
                   errs)
              | Raised e =>
                  (optimized, scores,
                   add_error errs
                     ("Optimization failed for " ++ platform ++ ": " ++ e))
              end)
           drafts acc)
    = snd acc.
Proof.
  induction drafts as [|[platform package] drafts IH];
    intros Hall [[optimized scores] errs]; simpl; [reflexivity|].
  destruct (Hall platform package (or_introl eq_refl)) as [o Ho].
  rewrite Ho. rewrite IH; [reflexivity|].
  intros p' pkg' Hin. apply Hall. right. exact Hin.
Qed.

Lemma In_values {A : Type} (k : string) (v : A) (d : list (string * A)) :
  In (k, v) d -> In v (Py.values d).
Proof. intros H. unfold Py.values. apply (in_map snd) in H. exact H. Qed.

(** What each handler leaves as it was. *)

Lemma research_node_keeps (state : ContentWorkflowState) :
  platforms (_research_node research_webapp state) = platforms state
  /\ webapp_data (_research_node research_webapp state)
     = webapp_data state.
Proof.
  unfold _research_node.
  destruct (research_webapp (webapp_data state)); split; reflexivity.
Qed.

Lemma research_node_returned (state : ContentWorkflowState)
      (research : ResearchResults) :
  research_webapp (webapp_data state) = Returned research ->
  research_results (_research_node research_webapp state) = research
  /\ errors (_research_node research_webapp state) = errors state.
Proof. unfold _research_node. intros ->. split; reflexivity. Qed.

Lemma creative_node_keeps (state : ContentWorkflowState) :
  platforms (_creative_node generate_content_package state)
  = platforms state
  /\ webapp_data (_creative_node generate_content_package state)
     = webapp_data state
  /\ research_results (_creative_node generate_content_package state)
     = research_results state.
Proof.
  unfold _creative_node.
  destruct (creative_loop _ _ _ _ _) as [drafts errs].
  repeat split; reflexivity.
Qed.

Lemma creative_node_result (state : ContentWorkflowState) :
  content_packages (_creative_node generate_content_package state)
  = fst (creative_loop generate_content_package state 0 (platforms state)
                       ([], errors state))
  /\ errors (_creative_node generate_content_package state)
     = snd (creative_loop generate_content_package state 0
                          (platforms state) ([], errors state)).
Proof.
  unfold _creative_node.
  destruct (creative_loop _ _ _ _ _) as [drafts errs].
  split; reflexivity.
Qed.

Lemma media_node_keeps (state : ContentWorkflowState) :
  platforms (_media_node environ remote now state) = platforms state
  /\ webapp_data (_media_node environ remote now state)
     = webapp_data state
  /\ research_results (_media_node environ remote now state)
     = research_results state
  /\ content_packages (_media_node environ remote now state)
     = content_packages state
  /\ errors (_media_node environ remote now state) = errors state.
Proof.
  unfold _media_node.
  destruct (fold_left _ _ _) as [assets total].
  repeat split; reflexivity.
Qed.

Lemma optimize_node_keeps (state : ContentWorkflowState) :
  platforms (_optimize_node fl repr_content hour state) = platforms state
  /\ content_packages (_optimize_node fl repr_content hour state)
     = content_packages state.
Proof.
  unfold _optimize_node.
  destruct (fold_left _ _ _) as [[optimized scores] errs].
  split; reflexivity.
Qed.

Lemma optimize_node_errors (state : ContentWorkflowState) (name : string) :
  wa_name (webapp_data state) = Some name ->
  Forall draft_well_formed (Py.values (content_packages state)) ->
  errors (_optimize_node fl repr_content hour state) = errors state.
Proof.
  intros Hname Hdrafts. unfold _optimize_node.
  pose proof (optimize_loop_errors
                (res_trending_categories (research_results state))
                (res_trending_hashtags (research_results state))
                (webapp_data state) (content_packages state)) as Hloop.
  destruct (fold_left _ _ _) as [[optimized scores] errs] eqn:Hfold.
  cbn [errors set_current_stage set_viral_scores set_optimized_content
       set_errors].
  change errs with (snd (optimized, scores, errs)).
  rewrite <- Hfold. rewrite Hloop; [reflexivity|].
  intros platform package Hin.
  apply optimize_content_returns with (name := name); [assumption|].
  rewrite List.Forall_forall in Hdrafts. apply Hdrafts.
  apply In_values with (k := platform). exact Hin.
Qed.

Lemma ab_test_node_keeps (state : ContentWorkflowState) :
  platforms (_ab_test_node state) = platforms state
  /\ errors (_ab_test_node state) = errors state.
Proof. split; reflexivity. Qed.

(** After [_ab_test_node] every platform of the run has a variant list
    that starts with the control. *)
Lemma ab_test_node_variants (state : ContentWorkflowState)
      (platform : string) :
  In platform (platforms state) ->
  exists control rest,
    Py.get platform (ab_test_variants (_ab_test_node state))
    = Some (control :: rest).
Proof.
  intros Hin. unfold _ab_test_node.
  cbn [ab_test_variants set_current_stage set_ab_test_variants].
  rewrite (get_after_sets
             (fun q => _generate_ab_variants
                         q (Py.get q (content_packages state))
                         (Py.get q (optimized_content state)))).
  destruct (in_dec string_dec platform (platforms state)); [|contradiction].
  destruct (ab_variants_shape platform
              (Py.get platform (content_packages state))
              (Py.get platform (optimized_content state)))
    as [hook_part [recommended [_ Hshape]]].
  rewrite Hshape. eauto.
Qed.

Lemma length_flat_map_singletons {A B : Type} (f : A -> list B)
      (l : list A) :
  (forall x, In x l -> exists y, f x = [y]) ->
  length (flat_map f l) = length l.
Proof.
  induction l as [|x l IH]; intros H; simpl; [reflexivity|].
  destruct (H x (or_introl eq_refl)) as [y Hy].
  rewrite Hy. simpl. f_equal. apply IH.
  intros x' Hx'. apply H. right. exact Hx'.
Qed.

(** FINALIZE after AB_TEST produces one item per platform of the
    list, whatever the error list holds. *)
Lemma finalize_after_ab_test (state : ContentWorkflowState)
      (errs : list string) :
  length (final_content
            (_finalize_node now (set_errors errs (_ab_test_node state))))
  = length (platforms state).
Proof.
  rewrite finalize_items.
  change (platforms (set_errors errs (_ab_test_node state)))
    with (platforms state).
  apply length_flat_map_singletons.
  intros platform Hin.
  destruct (ab_test_node_variants state platform Hin)
    as [control [rest Hget]].
  unfold items_of.
  change (ab_test_variants (set_errors errs (_ab_test_node state)))
    with (ab_test_variants (_ab_test_node state)).
  rewrite Hget. simpl. eauto.
Qed.

(** The handlers composed along the edges, each receiving the state
    that the one before it returned. *)
Definition handed_over (state : ContentWorkflowState)
  : ContentWorkflowState :=
  _finalize_node now
    (_ab_test_node
       (_optimize_node fl repr_content hour
          (_media_node environ remote now
             (_creative_node generate_content_package
                (_research_node research_webapp state))))).

Local Abbreviation step_of n :=
  (step research_webapp generate_content_package fl repr_content hour
        environ remote now n).

(** The walk of [ainvoke]: six steps after the input is written. *)
Lemma ainvoke_steps (input : ContentWorkflowState) :
  ainvoke research_webapp generate_content_package fl repr_content hour
          environ remote now input
  = step_of finalize
      (step_of ab_test
         (step_of optimize
            (step_of media
               (step_of creative
                  (step_of research
                     (write (set_errors [] input) input)))))).
Proof. reflexivity. Qed.

(** A step changes the handler's result in its error list only, which
    becomes the channel's list followed by the returned list. *)
Lemma step_is_set_errors (n : Node) (channels : ContentWorkflowState) :
  step_of n channels
  = set_errors (errors channels
                  ++ errors (handler research_webapp
                                     generate_content_package fl
                                     repr_content hour environ remote now
                                     n channels))%list
               (handler research_webapp generate_content_package fl
                        repr_content hour environ remote now n channels).
Proof. reflexivity. Qed.

Lemma step_platforms (n : Node) (channels : ContentWorkflowState) :
  platforms (step_of n channels) = platforms channels.
Proof.
  rewrite step_is_set_errors.
  change (platforms (set_errors ?e ?s)) with (platforms s).
  destruct n; cbn [handler].
  - apply research_node_keeps.
  - apply creative_node_keeps.
  - apply media_node_keeps.
  - apply optimize_node_keeps.
  - apply ab_test_node_keeps.
  - reflexivity.
Qed.

Lemma step_errors (n : Node) (channels : ContentWorkflowState) :
  errors (step_of n channels)
  = (errors channels
       ++ errors (handler research_webapp generate_content_package fl
                          repr_content hour environ remote now n channels))%list.
Proof. reflexivity. Qed.

(** The two last steps produce one item per platform. *)
Lemma last_steps_items (channels : ContentWorkflowState) :
  length (final_content (step_of finalize (step_of ab_test channels)))
  = length (platforms channels).
Proof.
  rewrite (step_is_set_errors finalize).
  change (final_content (set_errors ?e ?s)) with (final_content s).
  rewrite (step_is_set_errors ab_test).
  cbn [handler]. apply finalize_after_ab_test.
Qed.

(** The hypotheses under which no stage but CREATIVE adds an error. *)
Definition only_creative_fails (webapp_data : WebApp)
           (research : ResearchResults) : Prop :=
  research_webapp webapp_data = Returned research
  /\ (exists name, wa_name webapp_data = Some name)
  /\ (forall call platform package,
         generate_content_package call research webapp_data platform
         = Returned package ->
         draft_well_formed package).

(** The errors at the end of the creative stage are the creative
    failures, after the errors that the stage found. *)
Lemma creative_node_errors (state : ContentWorkflowState) :
  errors (_creative_node generate_content_package state)
  = (errors state
       ++ map creative_message
              (creative_failures (research_results state)
                                 (webapp_data state) 0 (platforms state)))%list.
Proof.
  destruct (creative_node_result state) as [_ ->].
  apply creative_loop_errors.
Qed.

Lemma creative_node_drafts (state : ContentWorkflowState) :
  (forall call platform package,
      generate_content_package call (research_results state)
                               (webapp_data state) platform
      = Returned package ->
      draft_well_formed package) ->
  Forall draft_well_formed
         (Py.values
            (content_packages (_creative_node generate_content_package state))).
Proof.
  intros Hdraft. destruct (creative_node_result state) as [-> _].
  apply creative_loop_drafts; [exact Hdraft|constructor].
Qed.

Lemma step_fields (n : Node) (channels : ContentWorkflowState) :
  webapp_data (step_of n channels)
  = webapp_data (handler research_webapp generate_content_package fl
                         repr_content hour environ remote now n channels)
  /\ research_results (step_of n channels)
     = research_results
         (handler research_webapp generate_content_package fl
                  repr_content hour environ remote now n channels)
  /\ content_packages (step_of n channels)
     = content_packages
         (handler research_webapp generate_content_package fl
                  repr_content hour environ remote now n channels).
Proof. repeat split; reflexivity. Qed.

(** A step whose handler adds no error doubles the error list: the
    handler returns the list it read, and that list is added to the
    channel that already holds it. *)
Lemma quiet_step_doubles (n : Node) (channels : ContentWorkflowState) :
  errors (handler research_webapp generate_content_package fl
                  repr_content hour environ remote now n channels)
  = errors channels ->
  errors (step_of n channels) = doubled (errors channels).
Proof. intros H. rewrite step_errors, H. reflexivity. Qed.

(** The error list that [ainvoke] returns when CREATIVE is the only
    stage that fails: the creative failures, doubled by each of the
    four steps that follow. *)
Lemma ainvoke_errors (input : ContentWorkflowState)
      (findings : ResearchResults) :
  errors input = [] ->
  only_creative_fails (webapp_data input) findings ->
  errors (ainvoke research_webapp generate_content_package fl repr_content
                  hour environ remote now input)
  = doubled
      (doubled
         (doubled
            (doubled
               (map creative_message
                    (creative_failures findings (webapp_data input) 0
                                       (platforms input)))))).
Proof.
  intros Hempty [Hresearch [[name Hname] Hdraft]].
  rewrite ainvoke_steps.
  set (c0 := write (set_errors [] input) input).
  set (c1 := step_of research c0).
  set (c2 := step_of creative c1).
  set (c3 := step_of media c2).
  set (c4 := step_of optimize c3).
  set (c5 := step_of ab_test c4).
  assert (H0 : errors c0 = [] /\ webapp_data c0 = webapp_data input
               /\ platforms c0 = platforms input).
  { unfold c0, write, operator_add. cbn. rewrite Hempty. auto. }
  destruct H0 as [He0 [Hw0 Hp0]].
  assert (H1 : errors c1 = [] /\ webapp_data c1 = webapp_data input
               /\ research_results c1 = findings
               /\ platforms c1 = platforms input).
  { unfold c1. rewrite step_platforms, step_errors.
    destruct (step_fields research c0) as [-> [-> _]].
    cbn [handler].
    destruct (research_node_keeps c0) as [_ ->].
    rewrite Hw0 in *.
    destruct (research_node_returned c0 findings) as [-> ->];
      [rewrite Hw0; exact Hresearch|].
    rewrite He0. auto. }
  destruct H1 as [He1 [Hw1 [Hr1 Hp1]]].
  assert (H2 : errors c2
               = map creative_message
                     (creative_failures findings (webapp_data input) 0
                                        (platforms input))
               /\ webapp_data c2 = webapp_data input
               /\ Forall draft_well_formed
                         (Py.values (content_packages c2))).
  { unfold c2. rewrite step_errors.
    destruct (step_fields creative c1) as [-> [_ ->]].
    cbn [handler].
    rewrite creative_node_errors, He1, Hr1, Hw1, Hp1.
    destruct (creative_node_keeps c1) as [_ [-> _]].
    split; [reflexivity|]. split; [exact Hw1|].
    apply creative_node_drafts. rewrite Hr1, Hw1. exact Hdraft. }
  destruct H2 as [He2 [Hw2 Hd2]].
  assert (H3 : errors c3 = doubled (errors c2)
               /\ webapp_data c3 = webapp_data input
               /\ Forall draft_well_formed
                         (Py.values (content_packages c3))).
  { unfold c3.
    destruct (step_fields media c2) as [-> [_ ->]].
    cbn [handler].
    destruct (media_node_keeps c2) as [_ [-> [_ [-> He]]]].
    split; [apply quiet_step_doubles; exact He|]. auto. }
  destruct H3 as [He3 [Hw3 Hd3]].
  assert (H4 : errors c4 = doubled (errors c3)).
  { unfold c4. apply quiet_step_doubles. cbn [handler].
    apply optimize_node_errors with (name := name); [|exact Hd3].
    rewrite Hw3. exact Hname. }
  assert (H5 : errors c5 = doubled (errors c4)).
  { unfold c5. apply quiet_step_doubles. reflexivity. }
  rewrite quiet_step_doubles; [|reflexivity].
  rewrite H5, H4, He3, He2. reflexivity.
Qed.

(** Handed over from handler to handler without the channel writes,
    the error list would hold each creative failure once. *)
Lemma handed_over_errors (input : ContentWorkflowState)
      (findings : ResearchResults) :
  errors input = [] ->
  only_creative_fails (webapp_data input) findings ->
  errors (handed_over input)
  = map creative_message
        (creative_failures findings (webapp_data input) 0
                           (platforms input)).
Proof.
  intros Hempty [Hresearch [[name Hname] Hdraft]].
  unfold handed_over.
  set (s1 := _research_node research_webapp input).
  set (s2 := _creative_node generate_content_package s1).
  set (s3 := _media_node environ remote now s2).
  destruct (research_node_keeps input) as [Hp1 Hw1].
  destruct (research_node_returned input findings Hresearch) as [Hr1 He1].
  destruct (creative_node_keeps s1) as [_ [Hw2 _]].
  destruct (media_node_keeps s2) as [_ [Hw3 [_ [Hd3 He3]]]].
  fold s1 in Hp1, Hw1, Hr1, He1. fold s2 in Hw2, Hd3, He3, Hw3.
  fold s3 in Hw3, Hd3, He3.
  change (errors (_finalize_node now (_ab_test_node ?s))) with (errors s).
  rewrite (optimize_node_errors s3 name).
  - rewrite He3. unfold s2.
    rewrite creative_node_errors, He1, Hr1, Hw1, Hp1, Hempty. reflexivity.
  - rewrite Hw3, Hw2, Hw1. exact Hname.
  - rewrite Hd3. apply creative_node_drafts. rewrite Hr1, Hw1. exact Hdraft.
Qed.

End Orchestrator.

(** Every run returns (the handlers are total and [run] reports
    success), reaches COMPLETE and returns exactly one finalized item
    per entry of the platform list, whatever fails on the way. *)
Lemma run_returns_one_item_per_platform
      (research_webapp : WebApp -> call_result ResearchResults)
      (generate_content_package :
         nat -> ResearchResults -> WebApp -> string ->
         call_result ContentPackage)
      (fl : Q -> Q) (repr_content : Content -> string) (hour : Z)
      (environ : gmap string string)
      (remote : string -> string -> call_result string) (now : string)
      (user_id webapp_id : string) (webapp_data : WebApp)
      (platforms : list string) (user_api_keys : gmap string string)
      (user_plan : string) :
  let result :=
    run research_webapp generate_content_package fl repr_content hour
        environ remote now
        user_id webapp_id webapp_data platforms user_api_keys user_plan in
  success result = true
  /\ stages_completed result = COMPLETE
  /\ length (content result) = length platforms.
Proof.
  intros result. subst result. unfold run.
  cbn [success content run_errors stages_completed].
  rewrite ainvoke_steps.
  match goal with
  | |- context [write (set_errors [] ?i) ?i] =>
      set (c0 := write (set_errors [] i) i)
  end.
  split; [reflexivity|]. split; [reflexivity|].
  rewrite last_steps_items. rewrite !step_platforms. reflexivity.
Qed.

(** When CREATIVE is the only stage that fails, the error list of the
    run holds the M entries of the M creative failures sixteen times
    over. *)
Lemma run_reports_creative_failures_sixteenfold
      (research_webapp : WebApp -> call_result ResearchResults)
      (generate_content_package :
         nat -> ResearchResults -> WebApp -> string ->
         call_result ContentPackage)
      (fl : Q -> Q) (repr_content : Content -> string) (hour : Z)
      (environ : gmap string string)
      (remote : string -> string -> call_result string) (now : string)
      (user_id webapp_id : string) (webapp_data : WebApp)
      (platforms : list string) (user_api_keys : gmap string string)
      (user_plan : string) (findings : ResearchResults) :
  only_creative_fails research_webapp generate_content_package
                      webapp_data findings ->
  let failures :=
    creative_failures generate_content_package findings webapp_data
                      0 platforms in
  let result :=
    run research_webapp generate_content_package fl repr_content hour
        environ remote now
        user_id webapp_id webapp_data platforms user_api_keys user_plan in
  run_errors result
  = doubled (doubled (doubled (doubled (map creative_message failures))))
  /\ length (run_errors result) = (16 * length failures)%nat.
Proof.
  intros Honly failures result.
  assert (Herrors : run_errors result
                    = doubled (doubled (doubled (doubled
                        (map creative_message failures))))).
  { subst result. unfold run. cbn [run_errors].
    rewrite (ainvoke_errors research_webapp generate_content_package fl
               repr_content hour environ remote now _ findings);
      [reflexivity|reflexivity|exact Honly]. }
  split; [exact Herrors|].
  rewrite Herrors, !length_doubled, length_map. lia.
Qed.

(** C1 on the scenario in which the creative call for "youtube" raises
    and nothing else fails: the run returns its two items, one per
    platform, but its error list holds the one creative failure sixteen
    times, where the claim has exactly one entry; handed over from
    handler to handler without the channel writes, the list would hold
    it once. *)
Theorem creative_failure_is_reported_sixteen_times :
  success Samples.youtube_down_run = true
  /\ length (content Samples.youtube_down_run) = 2%nat
  /\ creative_failures
       Samples.creative_youtube_down
       (research_results
          (_research_node Samples.research_ok Samples.youtube_down_input))
       Samples.flowly 0 ["youtube"; "twitter"]
     = [("youtube", "upstream timeout")]
  /\ run_errors Samples.youtube_down_run
     = repeat "Creative failed for youtube: upstream timeout" 16
  /\ errors (handed_over Samples.research_ok Samples.creative_youtube_down
                         Samples.exact Samples.no_repr 12 ∅ Samples.offline
                         "1.5" Samples.youtube_down_input)
     = ["Creative failed for youtube: upstream timeout"].
Proof. vm_compute. repeat split; reflexivity. Qed.

(** C2, as stated, fails on that scenario: the item finalized for
    "youtube" has an empty title, an empty caption and no media URL, yet
    it is not flagged as degraded and goes to the queue with the status
    "pending" like every other item. *)
Lemma unflagged_empty_item_counterexample :
  exists item,
    hd_error (content Samples.youtube_down_run) = Some item
    /\ Py.get "platform" item = Some (PStr "youtube")
    /\ Py.get "title" item = Some (PStr "")
    /\ Py.get "caption" item = Some (PStr "")
    /\ Py.get "media_urls" item = Some (PList [])
    /\ mandatory_fields_filled item = false
    /\ flagged_degraded item = false
    /\ Py.get "status" item = Some (PStr "pending").
Proof.
  eexists. split; [vm_compute; reflexivity|].
  repeat split; reflexivity.
Qed.

(** The amended C2 on the state that reaches FINALIZE in that
    scenario. *)
Example finalized_items_sample :
  Forall (fun item =>
            Py.get "status" item = Some (PStr "pending")
            /\ flagged_degraded item = false)
         (content Samples.youtube_down_run)
  /\ map (Py.get "platform") (content Samples.youtube_down_run)
     = [Some (PStr "youtube"); Some (PStr "twitter")].
Proof.
  split; [|vm_compute; reflexivity].
  vm_compute.
  repeat (apply List.Forall_cons; [split; reflexivity|]).
  apply List.Forall_nil.
Qed.

End WorkflowFacts.

(** * The caption formatter and the caption optimizer *)

Module CaptionFacts.

Import OptimizerAgent.

(** ** Lengths *)

Lemma length_append (a b : string) :
  String.length (a ++ b) = (String.length a + String.length b)%nat.
Proof. induction a as [|c a IH]; simpl; [reflexivity|]. rewrite IH. reflexivity. Qed.

Lemma length_lstrip (s : string) :
  (String.length (PyStr.lstrip s) <= String.length s)%nat.
Proof.
  induction s as [|c s IH]; simpl; [lia|].
  destruct (PyStr.is_space c); simpl; lia.
Qed.

Lemma length_rstrip (s : string) :
  (String.length (PyStr.rstrip s) <= String.length s)%nat.
Proof.
  induction s as [|c s IH]; simpl; [lia|].
  destruct (PyStr.rstrip s); [destruct (PyStr.is_space c)|]; simpl in *; lia.
Qed.

Lemma length_strip (s : string) :
  (String.length (PyStr.strip s) <= String.length s)%nat.
Proof.
  unfold PyStr.strip.
  pose proof (length_rstrip (PyStr.lstrip s)). pose proof (length_lstrip s). lia.
Qed.

Lemma length_break_sentences (text : string) :
  forall dropping,
    (String.length (break_sentences dropping text)
     + (if dropping && starts_with_space text then 1 else 0)
     <= String.length text)%nat.
Proof.
  induction text as [|c rest IH]; intros dropping; simpl.
  - destruct dropping; simpl; lia.
  - destruct dropping; simpl.
    + destruct (PyStr.is_space c) eqn:Hc.
      * specialize (IH true). simpl in IH.
        destruct (starts_with_space rest); lia.
      * destruct (is_sentence_end c && starts_with_space rest) eqn:Hm; simpl.
        -- apply andb_true_iff in Hm. destruct Hm as [_ Hm].
           specialize (IH true). simpl in IH. rewrite Hm in IH. lia.
        -- specialize (IH false). simpl in IH. lia.
    + destruct (is_sentence_end c && starts_with_space rest) eqn:Hm; simpl.
      * apply andb_true_iff in Hm. destruct Hm as [_ Hm].
        specialize (IH true). simpl in IH. rewrite Hm in IH. lia.
      * specialize (IH false). simpl in IH. lia.
Qed.

(** The length of the joined pieces. *)
Fixpoint joined_length (pieces : list string) : nat :=
  match pieces with
  | [] => 0
  | [piece] => String.length piece
  | piece :: rest => String.length piece + 1 + joined_length rest
  end.

Lemma length_join (pieces : list string) :
  String.length (PyStr.join (String PyStr.newline EmptyString) pieces)
  = joined_length pieces.
Proof.
  induction pieces as [|piece rest IH]; [reflexivity|].
  destruct rest as [|next rest]; [reflexivity|].
  change (String.length (piece ++ String PyStr.newline EmptyString
                         ++ PyStr.join (String PyStr.newline EmptyString) (next :: rest))
          = (String.length piece + 1 + joined_length (next :: rest))%nat).
  rewrite !length_append, IH. simpl. lia.
Qed.

Lemma split_nonempty (sep : ascii) (s : string) : PyStr.split sep s <> [].
Proof.
  destruct s as [|c s]; simpl; [discriminate|].
  destruct (Ascii.eqb c sep); [discriminate|].
  destruct (PyStr.split sep s); discriminate.
Qed.

Lemma joined_length_split (s : string) :
  joined_length (PyStr.split PyStr.newline s) = String.length s.
Proof.
  induction s as [|c s IH]; [reflexivity|].
  simpl PyStr.split.
  pose proof (split_nonempty PyStr.newline s) as Hne.
  destruct (Ascii.eqb c PyStr.newline).
  - destruct (PyStr.split PyStr.newline s) as [|p ps]; [contradiction|].
    simpl in *. lia.
  - destruct (PyStr.split PyStr.newline s) as [|p ps]; [contradiction|].
    destruct ps; simpl in *; lia.
Qed.

(** Stripping the lines and dropping the empty ones. *)
Definition clean_lines (lines : list string) : list string :=
  flat_map (fun line =>
              let line := PyStr.strip line in
              if Py.str_truthy line then [line] else [])
           lines.

Lemma joined_length_cons (piece : string) (rest : list string) :
  (joined_length (piece :: rest)
   <= String.length piece + 1 + joined_length rest)%nat
  /\ (rest = [] -> joined_length (piece :: rest) = String.length piece).
Proof. destruct rest; simpl; split; intros; try lia; congruence. Qed.

Lemma clean_lines_cons (line : string) (rest : list string) :
  clean_lines (line :: rest)
  = ((if Py.str_truthy (PyStr.strip line) then [PyStr.strip line] else [])
       ++ clean_lines rest)%list.
Proof. reflexivity. Qed.

Lemma joined_length_clean (lines : list string) :
  (joined_length (clean_lines lines) <= joined_length lines)%nat.
Proof.
  induction lines as [|line rest IH]; [simpl; lia|].
  rewrite clean_lines_cons.
  pose proof (length_strip line) as Hs.
  destruct (joined_length_cons line rest) as [_ Hlast].
  destruct (joined_length_cons (PyStr.strip line) (clean_lines rest))
    as [Hcons Hclean].
  destruct rest as [|next rest].
  - rewrite Hlast by reflexivity.
    destruct (Py.str_truthy _); simpl; lia.
  - change (joined_length (line :: next :: rest))
      with (String.length line + 1 + joined_length (next :: rest))%nat.
    destruct (Py.str_truthy (PyStr.strip line)); cbn [app]; lia.
Qed.

Lemma format_never_longer (text platform : string) :
  (String.length (_format_for_readability text platform)
   <= String.length text)%nat.
Proof.
  unfold _format_for_readability.
  rewrite length_join.
  fold (clean_lines (PyStr.split PyStr.newline (break_sentences false text))).
  pose proof (joined_length_clean
                (PyStr.split PyStr.newline (break_sentences false text))) as H1.
  rewrite joined_length_split in H1.
  pose proof (length_break_sentences text false) as H2. simpl in H2. lia.
Qed.


(** ** Lines *)

Definition nl : string := String PyStr.newline EmptyString.

(** The character [c] does not occur in [s]. *)
Fixpoint free_of (c : ascii) (s : string) : bool :=
  match s with
  | EmptyString => true
  | String c' s' => negb (Ascii.eqb c' c) && free_of c s'
  end.

(** A line as the formatter leaves it: not empty, no whitespace at either
    end, no line feed inside. *)
Definition tidy (line : string) : Prop :=
  line <> EmptyString
  /\ PyStr.strip line = line
  /\ free_of PyStr.newline line = true.

Lemma split_free (s : string) :
  Forall (fun piece => free_of PyStr.newline piece = true)
         (PyStr.split PyStr.newline s).
Proof.
  induction s as [|c s IH]; simpl.
  - repeat constructor.
  - destruct (Ascii.eqb c PyStr.newline) eqn:Hc.
    + constructor; [reflexivity|exact IH].
    + destruct (PyStr.split PyStr.newline s) as [|p ps];
        [repeat constructor; simpl; rewrite Hc; reflexivity|].
      inversion IH; subst.
      constructor; [simpl; rewrite Hc; assumption|assumption].
Qed.

Lemma split_line (line : string) :
  free_of PyStr.newline line = true ->
  PyStr.split PyStr.newline line = [line].
Proof.
  induction line as [|c line IH]; simpl; [reflexivity|].
  intros H. apply andb_true_iff in H. destruct H as [Hc Hl].
  apply negb_true_iff in Hc. rewrite Hc, (IH Hl). reflexivity.
Qed.

Lemma split_line_then (line tail : string) :
  free_of PyStr.newline line = true ->
  PyStr.split PyStr.newline (line ++ String PyStr.newline tail)
  = line :: PyStr.split PyStr.newline tail.
Proof.
  induction line as [|c line IH]; simpl.
  - intros _. reflexivity.
  - intros H. apply andb_true_iff in H. destruct H as [Hc Hl].
    apply negb_true_iff in Hc. rewrite Hc, (IH Hl). reflexivity.
Qed.

Lemma join_cons (line next : string) (rest : list string) :
  PyStr.join nl (line :: next :: rest)
  = line ++ String PyStr.newline (PyStr.join nl (next :: rest)).
Proof. reflexivity. Qed.

Lemma split_join (lines : list string) :
  lines <> [] ->
  Forall (fun line => free_of PyStr.newline line = true) lines ->
  PyStr.split PyStr.newline (PyStr.join nl lines) = lines.
Proof.
  induction lines as [|line rest IH]; intros Hne Hfree; [contradiction|].
  inversion Hfree as [|? ? Hline Hrest]; subst.
  destruct rest as [|next rest].
  - apply split_line. exact Hline.
  - rewrite join_cons, split_line_then by exact Hline.
    rewrite IH; [reflexivity|discriminate|exact Hrest].
Qed.

(** ** Stripping *)

Lemma free_of_lstrip (c : ascii) (s : string) :
  free_of c s = true -> free_of c (PyStr.lstrip s) = true.
Proof.
  induction s as [|c' s IH]; simpl; [auto|].
  intros H. destruct (PyStr.is_space c'); [|exact H].
  apply andb_true_iff in H. apply IH, H.
Qed.

Lemma free_of_rstrip (c : ascii) (s : string) :
  free_of c s = true -> free_of c (PyStr.rstrip s) = true.
Proof.
  induction s as [|c' s IH]; simpl; [auto|].
  intros H. apply andb_true_iff in H. destruct H as [Hc Hs].
  specialize (IH Hs).
  destruct (PyStr.rstrip s); [destruct (PyStr.is_space c')|]; simpl in *;
    rewrite ?Hc; auto.
Qed.

Lemma lstrip_head (s : string) : starts_with_space (PyStr.lstrip s) = false.
Proof.
  induction s as [|c s IH]; simpl; [reflexivity|].
  destruct (PyStr.is_space c) eqn:Hc; [exact IH|]. simpl. exact Hc.
Qed.

(** What [rstrip] keeps starts as the string does. *)
Lemma rstrip_head (s : string) (c : ascii) (kept : string) :
  PyStr.rstrip s = String c kept -> exists s', s = String c s'.
Proof.
  destruct s as [|c' s]; simpl; [discriminate|].
  destruct (PyStr.rstrip s); [destruct (PyStr.is_space c')|];
    intros [= <- <-]; eauto.
Qed.

Lemma rstrip_keeps_head (s : string) :
  starts_with_space s = false ->
  starts_with_space (PyStr.rstrip s) = false.
Proof.
  intros H. destruct (PyStr.rstrip s) as [|c kept] eqn:Hr; [reflexivity|].
  apply rstrip_head in Hr. destruct Hr as [s' ->]. exact H.
Qed.

Lemma lstrip_fixed (s : string) :
  starts_with_space s = false -> PyStr.lstrip s = s.
Proof. destruct s as [|c s]; simpl; [reflexivity|]. intros ->. reflexivity. Qed.

Lemma rstrip_rstrip (s : string) :
  PyStr.rstrip (PyStr.rstrip s) = PyStr.rstrip s.
Proof.
  induction s as [|c s IH]; simpl; [reflexivity|].
  destruct (PyStr.rstrip s) as [|k kept] eqn:Hr.
  - destruct (PyStr.is_space c) eqn:Hc; simpl; [reflexivity|].
    rewrite Hc. reflexivity.
  - remember (String k kept) as t eqn:Ht. simpl. rewrite IH.
    subst t. reflexivity.
Qed.

Lemma strip_head (s : string) : starts_with_space (PyStr.strip s) = false.
Proof. apply rstrip_keeps_head, lstrip_head. Qed.

Lemma strip_strip (s : string) : PyStr.strip (PyStr.strip s) = PyStr.strip s.
Proof.
  unfold PyStr.strip.
  rewrite (lstrip_fixed (PyStr.rstrip (PyStr.lstrip s)));
    [apply rstrip_rstrip|apply strip_head].
Qed.

Lemma truthy_nonempty (s : string) :
  Py.str_truthy s = true -> s <> EmptyString.
Proof. destruct s; [discriminate|discriminate]. Qed.

Lemma clean_lines_tidy (lines : list string) :
  Forall (fun line => free_of PyStr.newline line = true) lines ->
  Forall tidy (clean_lines lines).
Proof.
  induction 1 as [|line rest Hline Hrest IH]; [constructor|].
  rewrite clean_lines_cons.
  destruct (Py.str_truthy (PyStr.strip line)) eqn:Ht; [|exact IH].
  constructor; [|exact IH].
  split; [apply truthy_nonempty; exact Ht|].
  split; [apply strip_strip|].
  apply free_of_rstrip, free_of_lstrip. exact Hline.
Qed.

Lemma clean_lines_fixed (lines : list string) :
  Forall tidy lines -> clean_lines lines = lines.
Proof.
  induction 1 as [|line rest [Hne [Hstrip _]] Hrest IH]; [reflexivity|].
  rewrite clean_lines_cons, Hstrip, IH.
  destruct line; [contradiction|reflexivity].
Qed.

(** The lines of the formatted text. *)
Definition formatted_lines (text : string) : list string :=
  clean_lines (PyStr.split PyStr.newline (break_sentences false text)).

Lemma format_is_join (text platform : string) :
  _format_for_readability text platform = PyStr.join nl (formatted_lines text).
Proof. reflexivity. Qed.

Lemma formatted_lines_tidy (text : string) : Forall tidy (formatted_lines text).
Proof. apply clean_lines_tidy, split_free. Qed.

Lemma tidy_free (lines : list string) :
  Forall tidy lines ->
  Forall (fun line => free_of PyStr.newline line = true) lines.
Proof. apply List.Forall_impl. intros line [_ [_ H]]. exact H. Qed.

(** ** Sentence breaks *)

(** No sentence end of [s] is followed by whitespace. *)
Fixpoint calm (s : string) : bool :=
  match s with
  | EmptyString => true
  | String c rest =>
      negb (is_sentence_end c && starts_with_space rest) && calm rest
  end.

(** Every sentence end of [s] that is followed by whitespace is followed
    by a line feed. *)
Definition starts_with_newline (s : string) : bool :=
  match s with
  | String c _ => Ascii.eqb c PyStr.newline
  | EmptyString => false
  end.

Fixpoint quiet (s : string) : bool :=
  match s with
  | EmptyString => true
  | String c rest =>
      (negb (is_sentence_end c && starts_with_space rest)
       || starts_with_newline rest)
      && quiet rest
  end.

Lemma break_head (text : string) :
  starts_with_space (break_sentences false text) = starts_with_space text.
Proof.
  destruct text as [|c rest]; [reflexivity|]. simpl.
  destruct (is_sentence_end c && starts_with_space rest); reflexivity.
Qed.

Lemma break_quiet (text : string) :
  forall dropping, quiet (break_sentences dropping text) = true.
Proof.
  induction text as [|c rest IH]; intros dropping; [reflexivity|].
  simpl.
  destruct (dropping && PyStr.is_space c); [apply IH|].
  destruct (is_sentence_end c && starts_with_space rest) eqn:Hm.
  - cbn [quiet starts_with_newline].
    rewrite Ascii.eqb_refl, orb_true_r. cbn [andb].
    rewrite IH, andb_true_r. apply orb_true_iff. left.
    apply andb_true_iff in Hm. destruct Hm as [_ Hm].
    destruct (is_sentence_end PyStr.newline) eqn:Hn; [discriminate Hn|].
    reflexivity.
  - cbn [quiet]. rewrite break_head, Hm, IH. reflexivity.
Qed.

Lemma split_head_piece (s piece : string) (pieces : list string) :
  PyStr.split PyStr.newline s = piece :: pieces ->
  starts_with_space piece
  = starts_with_space s && negb (starts_with_newline s).
Proof.
  destruct s as [|c s]; simpl.
  - intros [= <- _]. reflexivity.
  - destruct (Ascii.eqb c PyStr.newline) eqn:Hc.
    + intros [= <- _]. simpl. rewrite andb_false_r. reflexivity.
    + destruct (PyStr.split PyStr.newline s); intros [= <- _]; simpl;
        rewrite andb_true_r; reflexivity.
Qed.

Lemma split_calm (s : string) :
  quiet s = true -> Forall (fun piece => calm piece = true)
                           (PyStr.split PyStr.newline s).
Proof.
  induction s as [|c s IH]; simpl.
  - intros _. repeat constructor.
  - intros H. apply andb_true_iff in H. destruct H as [Hc Hs].
    specialize (IH Hs).
    destruct (Ascii.eqb c PyStr.newline) eqn:Hnl.
    + constructor; [reflexivity|exact IH].
    + destruct (PyStr.split PyStr.newline s) as [|p ps] eqn:Hsplit.
      * repeat constructor. simpl. rewrite andb_false_r. reflexivity.
      * inversion IH as [|? ? Hp Hps]; subst.
        constructor; [|exact Hps].
        simpl. rewrite Hp, andb_true_r.
        rewrite (split_head_piece s p ps Hsplit).
        apply orb_true_iff in Hc. destruct Hc as [Hc|Hc].
        -- apply negb_true_iff in Hc. apply negb_true_iff.
           apply andb_false_iff in Hc. apply andb_false_iff.
           destruct Hc as [Hc|Hc]; [left; exact Hc|right].
           rewrite Hc. reflexivity.
        -- rewrite Hc. simpl. rewrite !andb_false_r. reflexivity.
Qed.

Lemma calm_tail (c : ascii) (s : string) :
  calm (String c s) = true -> calm s = true.
Proof. simpl. intros H. apply andb_true_iff in H. apply H. Qed.

Lemma calm_lstrip (s : string) : calm s = true -> calm (PyStr.lstrip s) = true.
Proof.
  induction s as [|c s IH]; [auto|].
  intros H. simpl PyStr.lstrip.
  destruct (PyStr.is_space c); [|exact H].
  apply IH. exact (calm_tail c s H).
Qed.

Lemma calm_rstrip (s : string) : calm s = true -> calm (PyStr.rstrip s) = true.
Proof.
  induction s as [|c s IH]; [auto|].
  intros H. simpl in H. apply andb_true_iff in H. destruct H as [Hc Hs].
  specialize (IH Hs). simpl PyStr.rstrip.
  destruct (PyStr.rstrip s) as [|k kept] eqn:Hr.
  - destruct (PyStr.is_space c); [reflexivity|].
    simpl. rewrite andb_false_r. reflexivity.
  - destruct (rstrip_head s k kept Hr) as [s' ->].
    simpl in *. rewrite Hc. exact IH.
Qed.

Lemma clean_lines_calm (lines : list string) :
  Forall (fun line => calm line = true) lines ->
  Forall (fun line => calm line = true) (clean_lines lines).
Proof.
  induction 1 as [|line rest Hline Hrest IH]; [constructor|].
  rewrite clean_lines_cons.
  destruct (Py.str_truthy (PyStr.strip line)); [|exact IH].
  constructor; [|exact IH].
  apply calm_rstrip, calm_lstrip. exact Hline.
Qed.

Lemma formatted_lines_calm (text : string) :
  Forall (fun line => calm line = true) (formatted_lines text).
Proof. apply clean_lines_calm, split_calm, break_quiet. Qed.

(** A calm text has no break to make. *)
Lemma break_calm (s : string) :
  calm s = true -> break_sentences false s = s.
Proof.
  induction s as [|c s IH]; [reflexivity|].
  intros H. simpl in *. apply andb_true_iff in H. destruct H as [Hc Hs].
  apply negb_true_iff in Hc. rewrite Hc, (IH Hs). reflexivity.
Qed.

Lemma break_dropping (s : string) :
  starts_with_space s = false ->
  break_sentences true s = break_sentences false s.
Proof. destruct s as [|c s]; simpl; [reflexivity|]. intros ->. reflexivity. Qed.

Lemma starts_with_space_append (a b : string) :
  a <> EmptyString -> starts_with_space (a ++ b) = starts_with_space a.
Proof. destruct a; [contradiction|reflexivity]. Qed.

Lemma space_newline : PyStr.is_space PyStr.newline = true.
Proof. reflexivity. Qed.

Lemma break_line_then (line tail : string) :
  calm line = true -> starts_with_space tail = false ->
  break_sentences false (line ++ String PyStr.newline tail)
  = line ++ String PyStr.newline (break_sentences false tail).
Proof.
  intros Hcalm Htail.
  induction line as [|c line IH].
  - reflexivity.
  - simpl in Hcalm. apply andb_true_iff in Hcalm.
    destruct Hcalm as [Hc Hline]. apply negb_true_iff in Hc.
    change (String c line ++ String PyStr.newline tail)
      with (String c (line ++ String PyStr.newline tail)).
    cbn [break_sentences andb].
    destruct line as [|c' line].
    + lazy beta iota delta [String.append]. cbn [starts_with_space].
      rewrite space_newline, andb_true_r.
      destruct (is_sentence_end c).
      * cbn [break_sentences andb]. rewrite space_newline.
        rewrite (break_dropping tail Htail). reflexivity.
      * reflexivity.
    + rewrite starts_with_space_append by discriminate.
      rewrite Hc, (IH Hline). reflexivity.
Qed.

Lemma tidy_head (line : string) :
  tidy line -> starts_with_space line = false.
Proof. intros [_ [<- _]]. apply strip_head. Qed.

Lemma join_head (line : string) (rest : list string) :
  tidy line -> starts_with_space (PyStr.join nl (line :: rest)) = false.
Proof.
  intros Htidy. destruct rest as [|next rest].
  - apply tidy_head. exact Htidy.
  - rewrite join_cons.
    rewrite starts_with_space_append; [apply tidy_head; exact Htidy|].
    apply Htidy.
Qed.

Lemma break_join (lines : list string) :
  Forall tidy lines ->
  Forall (fun line => calm line = true) lines ->
  break_sentences false (PyStr.join nl lines) = PyStr.join nl lines.
Proof.
  induction lines as [|line rest IH]; intros Htidy Hcalm; [reflexivity|].
  inversion Htidy as [|? ? Hline Hrest]; subst.
  inversion Hcalm as [|? ? Hcline Hcrest]; subst.
  destruct rest as [|next rest].
  - apply break_calm. exact Hcline.
  - rewrite join_cons.
    rewrite break_line_then;
      [|exact Hcline|inversion Hrest; subst; apply join_head; assumption].
    rewrite (IH Hrest Hcrest). reflexivity.
Qed.

Lemma format_join_fixed (lines : list string) (platform : string) :
  Forall tidy lines ->
  Forall (fun line => calm line = true) lines ->
  _format_for_readability (PyStr.join nl lines) platform = PyStr.join nl lines.
Proof.
  intros Htidy Hcalm. rewrite format_is_join. unfold formatted_lines.
  rewrite (break_join lines Htidy Hcalm).
  destruct lines as [|line rest]; [reflexivity|].
  rewrite split_join; [|discriminate|apply tidy_free; exact Htidy].
  rewrite (clean_lines_fixed _ Htidy). reflexivity.
Qed.

(** Formatting a text for readability twice gives what formatting it
    once gives, whatever the platform arguments: [_format_for_readability]
    is idempotent. *)
Theorem format_for_readability_is_idempotent :
  forall text platform platform' : string,
    _format_for_readability (_format_for_readability text platform) platform'
    = _format_for_readability text platform.
Proof.
  intros text platform platform'.
  rewrite (format_is_join text platform).
  apply format_join_fixed;
    [apply formatted_lines_tidy|apply formatted_lines_calm].
Qed.

(** The text that [_format_for_readability] returns is never longer than
    its argument, and it is empty or made of lines none of which is
    empty or starts or ends with a whitespace character. *)
Theorem format_for_readability_leaves_tidy_lines :
  forall text platform : string,
    let formatted := _format_for_readability text platform in
    (String.length formatted <= String.length text)%nat
    /\ (formatted = EmptyString
        \/ Forall tidy (PyStr.split PyStr.newline formatted)).
Proof.
  intros text platform formatted. split; [apply format_never_longer|].
  subst formatted. rewrite format_is_join.
  pose proof (formatted_lines_tidy text) as Htidy.
  destruct (formatted_lines text) as [|line rest]; [left; reflexivity|].
  right. rewrite split_join; [exact Htidy|discriminate|].
  apply tidy_free. exact Htidy.
Qed.

(** ** [_optimize_caption] *)



End CaptionFacts.

(** * The emojis *)

Module EmojiFacts.
Import OptimizerAgent.
Import CaptionFacts.

(** What [_add_emojis] may make of a line: the line itself, the line
    after an emoji and a space, or the line before a space and an
    emoji. *)
Definition decorated (line enhanced : string) : Prop :=
  enhanced = line
  \/ (exists emoji, enhanced = emoji ++ " " ++ line)
  \/ (exists emoji, enhanced = line ++ " " ++ emoji).

(** The number of lines that were changed. *)
Definition changed (lines enhanced : list string) : nat :=
  length (List.filter (fun '(line, out) => negb (String.eqb line out))
                      (combine lines enhanced)).

Lemma longer_differs (a b : string) :
  String.length a <> String.length b -> String.eqb a b = false.
Proof. intros H. apply String.eqb_neq. intros ->. contradiction. Qed.

Section Loop.

Variable choice : nat -> list string -> string.
Variable emojis_to_add : list string.
Variable max_emojis : nat.

Lemma enhance_line_cases (i : nat) (line : string) (emoji_count : nat) :
  let '(out, count) :=
    enhance_line choice emojis_to_add max_emojis i line emoji_count in
  decorated line out
  /\ ((String.eqb line out = true /\ count = emoji_count)
      \/ (String.eqb line out = false /\ count = S emoji_count
          /\ (emoji_count < max_emojis)%nat)).
Proof.
  unfold enhance_line.
  destruct (Nat.leb max_emojis emoji_count) eqn:Hfull.
  { split; [left; reflexivity|left].
    split; [apply String.eqb_refl|reflexivity]. }
  apply Nat.leb_gt in Hfull.
  destruct (Nat.eqb i 0 && Nat.ltb 10 (String.length line)).
  { split; [right; left; eexists; reflexivity|right].
    split; [|auto]. apply longer_differs.
    rewrite !length_append. simpl. lia. }
  destruct (PyStr.contains "?" line && Nat.ltb emoji_count max_emojis).
  { split; [right; right; eexists; reflexivity|right].
    split; [|auto]. apply longer_differs.
    rewrite !length_append. simpl. lia. }
  destruct (existsb _ _ && Nat.ltb emoji_count max_emojis).
  { split; [right; right; eexists; reflexivity|right].
    split; [|auto]. apply longer_differs.
    rewrite !length_append. simpl. lia. }
  split; [left; reflexivity|left].
  split; [apply String.eqb_refl|reflexivity].
Qed.

Lemma combine_append {A B : Type} (a b : list A) (c d : list B) :
  length a = length c ->
  combine (a ++ b) (c ++ d) = (combine a c ++ combine b d)%list.
Proof.
  revert c. induction a as [|x a IH]; intros [|y c] H; simpl in *;
    try discriminate; [reflexivity|].
  rewrite IH by lia. reflexivity.
Qed.

Lemma changed_app (a b c d : list string) :
  length a = length c ->
  changed (a ++ b) (c ++ d) = (changed a c + changed b d)%nat.
Proof.
  intros H. unfold changed.
  rewrite combine_append by exact H.
  rewrite List.filter_app, length_app. reflexivity.
Qed.

Lemma enhance_lines_invariant (todo : list string) :
  forall (i : nat) (done enhanced : list string) (emoji_count : nat),
    Forall2 decorated done enhanced ->
    changed done enhanced = emoji_count ->
    (emoji_count <= max_emojis)%nat ->
    let '(out, count) :=
      enhance_lines choice emojis_to_add max_emojis i todo
                    (enhanced, emoji_count) in
    Forall2 decorated (done ++ todo) out
    /\ changed (done ++ todo) out = count
    /\ (count <= max_emojis)%nat.
Proof.
  induction todo as [|line rest IH];
    intros i done enhanced emoji_count Hdec Hchanged Hmax.
  - simpl. rewrite app_nil_r. auto.
  - cbn [enhance_lines].
    pose proof (enhance_line_cases i line emoji_count) as Hline.
    destruct (enhance_line choice emojis_to_add max_emojis i line emoji_count)
      as [out count].
    destruct Hline as [Hout Hcount].
    specialize (IH (S i) (done ++ [line])%list (enhanced ++ [out])%list count).
    rewrite <- app_assoc in IH. apply IH.
    + apply Forall2_app; [exact Hdec|]. constructor; [exact Hout|constructor].
    + rewrite changed_app by (eapply Forall2_length; exact Hdec).
      rewrite Hchanged. unfold changed. simpl.
      destruct Hcount as [[-> ->]|[-> [-> _]]]; simpl; lia.
    + destruct Hcount as [[_ ->]|[_ [-> Hlt]]]; lia.
Qed.

End Loop.

(** The lines that [_add_emojis] joins. *)
Definition emoji_lines (choice : nat -> list string -> string)
           (text platform tone : string) : list string :=
  fst (enhance_lines choice (fst (emoji_strategy platform tone))
                     (snd (emoji_strategy platform tone)) 0
                     (PyStr.split PyStr.newline text) ([], 0%nat)).

(** The number of emojis that a platform gets at most. *)
Definition emoji_limit (platform : string) : nat :=
  if String.eqb platform "linkedin" then 3
  else if String.eqb platform "twitter" then 2
  else 5.

(** [_add_emojis] returns the lines of the text joined by line feeds,
    each line as it was or with one emoji and a space before it or a
    space and one emoji after it; at most 3 lines are changed for
    "linkedin", 2 for "twitter" and 5 for any other platform. *)
Theorem add_emojis_changes_few_lines :
  forall (choice : nat -> list string -> string)
         (text platform tone : string),
    let lines := PyStr.split PyStr.newline text in
    let enhanced := emoji_lines choice text platform tone in
    _add_emojis choice text platform tone = PyStr.join nl enhanced
    /\ Forall2 decorated lines enhanced
    /\ (changed lines enhanced <= emoji_limit platform)%nat.
Proof.
  intros choice text platform tone lines enhanced.
  subst lines enhanced. unfold emoji_lines, _add_emojis.
  assert (Hlimit : snd (emoji_strategy platform tone) = emoji_limit platform).
  { unfold emoji_strategy, emoji_limit.
    destruct (String.eqb platform "linkedin"); [reflexivity|].
    destruct (String.eqb platform "twitter"); reflexivity. }
  destruct (emoji_strategy platform tone) as [emojis max_emojis].
  cbn [fst snd] in *.
  pose proof (enhance_lines_invariant choice emojis max_emojis
                (PyStr.split PyStr.newline text) 0 [] [] 0%nat
                (List.Forall2_nil _) eq_refl (Nat.le_0_l _)) as H.
  destruct (enhance_lines choice emojis max_emojis 0 _ ([], 0%nat))
    as [out count].
  cbn [fst app] in *. destruct H as [Hdec [Hchanged Hmax]].
  split; [reflexivity|]. split; [exact Hdec|]. lia.
Qed.

End EmojiFacts.

(** * The hashtags *)

Module HashtagFacts.
Import OptimizerAgent.
Import CaptionFacts.


(** Replacing every space by nothing leaves no space. *)
Lemma replace_space_free (s : string) :
  free_of " " (PyStr.replace " " "" s) = true.
Proof.
  unfold PyStr.replace.
  induction s as [|c s IH]; [reflexivity|].
  cbn [PyStr.replace_from String.length Nat.sub].
  destruct (String.prefix " " (String c s)) eqn:Hp.
  - exact IH.
  - cbn [free_of]. rewrite IH, andb_true_r.
    apply negb_true_iff. apply Ascii.eqb_neq. intros ->.
    simpl in Hp. destruct s; discriminate.
Qed.

(** The number of hashtags that [_optimize_hashtags] aims at. *)
Definition optimal_count (platform : string) : nat :=
  match Py.get (PyStr.split_head "_" platform) optimal_hashtag_count with
  | Some n => n
  | None => 4%nat
  end.

Definition product_hashtag (webapp_data : WebApp) : string :=
  "#" ++ PyStr.replace " " ""
           (match wa_name webapp_data with Some n => n | None => "Product" end).

(** The list that [_optimize_hashtags] returns starts with the hashtag
    of the product, which holds no space; it has at least one entry and
    at most the optimal count of the platform, which is 8 at most, and
    exactly that count unless the platform key is "instagram". *)
Theorem optimized_hashtags_start_with_the_product :
  forall (trend_hashtags : list string) (webapp_data : WebApp)
         (platform : string),
    let hashtags := _optimize_hashtags trend_hashtags webapp_data platform in
    hd_error hashtags = Some (product_hashtag webapp_data)
    /\ free_of " " (product_hashtag webapp_data) = true
    /\ (1 <= length hashtags <= optimal_count platform)%nat
    /\ (optimal_count platform <= 8)%nat
    /\ (PyStr.split_head "_" platform <> "instagram" ->
        length hashtags = optimal_count platform).
Proof.
  intros trend_hashtags webapp_data platform hashtags.
  subst hashtags. unfold _optimize_hashtags.
  fold (optimal_count platform). fold (product_hashtag webapp_data).
  set (category_hashtags :=
         match Py.get match wa_category webapp_data with
                      | Some c => c
                      | None => "SaaS"
                      end trending_hashtags with
         | Some hs => hs
         | None =>
             match Py.get "SaaS" trending_hashtags with
             | Some hs => hs
             | None => []
             end
         end).
  assert (Hcat : (5 <= length category_hashtags)%nat).
  { subst category_hashtags.
    destruct (Py.get "SaaS" trending_hashtags) as [saas|] eqn:Hsaas;
      [|discriminate Hsaas].
    injection Hsaas as <-.
    unfold trending_hashtags. cbn [Py.get].
    repeat match goal with
           | |- context [if ?b then _ else _] => destruct b
           end; simpl; lia. }
  assert (Hopt : (1 <= optimal_count platform <= 8)%nat
                 /\ (PyStr.split_head "_" platform <> "instagram" ->
                     optimal_count platform <= 4)%nat).
  { unfold optimal_count, optimal_hashtag_count. cbn [Py.get].
    destruct (String.eqb (PyStr.split_head "_" platform) "instagram") eqn:Hi.
    { apply String.eqb_eq in Hi. split; [lia|]. intros H. contradiction. }
    repeat match goal with
           | |- context [if ?b then _ else _] => destruct b
           end; split; intros; lia. }
  destruct Hopt as [[Hone Height] Hfour].
  split; [|split; [|split; [|split]]].
  - destruct (optimal_count platform); [lia|reflexivity].
  - unfold product_hashtag. cbn [free_of String.append].
    apply replace_space_free.
  - rewrite length_firstn. cbn [app length]. rewrite length_app. lia.
  - exact Height.
  - intros Hne. specialize (Hfour Hne).
    rewrite length_firstn. cbn [app length]. rewrite length_app. lia.
Qed.

End HashtagFacts.

(** * The report of the scoring engine *)

Module ReportFacts.
Import OptimizerAgent.

(** The hour is one of the platform's optimal hours. *)
Definition is_optimal_hour (hour : Z) (platform : string) : bool :=
  existsb (Z.eqb hour)
          match Py.get (PyStr.split_head "_" platform) optimal_hours with
          | Some hs => hs
          | None => [12]
          end.

Lemma score_timing_optimal (hour : Z) (platform : string) :
  (80 <=? _score_timing hour platform) = is_optimal_hour hour platform.
Proof.
  unfold _score_timing, is_optimal_hour.
  destruct (existsb (Z.eqb hour) _); [reflexivity|].
  destruct (existsb _ _); reflexivity.
Qed.

Lemma feedback_on_timing (hook emotional shareable timing unique trend : Z) :
  let '(positive, _, recommendations) :=
    _generate_feedback hook emotional shareable timing unique trend in
  (In "Optimal posting time" positive <-> (80 <=? timing) = true)
  /\ (In "Consider posting during peak engagement hours" recommendations
      <-> (80 <=? timing) = false).
Proof.
  unfold _generate_feedback.
  destruct (70 <=? hook), (70 <=? emotional), (70 <=? shareable),
    (80 <=? timing), (70 <=? unique), (70 <=? trend);
    cbn;
    (split; split; intros H; try reflexivity; try discriminate H;
     first [ repeat (destruct H as [H|H]; try discriminate H); contradiction
           | repeat first [left; reflexivity|right] ]).
Qed.

(** When [_calculate_viral_score] returns, its report lists the factor
    "Optimal posting time" exactly when the hour is one of the optimal
    hours of the platform, and the recommendation to post during peak
    hours exactly when it is not: an hour next to an optimal one, which
    scores 75, gets the recommendation. *)
Theorem posting_time_is_praised_at_optimal_hours_only :
  forall (fl : Q -> Q) (repr_content : Content -> string)
         (trending_categories : list string) (hour : Z)
         (content_package : ContentPackage) (platform : string)
         (webapp_data : WebApp) (r : ViralScoreResult),
    _calculate_viral_score fl repr_content trending_categories hour
                           content_package platform webapp_data
    = Returned r ->
    (In "Optimal posting time" (positive_factors r)
     <-> is_optimal_hour hour platform = true)
    /\ (In "Consider posting during peak engagement hours" (recommendations r)
        <-> is_optimal_hour hour platform = false).
Proof.
  intros fl repr_content cats hour p platform w r.
  unfold _calculate_viral_score.
  destruct (_score_uniqueness repr_content p w) as [u|msg]; [|discriminate].
  rewrite <- score_timing_optimal.
  match goal with
  | |- context [_generate_feedback ?h ?e ?s ?t ?u ?tr] =>
      pose proof (feedback_on_timing h e s t u tr) as Hfb;
      destruct (_generate_feedback h e s t u tr) as [[pos neg] recs]
  end.
  intros [= <-]. exact Hfb.
Qed.

Lemma posting_time_witness :
  exists r,
    _calculate_viral_score Samples.exact Samples.no_repr ["SaaS"] 13
                           Samples.tiktok_draft "tiktok" Samples.flowly
    = Returned r
    /\ is_optimal_hour 13 "tiktok" = false
    /\ timing_score r = 75
    /\ (In "Optimal posting time" (positive_factors r)
        <-> is_optimal_hour 13 "tiktok" = true)
    /\ (In "Consider posting during peak engagement hours" (recommendations r)
        <-> is_optimal_hour 13 "tiktok" = false).
Proof.
  eexists. split; [reflexivity|]. split; [reflexivity|].
  split; [reflexivity|].
  exact (posting_time_is_praised_at_optimal_hours_only
           Samples.exact Samples.no_repr ["SaaS"] 13 Samples.tiktok_draft
           "tiktok" Samples.flowly _ eq_refl).
Defined.

(** ** The ranges of the scores *)

Lemma int_of_bounds (q : Q) (n : Z) :
  (0 <= q)%Q -> (q < inject_Z (n + 1))%Q -> 0 <= int_of q <= n.
Proof.
  destruct q as [num den]. unfold Qle, Qlt, int_of. simpl.
  intros H0 H1.
  assert (Hn : 0 <= num) by lia.
  rewrite Z.quot_div_nonneg by lia.
  split.
  - apply Z.div_pos; lia.
  - assert (num / Z.pos den < n + 1); [|lia].
    apply Z.div_lt_upper_bound; lia.
Qed.

(** A loop that only adds to the score does not lower it. *)
Lemma patterns_add (hook_lower : string) (patterns : list (list string)) :
  forall score,
    score
    <= fold_left (fun sc pattern =>
                    if re_search pattern hook_lower then sc + 10 else sc)
                 patterns score.
Proof.
  induction patterns as [|p patterns IH]; intros score; cbn [fold_left];
    [lia|].
  specialize (IH (if re_search p hook_lower then score + 10 else score)).
  destruct (re_search p hook_lower); lia.
Qed.

Lemma score_hook_range (hook platform : string) :
  40 <= _score_hook hook platform <= 100.
Proof.
  unfold _score_hook.
  pose proof (patterns_add (PyStr.lower hook) viral_patterns 50) as H.
  set (score := fold_left _ viral_patterns 50) in *.
  ScoringFacts.split_tests; lia.
Qed.

Lemma score_emotional_impact_range (text : string) :
  50 <= _score_emotional_impact text <= 100.
Proof.
  rewrite ScoringFacts.emotional_impact_closed_form.
  unfold ScoringFacts.present. lia.
Qed.

Lemma score_shareability_range (p : ContentPackage) (platform : string) :
  50 <= _score_shareability p platform <= 90.
Proof.
  unfold _score_shareability.
  generalize (get_content p). intros content.
  ScoringFacts.split_tests; lia.
Qed.

Lemma score_timing_values (hour : Z) (platform : string) :
  In (_score_timing hour platform) [60; 75; 90].
Proof.
  unfold _score_timing. ScoringFacts.split_tests; cbn; tauto.
Qed.

Lemma score_uniqueness_range (repr_content : Content -> string)
      (p : ContentPackage) (w : WebApp) (u : Z) :
  _score_uniqueness repr_content p w = Returned u -> 60 <= u <= 85.
Proof.
  unfold _score_uniqueness.
  destruct (wa_name w); [|discriminate].
  intros [= <-].
  destruct (pkg_content_angle p) as [angle|];
    [destruct (Py.nonempty angle);
     [destruct (Py.get "format" angle) as [[]|]|]|];
    ScoringFacts.split_tests; lia.
Qed.

Lemma score_trend_alignment_range (cats : list string) (w : WebApp) :
  50 <= _score_trend_alignment cats w <= 90.
Proof. unfold _score_trend_alignment. ScoringFacts.split_tests; lia. Qed.

(** One term of the weighted sum, for a score that is at most [cap]. *)
Lemma weighted_term_cap (fl : Q -> Q) (z cap : Z) (w bound : Q) :
  ScoringFacts.rounds fl -> 0 <= z <= cap -> cap <= 100 ->
  (0 <= w)%Q -> (w <= 1)%Q ->
  (inject_Z cap * w + (1 # 1000) <= bound)%Q ->
  (0 <= fmul fl (inject_Z z) (fl w))%Q
  /\ (fmul fl (inject_Z z) (fl w) <= bound)%Q.
Proof.
  intros Hfl [Hz0 Hz1] Hcap Hw0 Hw1 Hb. unfold fmul.
  assert (Hq0 : (0 <= inject_Z z)%Q)
    by (change 0%Q with (inject_Z 0); rewrite <- Zle_Qle; exact Hz0).
  assert (Hq1 : (inject_Z z <= inject_Z cap)%Q)
    by (rewrite <- Zle_Qle; exact Hz1).
  assert (Hk1 : (inject_Z cap <= 100)%Q)
    by (change 100%Q with (inject_Z 100); rewrite <- Zle_Qle; exact Hcap).
  destruct (Hfl w Hw0 ltac:(lra)) as [Hc0 Hc1].
  set (c := fl w) in *. set (q := inject_Z z) in *.
  set (k := inject_Z cap) in *.
  assert (Hp0 : (0 <= q * c)%Q) by (apply Qmult_le_0_compat; assumption).
  assert (Hp1 : (q * c <= k * c)%Q)
    by (apply Qmult_le_compat_r; assumption).
  assert (Hp2 : (k * c <= k * (w * (1000001 # 1000000) + (1 # 1000000)))%Q).
  { rewrite (Qmult_comm k c), (Qmult_comm k (_ + _)).
    apply Qmult_le_compat_r; [exact Hc1|lra]. }
  assert (Hp3 : (k * w <= 100 * w)%Q)
    by (apply Qmult_le_compat_r; assumption).
  assert (Hp4 : (0 <= k * w)%Q) by (apply Qmult_le_0_compat; lra).
  assert (Hp5 : (k * (w * (1000001 # 1000000) + (1 # 1000000))
                 == k * w * (1000001 # 1000000) + k * (1 # 1000000))%Q)
    by ring.
  rewrite Hp5 in Hp2.
  set (kw := (k * w)%Q) in *. set (kc := (k * c)%Q) in *.
  set (qc := (q * c)%Q) in *.
  destruct (Hfl qc Hp0 ltac:(lra)) as [Hr0 Hr1].
  split; [assumption|]. lra.
Qed.

(** The weighted sum of scores in the ranges of the code. *)
Lemma weighted_sum_cap (fl : Q -> Q)
      (hook emotional shareable timing unique trend : Z) :
  ScoringFacts.rounds fl ->
  0 <= hook <= 100 -> 0 <= emotional <= 100 -> 0 <= shareable <= 90 ->
  0 <= timing <= 90 -> 0 <= unique <= 85 -> 0 <= trend <= 90 ->
  (0 <= weighted_sum fl hook emotional shareable timing unique trend)%Q
  /\ (weighted_sum fl hook emotional shareable timing unique trend < 94)%Q.
Proof.
  intros Hfl Hh He Hs Ht Hu Hr. unfold weighted_sum.
  destruct (weighted_term_cap fl hook 100 (25 # 100) (2501 # 100) Hfl Hh)
    as [h0 h1]; [lia|lra|lra|unfold inject_Z; lra|].
  destruct (weighted_term_cap fl emotional 100 (20 # 100) (2001 # 100)
                              Hfl He)
    as [e0 e1]; [lia|lra|lra|unfold inject_Z; lra|].
  destruct (weighted_term_cap fl shareable 90 (20 # 100) (1801 # 100)
                              Hfl Hs)
    as [s0 s1]; [lia|lra|lra|unfold inject_Z; lra|].
  destruct (weighted_term_cap fl timing 90 (10 # 100) (901 # 100) Hfl Ht)
    as [t0 t1]; [lia|lra|lra|unfold inject_Z; lra|].
  destruct (weighted_term_cap fl unique 85 (15 # 100) (1276 # 100) Hfl Hu)
    as [u0 u1]; [lia|lra|lra|unfold inject_Z; lra|].
  destruct (weighted_term_cap fl trend 90 (10 # 100) (901 # 100) Hfl Hr)
    as [r0 r1]; [lia|lra|lra|unfold inject_Z; lra|].
  destruct (ScoringFacts.fadd_bound fl _ _ _ _ (4503 # 100) Hfl h0 h1 e0 e1)
    as [a0 a1]; [lra..|].
  destruct (ScoringFacts.fadd_bound fl _ _ _ _ (6305 # 100) Hfl a0 a1 s0 s1)
    as [b0 b1]; [lra..|].
  destruct (ScoringFacts.fadd_bound fl _ _ _ _ (7207 # 100) Hfl b0 b1 t0 t1)
    as [c0 c1]; [lra..|].
  destruct (ScoringFacts.fadd_bound fl _ _ _ _ (8484 # 100) Hfl c0 c1 u0 u1)
    as [d0 d1]; [lra..|].
  destruct (ScoringFacts.fadd_bound fl _ _ _ _ (9386 # 100) Hfl d0 d1 r0 r1)
    as [f0 f1]; [lra..|].
  split; [assumption|lra].
Qed.

(** The ranges in which the scores of a result lie. *)
Definition scores_in_code_ranges (r : ViralScoreResult) : Prop :=
  40 <= hook_strength r <= 100
  /\ 50 <= emotional_impact r <= 100
  /\ 50 <= shareability r <= 90
  /\ In (timing_score r) [60; 75; 90]
  /\ 60 <= uniqueness r <= 85
  /\ 50 <= trend_alignment r <= 90.

Lemma calculated_scores (fl : Q -> Q) (repr_content : Content -> string)
      (trending_categories : list string) (hour : Z)
      (content_package : ContentPackage) (platform : string)
      (webapp_data : WebApp) (r : ViralScoreResult) :
  ScoringFacts.rounds fl ->
  _calculate_viral_score fl repr_content trending_categories hour
                         content_package platform webapp_data
  = Returned r ->
  scores_in_code_ranges r
  /\ 0 <= overall r <= 93
  /\ 0 <= viral_probability r <= 79
  /\ viral_probability r <= overall r.
Proof.
  intros Hfl. unfold _calculate_viral_score.
  destruct (_score_uniqueness repr_content content_package webapp_data)
    as [u|msg] eqn:Hu; [|discriminate].
  apply score_uniqueness_range in Hu.
  destruct (_generate_feedback _ _ _ _ _ _) as [[pos neg] recs].
  intros [= <-]. unfold scores_in_code_ranges.
  cbn [viral_probability overall hook_strength emotional_impact shareability
       timing_score uniqueness trend_alignment].
  match goal with
  | |- context [int_of (weighted_sum fl ?h ?e ?s ?t ?u' ?tr)] =>
      pose proof (score_hook_range
                    match video_script (get_content content_package) with
                    | Some vs =>
                        match vs_hook vs with Some h' => h' | None => "" end
                    | None => ""
                    end platform) as Hh;
      pose proof (score_emotional_impact_range
                    match caption (get_content content_package) with
                    | Some c => caption_text c
                    | None => ""
                    end) as He;
      pose proof (score_shareability_range content_package platform) as Hs;
      pose proof (score_timing_values hour platform) as Ht;
      pose proof (score_trend_alignment_range trending_categories
                                              webapp_data) as Hr;
      assert (Ht' : 60 <= t <= 90)
        by (cbn [In] in Ht; destruct Ht as [<-|[<-|[<-|[]]]]; lia);
      pose proof (weighted_sum_cap fl h e s t u' tr Hfl
                    ltac:(lia) ltac:(lia) ltac:(lia) ltac:(lia) ltac:(lia)
                    ltac:(lia)) as [Hw0 Hw1];
      set (overall := int_of (weighted_sum fl h e s t u' tr)) in *
  end.
  assert (Hoverall : 0 <= overall <= 93)
    by (apply int_of_bounds; [exact Hw0|];
        change (inject_Z (93 + 1)) with 94%Q; exact Hw1).
  assert (Hq0 : (0 <= inject_Z overall)%Q)
    by (change 0%Q with (inject_Z 0); rewrite <- Zle_Qle; lia).
  assert (Hq1 : (inject_Z overall <= 93)%Q)
    by (change 93%Q with (inject_Z 93); rewrite <- Zle_Qle; lia).
  unfold fmul.
  destruct (Hfl (85 # 100)%Q ltac:(lra) ltac:(lra)) as [Hc0 Hc1].
  set (c := fl (85 # 100)) in *. set (q := inject_Z overall) in *.
  assert (Hp0 : (0 <= q * c)%Q) by (apply Qmult_le_0_compat; assumption).
  assert (Hp1 : (q * c <= q * (851 # 1000))%Q).
  { rewrite (Qmult_comm q c), (Qmult_comm q (851 # 1000)).
    apply Qmult_le_compat_r; [lra|assumption]. }
  destruct (Hfl (q * c)%Q Hp0 ltac:(lra)) as [Hr0 Hr1].
  assert (Hlow : 0 <= int_of (fl (q * c)%Q) <= 79).
  { apply int_of_bounds; [assumption|].
    change (inject_Z (79 + 1)) with 80%Q. lra. }
  assert (Hbelow : 0 <= int_of (fl (q * c)%Q) <= overall).
  { apply int_of_bounds; [assumption|].
    rewrite inject_Z_plus. fold q. change (inject_Z 1) with 1%Q. lra. }
  repeat split; try assumption; try lia.
Qed.

(** When [_calculate_viral_score] returns, under a rounding of the float
    operations within one millionth, its scores lie in the ranges that
    the code can produce: the hook strength in 40..100, the emotional
    impact in 50..100, the shareability in 50..90, the timing score
    among 60, 75 and 90, the uniqueness in 60..85 and the trend
    alignment in 50..90.  So the overall score is at most 93, and the
    viral probability is at most 79 and never exceeds the overall
    score. *)
Theorem viral_score_never_exceeds_93 :
  forall (fl : Q -> Q) (repr_content : Content -> string)
         (trending_categories : list string) (hour : Z)
         (content_package : ContentPackage) (platform : string)
         (webapp_data : WebApp) (r : ViralScoreResult),
    ScoringFacts.rounds fl ->
    _calculate_viral_score fl repr_content trending_categories hour
                           content_package platform webapp_data
    = Returned r ->
    scores_in_code_ranges r
    /\ 0 <= overall r <= 93
    /\ 0 <= viral_probability r <= 79
    /\ viral_probability r <= overall r.
Proof.
  intros fl repr_content cats hour p platform w r. apply calculated_scores.
Qed.

Lemma viral_score_witness :
  ScoringFacts.rounds Samples.exact
  /\ exists r,
      _calculate_viral_score Samples.exact Samples.no_repr ["SaaS"] 12
                             Samples.tiktok_draft "tiktok" Samples.flowly
      = Returned r
      /\ (overall r, viral_probability r) = (81, 68)
      /\ scores_in_code_ranges r
      /\ 0 <= overall r <= 93
      /\ 0 <= viral_probability r <= 79
      /\ viral_probability r <= overall r.
Proof.
  split; [exact ScoringFacts.rounds_id|].
  eexists. split; [reflexivity|]. split; [reflexivity|].
  exact (viral_score_never_exceeds_93
           Samples.exact Samples.no_repr ["SaaS"] 12 Samples.tiktok_draft
           "tiktok" Samples.flowly _ ScoringFacts.rounds_id eq_refl).
Defined.

End ReportFacts.

(** * The provider registry by tier *)

Module RegistryFacts.
Import MediaAgentV2.
Import MediaFacts.

(** ** Filtering a sorted listing *)

Lemma insert_first {A : Type} (key : A -> Z) (x : A) (l : list A) :
  (forall y, In y l -> key x <= key y) -> PySort.insert key x l = x :: l.
Proof.
  destruct l as [|y l]; simpl; [reflexivity|].
  intros H. specialize (H y (or_introl eq_refl)).
  apply Z.leb_le in H. rewrite H. reflexivity.
Qed.

Definition by_key {A : Type} (key : A -> Z) : A -> A -> Prop :=
  key_then_tie key (fun _ _ => True).

Lemma sorted_tail_keys {A : Type} (key : A -> Z) (y : A) (l : list A) :
  StronglySorted (by_key key) (y :: l) ->
  forall z, In z (y :: l) -> key y <= key z.
Proof.
  intros H z [<-|Hz]; [lia|].
  apply StronglySorted_inv in H. destruct H as [_ H].
  rewrite List.Forall_forall in H.
  destruct (H z Hz) as [?|[? _]]; lia.
Qed.

Lemma filter_insert {A : Type} (key : A -> Z) (keep : A -> bool) (x : A)
      (l : list A) :
  StronglySorted (by_key key) l ->
  List.filter keep (PySort.insert key x l)
  = if keep x then PySort.insert key x (List.filter keep l)
    else List.filter keep l.
Proof.
  induction l as [|y l IH]; intros Hsorted.
  - simpl. destruct (keep x); reflexivity.
  - cbn [PySort.insert].
    destruct (key x <=? key y) eqn:Hxy.
    + apply Z.leb_le in Hxy.
      cbn [List.filter]. destruct (keep x); [|reflexivity].
      rewrite insert_first; [reflexivity|].
      intros z Hz.
      assert (Hin : In z (y :: l)).
      { destruct (keep y); [|right; apply List.filter_In in Hz; tauto].
        destruct Hz as [<-|Hz]; [left; reflexivity|].
        right. apply List.filter_In in Hz. tauto. }
      pose proof (sorted_tail_keys key y l Hsorted z Hin). lia.
    + cbn [List.filter].
      apply StronglySorted_inv in Hsorted. destruct Hsorted as [Hl _].
      rewrite (IH Hl).
      destruct (keep y), (keep x); try reflexivity.
      cbn [PySort.insert]. rewrite Hxy. reflexivity.
Qed.

Lemma sort_by_key {A : Type} (key : A -> Z) (l : list A) :
  StronglySorted (by_key key) (PySort.sort key l).
Proof.
  apply sort_sorted.
  induction l as [|x l IH]; constructor; [|exact IH].
  apply List.Forall_forall. intros; exact I.
Qed.

(** Filtering commutes with the stable sort. *)
Lemma filter_sort {A : Type} (key : A -> Z) (keep : A -> bool) (l : list A) :
  List.filter keep (PySort.sort key l)
  = PySort.sort key (List.filter keep l).
Proof.
  induction l as [|x l IH]; [reflexivity|].
  cbn [PySort.sort List.filter].
  rewrite filter_insert by apply sort_by_key.
  rewrite IH. destruct (keep x); reflexivity.
Qed.

Lemma filter_map_fst {A B : Type} (keep : A -> bool) (l : list (A * B)) :
  List.filter keep (map fst l)
  = map fst (List.filter (fun entry => keep (fst entry)) l).
Proof.
  induction l as [|[a b] l IH]; [reflexivity|].
  simpl. destruct (keep a); simpl; rewrite IH; reflexivity.
Qed.

Lemma filter_filter {A : Type} (f g : A -> bool) (l : list A) :
  List.filter f (List.filter g l)
  = List.filter (fun x => g x && f x) l.
Proof.
  induction l as [|x l IH]; [reflexivity|].
  simpl. destruct (g x); simpl; [destruct (f x)|]; rewrite IH; reflexivity.
Qed.

(** The provider [name] of [table] is of the tier [tier]. *)
Definition in_tier (table : list (string * ProviderConfig))
           (tier : ProviderPriority) (name : string) : bool :=
  match Py.get name table with
  | Some config => priority_eqb (priority config) tier
  | None => false
  end.

Lemma tier_listing_of_table (table : list (string * ProviderConfig))
      (tier : ProviderPriority) :
  List.NoDup (map fst table) ->
  PySort.sort (sort_key table)
    (map fst (List.filter (is_available (Some tier)) table))
  = List.filter (in_tier table tier)
      (PySort.sort (sort_key table)
         (map fst (List.filter (is_available None) table))).
Proof.
  intros Hnd. rewrite filter_sort. f_equal.
  rewrite filter_map_fst, filter_filter. f_equal.
  apply List.filter_ext_in. intros [name config] Hin.
  unfold is_available, in_tier. cbn [fst snd].
  rewrite (get_of_In name config table Hnd Hin).
  rewrite andb_true_r. reflexivity.
Qed.

Lemma table_names (user_api_keys environ : gmap string string)
      (media_type : string) (table : list (string * ProviderConfig)) :
  table_of user_api_keys environ media_type = Some table ->
  List.NoDup (map fst table).
Proof.
  unfold table_of.
  destruct (String.eqb media_type "image");
    [intros [= <-]; apply providers_names|].
  destruct (String.eqb media_type "video");
    [intros [= <-]; apply video_providers_names|].
  destruct (String.eqb media_type "audio"); [|discriminate].
  intros [= <-]. apply audio_providers_names.
Qed.

(** For a media type with a table, the providers that
    [_get_available_providers] lists for a tier are those of the listing
    without a tier that belong to the tier, in the same order. *)
Theorem tier_listing_is_the_full_listing_filtered :
  forall (user_api_keys environ : gmap string string)
         (media_type : string) (tier : ProviderPriority)
         (table : list (string * ProviderConfig)),
    table_of user_api_keys environ media_type = Some table ->
    _get_available_providers user_api_keys environ media_type (Some tier)
    = List.filter (in_tier table tier)
        (_get_available_providers user_api_keys environ media_type None).
Proof.
  intros keys environ media_type tier table Htable.
  unfold _get_available_providers. rewrite Htable.
  apply tier_listing_of_table.
  exact (table_names keys environ media_type table Htable).
Qed.

Lemma tier_listing_witness :
  _get_available_providers four_keys ∅ "image" None
  = ["siliconflow"; "fal"; "leonardo"; "openai"]
  /\ _get_available_providers four_keys ∅ "image" (Some PREMIUM)
     = ["leonardo"; "openai"]
  /\ _get_available_providers four_keys ∅ "image" (Some PREMIUM)
     = List.filter (in_tier (providers four_keys ∅) PREMIUM)
         (_get_available_providers four_keys ∅ "image" None).
Proof.
  split; [vm_compute; reflexivity|]. split; [vm_compute; reflexivity|].
  exact (tier_listing_is_the_full_listing_filtered
           four_keys ∅ "image" PREMIUM (providers four_keys ∅) eq_refl).
Defined.

End RegistryFacts.

(** * The media router *)

Module RouterFacts.
Import MediaAgentV2.
Import MediaFacts.
Import RegistryFacts.

(** The asset that a provider method builds from the locator that the
    exchange yields. *)
Definition delivered (ty : MediaType) (note : string * string)
           (name locator : string) (price : Q) : MediaAsset :=
  {| id := ""; type := ty; url := Some locator; local_path := None;
     metadata := [note]; status := "completed"; provider := name;
     cost := price |}.

(** The exchange with a provider yields a locator. *)
Definition delivers (remote : string -> string -> call_result string)
           (prompt name : string) : bool :=
  match remote name prompt with
  | Returned _ => true
  | Raised _ => false
  end.

(** A name is listed if and only if its entry has a credential. *)
Lemma listed_iff_credential (table : list (string * ProviderConfig))
      (name : string) :
  List.NoDup (map fst table) ->
  In name (PySort.sort (sort_key table)
             (map fst (List.filter (is_available None) table)))
  <-> has_credential table name.
Proof.
  intros Hnd. rewrite sort_In, in_map_iff.
  unfold has_credential, config_key. split.
  - intros [[name' config] [Hfst Hin]]. simpl in Hfst. subst name'.
    apply List.filter_In in Hin. destruct Hin as [Hin Hav].
    rewrite (get_of_In name config table Hnd Hin).
    unfold is_available in Hav. simpl in Hav.
    rewrite andb_true_r in Hav. exact Hav.
  - intros Hkey.
    destruct (Py.get name table) as [config|] eqn:Hget; [|discriminate].
    exists (name, config). split; [reflexivity|].
    apply List.filter_In. split.
    + clear Hnd Hkey. induction table as [|[k v] table IH];
        simpl in Hget; [discriminate|].
      destruct (String.eqb name k) eqn:Hk.
      * apply String.eqb_eq in Hk. subst k. injection Hget as ->.
        left. reflexivity.
      * right. apply IH. exact Hget.
    + unfold is_available. simpl. rewrite Hkey. reflexivity.
Qed.

Section Router.

Variable user_api_keys : gmap string string.
Variable user_plan : string.
Variable environ : gmap string string.
Variable remote : string -> string -> call_result string.
Variable now : string.

Local Abbreviation image_table := (providers user_api_keys environ).
Local Abbreviation video_table := (video_providers user_api_keys environ).
Local Abbreviation audio_table := (audio_providers user_api_keys environ).

(** ** Images *)

Lemma call_provider_credential (table : list (string * ProviderConfig))
      (name : string) (ty : MediaType) (note : string * string)
      (price : Q) (prompt : string) :
  has_credential table name ->
  call_provider remote table name ty note price prompt
  = match remote name prompt with
    | Returned locator => Returned (Some (delivered ty note name locator price))
    | Raised msg => Raised msg
    end.
Proof.
  unfold has_credential, call_provider. intros ->. reflexivity.
Qed.

Lemma credential_in_table (table : list (string * ProviderConfig))
      (name : string) :
  has_credential table name -> In name (map fst table).
Proof.
  unfold has_credential, config_key.
  induction table as [|[k v] table IH]; simpl; [discriminate|].
  destruct (String.eqb name k) eqn:Hk.
  - apply String.eqb_eq in Hk. auto.
  - intros H. right. apply IH. exact H.
Qed.

Lemma image_call_credential (prompt : string) (width height : Z)
      (name : string) :
  has_credential image_table name ->
  image_call user_api_keys environ remote prompt width height name
  = Some match remote name prompt with
         | Returned locator =>
             Returned (Some (delivered IMAGE ("prompt", prompt) name locator
                                       (config_cost image_table name)))
         | Raised msg => Raised msg
         end.
Proof.
  intros Hkey. pose proof (credential_in_table _ _ Hkey) as Hin.
  simpl in Hin.
  unfold image_call, _generate_huggingface_image, _generate_leonardo_image,
    _generate_openai_image, _generate_replicate_image, _generate_fal_image,
    _generate_siliconflow_image.
  repeat (destruct Hin as [<-|Hin];
          [cbn [String.eqb Ascii.eqb Bool.eqb];
           rewrite (call_provider_credential _ _ _ _ _ _ Hkey); reflexivity|]).
  contradiction.
Qed.

Lemma first_success_find
      (call : string -> option (call_result (option MediaAsset)))
      (make : string -> string -> MediaAsset) (prompt : string)
      (names : list string) :
  (forall name,
      In name names ->
      call name = Some match remote name prompt with
                       | Returned locator => Returned (Some (make name locator))
                       | Raised msg => Raised msg
                       end) ->
  first_success call names
  = match List.find (delivers remote prompt) names with
    | Some name =>
        match remote name prompt with
        | Returned locator => Some (make name locator)
        | Raised _ => None
        end
    | None => None
    end.
Proof.
  induction names as [|name names IH]; intros Hcall; [reflexivity|].
  cbn [first_success List.find]. rewrite (Hcall name (or_introl eq_refl)).
  unfold delivers at 1.
  destruct (remote name prompt) as [locator|msg] eqn:Hremote.
  - rewrite Hremote. reflexivity.
  - apply IH. intros name' Hin. apply Hcall. right. exact Hin.
Qed.

(** The tier that a request asks for. *)
Definition wanted_tier (prefer_free : bool) : option ProviderPriority :=
  if prefer_free && String.eqb user_plan "free" then Some FREE else None.

Lemma tier_listing_listed (table : list (string * ProviderConfig))
      (wanted : option ProviderPriority) (name : string) :
  List.NoDup (map fst table) ->
  In name (PySort.sort (sort_key table)
             (map fst (List.filter (is_available wanted) table))) ->
  has_credential table name.
Proof.
  intros Hnd Hin. destruct wanted as [tier|].
  - rewrite (tier_listing_of_table table tier Hnd) in Hin.
    apply List.filter_In in Hin. destruct Hin as [Hin _].
    apply (listed_iff_credential table name Hnd). exact Hin.
  - apply (listed_iff_credential table name Hnd). exact Hin.
Qed.

Lemma image_candidates_credential (wanted : option ProviderPriority)
      (name : string) :
  In name (_get_available_providers user_api_keys environ "image" wanted) ->
  has_credential image_table name.
Proof.
  apply tier_listing_listed. apply providers_names.
Qed.

(** The image that [generate_image] returns. *)
Lemma generate_image_result (prompt platform : string) (width height : Z)
      (prefer_free : bool) :
  let candidates :=
    _get_available_providers user_api_keys environ "image"
                             (wanted_tier prefer_free) in
  let result :=
    generate_image user_api_keys user_plan environ remote now
                   prompt platform width height prefer_free in
  id result = "img_" ++ now /\ type result = IMAGE
  /\ status result = "completed"
  /\ match List.find (delivers remote prompt) candidates with
     | Some name =>
         provider result = name
         /\ In name candidates
         /\ (exists locator,
                remote name prompt = Returned locator
                /\ url result = Some locator)
         /\ cost result = config_cost image_table name
     | None => provider result = "placeholder" /\ cost result = 0%Q
     end.
Proof.
  intros candidates result. subst result. unfold generate_image.
  fold (wanted_tier prefer_free). fold candidates.
  pose proof (first_success_find
                (image_call user_api_keys environ remote prompt
                            match Py.get (PyStr.split_head "_" platform)
                                         aspect_ratios with
                            | Some wh => fst wh
                            | None => width
                            end
                            match Py.get (PyStr.split_head "_" platform)
                                         aspect_ratios with
                            | Some wh => snd wh
                            | None => height
                            end)
                (fun name locator =>
                   delivered IMAGE ("prompt", prompt) name locator
                             (config_cost image_table name))
                prompt candidates) as Hfirst.
  destruct (Py.get (PyStr.split_head "_" platform) aspect_ratios)
    as [[w h]|]; cbn [fst snd] in Hfirst;
    (rewrite Hfirst;
     [|intros name Hin; apply image_call_credential;
       apply (image_candidates_credential (wanted_tier prefer_free));
       exact Hin]);
    (destruct candidates as [|first rest] eqn:Hcand;
     [repeat split; reflexivity|]);
    cbn [Py.nonempty negb];
    (destruct (List.find (delivers remote prompt) (first :: rest))
       as [name|] eqn:Hfind;
     [|repeat split; reflexivity]);
    pose proof (List.find_some _ _ Hfind) as [Hin Hdel];
    unfold delivers in Hdel;
    (destruct (remote name prompt) as [locator|msg]; [|discriminate]);
    repeat split; try reflexivity; try exact Hin;
    exists locator; split; reflexivity.
Qed.

(** ** Videos *)

Lemma mem_In (x : string) (xs : list string) :
  PyStr.mem x xs = true <-> In x xs.
Proof.
  unfold PyStr.mem. rewrite existsb_exists. split.
  - intros [y [Hin Heq]]. apply String.eqb_eq in Heq. subst y. exact Hin.
  - intros Hin. exists x. split; [exact Hin|apply String.eqb_refl].
Qed.

(** Of the names that [generate_video] knows, "runway" is the only one
    with a method: whatever the list of names, the loop ends with
    runway's asset or with nothing. *)
Lemma first_success_video (prompt : string) (image_url : option string)
      (duration : Z) (names : list string) :
  first_success
    (video_call user_api_keys environ remote prompt image_url duration) names
  = if PyStr.mem "runway" names
       && Py.opt_truthy (config_key video_table "runway")
    then match remote "runway" prompt with
         | Returned locator =>
             Some (delivered VIDEO ("prompt", prompt) "runway" locator
                             (config_cost video_table "runway"))
         | Raised _ => None
         end
    else None.
Proof.
  induction names as [|name names IH]; [reflexivity|].
  cbn [first_success]. unfold video_call at 1.
  unfold PyStr.mem. cbn [existsb]. fold (PyStr.mem "runway" names).
  rewrite (String.eqb_sym "runway" name).
  destruct (String.eqb name "runway") eqn:Hname.
  - apply String.eqb_eq in Hname. subst name. cbn [orb].
    unfold _generate_runway_video, call_provider.
    destruct (Py.opt_truthy (config_key video_table "runway")) eqn:Hkey.
    + destruct (remote "runway" prompt) as [locator|msg] eqn:Hremote;
        [reflexivity|].
      rewrite IH, ?Hremote. destruct (PyStr.mem "runway" names); reflexivity.
    + rewrite IH, andb_false_r. destruct (PyStr.mem "runway" names); reflexivity.
  - cbn [orb].
    destruct (String.eqb name "heygen"); [exact IH|].
    destruct (String.eqb name "replicate_video"); exact IH.
Qed.

Lemma listed_mem (table : list (string * ProviderConfig)) (name : string) :
  List.NoDup (map fst table) ->
  PyStr.mem name (PySort.sort (sort_key table)
                    (map fst (List.filter (is_available None) table)))
  = Py.opt_truthy (config_key table name).
Proof.
  intros Hnd. apply eq_true_iff_eq.
  rewrite mem_In. apply listed_iff_credential. exact Hnd.
Qed.

Lemma generate_video_result (prompt : string) (image_url : option string)
      (duration : Z) :
  let result :=
    generate_video user_api_keys environ remote now prompt image_url
                   duration in
  id result = "vid_" ++ now /\ type result = VIDEO
  /\ status result = "completed"
  /\ if Py.opt_truthy (_get_key user_api_keys environ "RUNWAY_API_KEY")
     then match remote "runway" prompt with
          | Returned locator =>
              provider result = "runway" /\ url result = Some locator
              /\ cost result = (20 # 100)%Q
          | Raised _ =>
              provider result = "placeholder"
              /\ url result = Some video_placeholder_url
              /\ cost result = 0%Q
          end
     else provider result = "placeholder"
          /\ url result = Some video_placeholder_url /\ cost result = 0%Q.
Proof.
  intros result. subst result. unfold generate_video.
  rewrite first_success_video.
  unfold _get_available_providers.
  change (table_of user_api_keys environ "video") with (Some video_table).
  cbv beta iota zeta.
  rewrite (listed_mem video_table "runway"
             (video_providers_names user_api_keys environ)).
  rewrite andb_diag.
  change (config_key video_table "runway")
    with (_get_key user_api_keys environ "RUNWAY_API_KEY").
  pose proof (listed_iff_credential video_table "runway"
                (video_providers_names user_api_keys environ)) as Hlisted.
  unfold has_credential in Hlisted.
  change (config_key video_table "runway")
    with (_get_key user_api_keys environ "RUNWAY_API_KEY") in Hlisted.
  destruct (Py.opt_truthy _).
  - destruct (PySort.sort _ _) as [|first rest];
      [exfalso; apply Hlisted; reflexivity|].
    cbn [Py.nonempty negb].
    destruct (remote "runway" prompt); repeat split; reflexivity.
  - destruct (PySort.sort _ _) as [|first rest]; repeat split; reflexivity.
Qed.

(** ** Voiceovers *)

(** Of the three audio methods, the one for "elevenlabs" is the only
    one that ever returns an asset. *)
Lemma first_success_audio (text voice_id model_id : string)
      (names : list string) :
  first_success
    (audio_call user_api_keys environ remote text voice_id model_id) names
  = if PyStr.mem "elevenlabs" names
       && Py.opt_truthy (config_key audio_table "elevenlabs")
    then match remote "elevenlabs" text with
         | Returned locator =>
             Some (delivered AUDIO ("text", PyStr.take 100 text)
                             "elevenlabs" locator
                             (inject_Z (Z.of_nat (String.length text))
                              * config_cost audio_table "elevenlabs")%Q)
         | Raised _ => None
         end
    else None.
Proof.
  induction names as [|name names IH]; [reflexivity|].
  cbn [first_success]. unfold audio_call at 1.
  unfold PyStr.mem. cbn [existsb]. fold (PyStr.mem "elevenlabs" names).
  rewrite (String.eqb_sym "elevenlabs" name).
  destruct (String.eqb name "elevenlabs") eqn:Hname.
  - apply String.eqb_eq in Hname. subst name. cbn [orb].
    unfold _generate_elevenlabs_audio, call_provider.
    destruct (Py.opt_truthy (config_key audio_table "elevenlabs")) eqn:Hkey.
    + destruct (remote "elevenlabs" text) as [locator|msg] eqn:Hremote;
        [reflexivity|].
      rewrite IH, ?Hremote.
      destruct (PyStr.mem "elevenlabs" names); reflexivity.
    + rewrite IH, andb_false_r.
      destruct (PyStr.mem "elevenlabs" names); reflexivity.
  - cbn [orb].
    destruct (String.eqb name "coqui");
      [unfold _generate_coqui_audio;
       destruct (Py.opt_truthy (config_key audio_table "coqui")); exact IH|].
    destruct (String.eqb name "playht");
      [unfold _generate_playht_audio;
       destruct (Py.opt_truthy (config_key audio_table "playht")); exact IH|].
    exact IH.
Qed.

Lemma generate_voiceover_result (text voice_id model_id : string) :
  let result :=
    generate_voiceover user_api_keys environ remote now text voice_id
                       model_id in
  id result = "audio_" ++ now /\ type result = AUDIO
  /\ status result = "completed"
  /\ if Py.opt_truthy (_get_key user_api_keys environ "ELEVENLABS_API_KEY")
     then match remote "elevenlabs" text with
          | Returned locator =>
              provider result = "elevenlabs" /\ url result = Some locator
              /\ cost result
                 = (inject_Z (Z.of_nat (String.length text)) * (1 # 10000))%Q
          | Raised _ =>
              provider result = "none" /\ url result = None
              /\ cost result = 0%Q
          end
     else provider result = "none" /\ url result = None
          /\ cost result = 0%Q.
Proof.
  intros result. subst result. unfold generate_voiceover.
  rewrite first_success_audio.
  unfold _get_available_providers.
  change (table_of user_api_keys environ "audio") with (Some audio_table).
  cbv beta iota zeta.
  rewrite (listed_mem audio_table "elevenlabs"
             (audio_providers_names user_api_keys environ)).
  rewrite andb_diag.
  change (config_key audio_table "elevenlabs")
    with (_get_key user_api_keys environ "ELEVENLABS_API_KEY").
  pose proof (listed_iff_credential audio_table "elevenlabs"
                (audio_providers_names user_api_keys environ)) as Hlisted.
  unfold has_credential in Hlisted.
  change (config_key audio_table "elevenlabs")
    with (_get_key user_api_keys environ "ELEVENLABS_API_KEY") in Hlisted.
  destruct (Py.opt_truthy _).
  - destruct (PySort.sort _ _) as [|first rest];
      [exfalso; apply Hlisted; reflexivity|].
    cbn [Py.nonempty negb].
    destruct (remote "elevenlabs" text); repeat split; reflexivity.
  - destruct (PySort.sort _ _) as [|first rest]; repeat split; reflexivity.
Qed.

(** ** The assets of a content package *)



(** The tasks that [generate_content_media] lists, each with the asset
    that it yields. *)
Definition media_tasks (content_package : ContentPackage) (platform : string)
  : list (string * MediaAsset) :=
  (match image_prompts (get_content content_package) with
   | Some prompts =>
       [("image",
         generate_image user_api_keys user_plan environ remote now
                        (ip_primary prompts) platform 1024 1024 true)]
   | None => []
   end
   ++ match video_script (get_content content_package) with
      | Some script =>
          ("video",
           generate_video user_api_keys environ remote now
             ("Short promotional video: "
                ++ match vs_title script with
                   | Some t => t
                   | None => "product showcase"
                   end)
             None 4)
            :: (if Py.str_truthy (_extract_voiceover_text script)
                then [("audio",
                       generate_voiceover user_api_keys environ remote now
                         (_extract_voiceover_text script)
                         "21m00Tcm4TlvDq8ikWAM" "eleven_multilingual_v2")]
                else [])
      | None => []
      end)%list.

Lemma content_media_tasks (content_package : ContentPackage)
      (platform : string) :
  generate_content_media user_api_keys user_plan environ remote now
                         content_package platform
  = media_tasks content_package platform.
Proof.
  unfold generate_content_media, media_tasks.
  destruct (image_prompts _) as [prompts|], (video_script _) as [script|];
    try destruct (Py.str_truthy _); reflexivity.
Qed.

(** ** The estimate *)

Lemma min_from_least {A : Type} (key : A -> Q) (l : list A) :
  forall best : A,
    (key (PySort.min_from key best l) <= key best)%Q
    /\ Forall (fun x => (key (PySort.min_from key best l) <= key x)%Q) l.
Proof.
  induction l as [|x l IH]; intros best; simpl.
  - split; [apply Qle_refl|constructor].
  - destruct (Qle_bool (key best) (key x)) eqn:Hle.
    + apply Qle_bool_iff in Hle.
      destruct (IH best) as [Hbest Hrest].
      split; [exact Hbest|].
      constructor; [|exact Hrest].
      apply Qle_trans with (key best); assumption.
    + destruct (IH x) as [Hx Hrest].
      assert (Hlt : (key x <= key best)%Q).
      { destruct (Qlt_le_dec (key x) (key best)) as [H|H];
          [apply Qlt_le_weak; exact H|].
        apply Qle_bool_iff in H. congruence. }
      split; [apply Qle_trans with (key x); assumption|].
      constructor; assumption.
Qed.

Lemma min_least {A : Type} (key : A -> Q) (l : list A) (x : A) :
  In x l ->
  match PySort.min key l with
  | Some cheapest => (key cheapest <= key x)%Q
  | None => False
  end.
Proof.
  destruct l as [|first rest]; [contradiction|].
  intros Hin. simpl.
  destruct (min_from_least key rest first) as [Hfirst Hrest].
  destruct Hin as [<-|Hin]; [exact Hfirst|].
  rewrite List.Forall_forall in Hrest. apply Hrest. exact Hin.
Qed.

Lemma audio_costs (name : string) :
  (config_cost audio_table name <= 1 # 10000)%Q.
Proof.
  unfold config_cost, audio_providers. cbn [Py.get].
  repeat match goal with
         | |- context [if ?b then _ else _] => destruct b
         end; cbn; unfold Qle; simpl; lia.
Qed.

(** The part of an estimate that stands for a kind of asset. *)
Definition estimated (estimate : CostEstimate) (kind : string) : Q :=
  if String.eqb kind "image" then cost_image estimate
  else if String.eqb kind "video" then cost_video estimate
  else cost_audio estimate.

Lemma estimate_below_asset (content_package : ContentPackage)
      (platform kind : string) (asset : MediaAsset) :
  In (kind, asset) (media_tasks content_package platform) ->
  provider asset <> "placeholder" ->
  provider asset <> "none" ->
  (estimated (estimate_cost user_api_keys environ content_package) kind
   <= cost asset)%Q.
Proof.
  unfold media_tasks, estimate_cost.
  generalize (get_content content_package). intros content Hin Hp Hn.
  apply in_app_or in Hin. destruct Hin as [Hin|Hin].
  - destruct (image_prompts content) as [prompts|]; [|contradiction].
    destruct Hin as [[= <- <-]|[]].
    cbn [estimated String.eqb Ascii.eqb Bool.eqb cost_image Py.has].
    pose proof (generate_image_result (ip_primary prompts) platform
                  1024 1024 true) as Hresult.
    cbv zeta in Hresult. destruct Hresult as [_ [_ [_ Hresult]]].
    destruct (List.find _ _) as [name|];
      [|destruct Hresult as [Hplace _]; contradiction].
    destruct Hresult as [_ [Hin [_ ->]]].
    apply image_candidates_credential in Hin.
    apply (listed_iff_credential image_table name
             (providers_names user_api_keys environ)) in Hin.
    pose proof (min_least (config_cost image_table) _ name Hin) as Hmin.
    unfold _get_available_providers.
    change (table_of user_api_keys environ "image") with (Some image_table).
    cbv beta iota zeta.
    destruct (PySort.min _ _); [exact Hmin|contradiction].
  - destruct (video_script content) as [script|]; [|contradiction].
    destruct Hin as [[= <- <-]|Hin].
    + cbn [estimated String.eqb Ascii.eqb Bool.eqb cost_video Py.has].
      match goal with
      | |- context [generate_video _ _ _ _ ?p ?i ?d] =>
          pose proof (generate_video_result p i d) as Hresult
      end.
      cbv zeta in Hresult. destruct Hresult as [_ [_ [_ Hresult]]].
      pose proof (listed_iff_credential video_table "runway"
                    (video_providers_names user_api_keys environ)) as Hlisted.
      unfold has_credential in Hlisted.
      change (config_key video_table "runway")
        with (_get_key user_api_keys environ "RUNWAY_API_KEY") in Hlisted.
      destruct (Py.opt_truthy _);
        [|destruct Hresult as [Hplace _]; contradiction].
      destruct (remote "runway" _);
        [|destruct Hresult as [Hplace _]; contradiction].
      destruct Hresult as [_ [_ ->]].
      pose proof (min_least (config_cost video_table) _ "runway"
                    (proj2 Hlisted eq_refl)) as Hmin.
      unfold _get_available_providers.
      change (table_of user_api_keys environ "video") with (Some video_table).
      cbv beta iota zeta.
      destruct (PySort.min _ _); [exact Hmin|contradiction].
    + destruct (Py.str_truthy (_extract_voiceover_text script)) eqn:Htext;
        [|contradiction].
      destruct Hin as [[= <- <-]|[]].
      cbn [estimated String.eqb Ascii.eqb Bool.eqb cost_audio].
      match goal with
      | |- context [generate_voiceover _ _ _ _ ?t ?v ?m] =>
          pose proof (generate_voiceover_result t v m) as Hresult
      end.
      cbv zeta in Hresult. destruct Hresult as [_ [_ [_ Hresult]]].
      destruct (Py.opt_truthy _);
        [|destruct Hresult as [Hnone _]; contradiction].
      destruct (remote "elevenlabs" _);
        [|destruct Hresult as [Hnone _]; contradiction].
      destruct Hresult as [_ [_ ->]].
      destruct (_get_available_providers _ _ "audio" None)
        as [|cheapest rest].
      * apply Qmult_le_0_compat; [|unfold Qle; simpl; lia].
        change 0%Q with (inject_Z 0). rewrite <- Zle_Qle. lia.
      * rewrite (Qmult_comm _ (config_cost audio_table cheapest)),
          (Qmult_comm _ (1 # 10000)).
        apply Qmult_le_compat_r; [apply audio_costs|].
        change 0%Q with (inject_Z 0). rewrite <- Zle_Qle. lia.
Qed.

End Router.

(** The asset that [generate_image] returns is a completed image with
    the id "img_" and the clock's value; it comes from the first
    candidate, in the order of the listing, whose exchange yields a
    locator, at that provider's declared cost, and it is the placeholder
    of cost 0 when no candidate delivers. *)
Theorem image_comes_from_the_first_candidate_that_delivers :
  forall (user_api_keys : gmap string string) (user_plan : string)
         (environ : gmap string string)
         (remote : string -> string -> call_result string) (now : string)
         (prompt platform : string) (width height : Z) (prefer_free : bool),
    let candidates :=
      _get_available_providers
        user_api_keys environ "image"
        (if prefer_free && String.eqb user_plan "free"
         then Some FREE else None) in
    let result :=
      generate_image user_api_keys user_plan environ remote now
                     prompt platform width height prefer_free in
    id result = "img_" ++ now /\ type result = IMAGE
    /\ status result = "completed"
    /\ match List.find (delivers remote prompt) candidates with
       | Some name =>
           provider result = name
           /\ (exists locator,
                  remote name prompt = Returned locator
                  /\ url result = Some locator)
           /\ cost result = config_cost (providers user_api_keys environ) name
       | None => provider result = "placeholder" /\ cost result = 0%Q
       end.
Proof.
  intros keys plan environ remote now prompt platform width height
         prefer_free candidates result.
  pose proof (generate_image_result keys plan environ remote now prompt
                platform width height prefer_free) as H.
  cbv zeta in H. unfold wanted_tier in H.
  fold candidates in H. fold result in H.
  destruct H as [Hid [Hty [Hst H]]].
  split; [exact Hid|]. split; [exact Hty|]. split; [exact Hst|].
  destruct (List.find _ _) as [name|]; [|exact H].
  destruct H as [Hprov [_ [Hurl Hcost]]].
  split; [exact Hprov|]. split; [exact Hurl|exact Hcost].
Qed.

(** The asset that [generate_video] returns is a completed video that
    comes from "runway" when there is a credential for it and its
    exchange yields a locator, at the cost 0.20; in every other case,
    whatever the credentials for the other video providers, it is the
    placeholder of cost 0. *)
Theorem video_comes_from_runway_only :
  forall (user_api_keys environ : gmap string string)
         (remote : string -> string -> call_result string) (now : string)
         (prompt : string) (image_url : option string) (duration : Z),
    let result :=
      generate_video user_api_keys environ remote now prompt image_url
                     duration in
    id result = "vid_" ++ now /\ type result = VIDEO
    /\ status result = "completed"
    /\ if Py.opt_truthy (_get_key user_api_keys environ "RUNWAY_API_KEY")
       then match remote "runway" prompt with
            | Returned locator =>
                provider result = "runway" /\ url result = Some locator
                /\ cost result = (20 # 100)%Q
            | Raised _ =>
                provider result = "placeholder"
                /\ url result = Some video_placeholder_url
                /\ cost result = 0%Q
            end
       else provider result = "placeholder"
            /\ url result = Some video_placeholder_url /\ cost result = 0%Q.
Proof. intros. apply generate_video_result. Qed.








(** An exchange that "leonardo" refuses and every other provider
    answers. *)
Definition leonardo_down (name prompt : string) : call_result string :=
  if String.eqb name "leonardo" then Raised "503 Service Unavailable"
  else Returned ("https://cdn.example/" ++ name).

Definition premium_keys : gmap string string :=
  <["OPENAI_API_KEY" := "sk-1"]> (<["LEONARDO_API_KEY" := "leo-1"]> ∅).

(** For every asset of [generate_content_media] that comes from a
    provider, and not from a stand-in, the part of [estimate_cost] for
    the kind of the asset is at most the cost of the asset: the estimate
    counts the cheapest listed provider, the asset may come from a dearer
    one. *)
Theorem estimate_is_at_most_what_a_provider_charges :
  forall (user_api_keys : gmap string string) (user_plan : string)
         (environ : gmap string string)
         (remote : string -> string -> call_result string) (now : string)
         (content_package : ContentPackage) (platform kind : string)
         (asset : MediaAsset),
    In (kind, asset)
       (generate_content_media user_api_keys user_plan environ remote now
                               content_package platform) ->
    provider asset <> "placeholder" ->
    provider asset <> "none" ->
    (estimated (estimate_cost user_api_keys environ content_package) kind
     <= cost asset)%Q.
Proof.
  intros keys plan environ remote now package platform kind asset Hin.
  rewrite content_media_tasks in Hin.
  exact (estimate_below_asset keys plan environ remote now package
           platform kind asset Hin).
Qed.

Lemma estimate_witness :
  exists asset,
    generate_content_media premium_keys "pro" ∅ leonardo_down "1.5"
                           Samples.twitter_draft "twitter"
    = [("image", asset)]
    /\ provider asset = "openai"
    /\ cost asset = (4 # 100)%Q
    /\ estimated (estimate_cost premium_keys ∅ Samples.twitter_draft) "image"
       = (3 # 100)%Q
    /\ (estimated (estimate_cost premium_keys ∅ Samples.twitter_draft) "image"
        <= cost asset)%Q.
Proof.
  eexists. split; [vm_compute; reflexivity|].
  split; [reflexivity|]. split; [reflexivity|].
  split; [vm_compute; reflexivity|].
  apply (estimate_is_at_most_what_a_provider_charges
           premium_keys "pro" ∅ leonardo_down "1.5" Samples.twitter_draft
           "twitter" "image").
  - vm_compute. left. reflexivity.
  - discriminate.
  - discriminate.
Defined.

End RouterFacts.

(** * The variants and their winner *)

Module VariantFacts.
Import NightlyWorkflowV2.
Import WorkflowFacts.

(** The hooks that the optimizer produced for the draft. *)
Definition hooks_of (optimized_content : option OptimizerAgent.OptimizedContent)
  : list string :=
  match optimized_content with
  | Some o => OptimizerAgent.opt_hook_variations o
  | None => []
  end.

(** The draft has a video script. *)
Definition has_video_script (original_content : option ContentPackage)
  : bool :=
  match original_content with
  | Some p => Py.has (video_script (get_content p))
  | None => false
  end.

(** The hook variant, when there is one. *)
Definition hook_part (original_content : option ContentPackage)
           (optimized_content : option OptimizerAgent.OptimizedContent)
  : list Variant :=
  if has_video_script original_content then
    match hooks_of optimized_content with
    | first_hook :: _ =>
        [variant_b (variant_a original_content optimized_content) first_hook]
    | [] => []
    end
  else [].

(** The CTA variant, when there is one. *)
Definition cta_part (original_content : option ContentPackage)
           (optimized_content : option OptimizerAgent.OptimizedContent)
  : list Variant :=
  match cta_alternatives original_content with
  | [] => []
  | first_cta :: others =>
      [variant_c (variant_a original_content optimized_content)
                 (recommended_cta original_content)
                 match others with
                 | second_cta :: _ => second_cta
                 | [] => first_cta
                 end]
  end.

Lemma ab_variants_parts (platform : string)
      (original_content : option ContentPackage)
      (optimized_content : option OptimizerAgent.OptimizedContent) :
  _generate_ab_variants platform original_content optimized_content
  = (variant_a original_content optimized_content
       :: hook_part original_content optimized_content
       ++ cta_part original_content optimized_content)%list.
Proof.
  unfold _generate_ab_variants, hook_part, cta_part, has_video_script,
    hooks_of, cta_alternatives, recommended_cta.
  destruct original_content as [p|]; [|reflexivity].
  generalize (get_content p). intros content.
  destruct (Py.has (video_script content));
    [destruct (match optimized_content with
               | Some o => OptimizerAgent.opt_hook_variations o
               | None => []
               end) as [|hook hooks]|];
    cbn [length app Z.of_nat Z.ltb Z.compare Pos.compare Pos.compare_cont
         Pos.of_succ_nat Pos.succ];
    destruct (cta content) as [c|]; try reflexivity;
    destruct (cta_variations c) as [vs|]; try reflexivity;
    destruct (Py.values vs) as [|first_cta others]; reflexivity.
Qed.

Lemma has_variant_b (variants : list Variant) :
  has_variant "B" variants
  <-> existsb (fun v => String.eqb (variant_id v) "B") variants = true.
Proof.
  unfold has_variant. rewrite existsb_exists.
  split; intros [v [Hin Hv]]; exists v; (split; [exact Hin|]);
    apply String.eqb_eq; exact Hv.
Qed.

(** The variant of the highest score is the control or the hook
    variant. *)
Lemma winner_choice (platform : string)
      (original_content : option ContentPackage)
      (optimized_content : option OptimizerAgent.OptimizedContent) :
  let control := variant_a original_content optimized_content in
  let winner :=
    PySort.max v_viral_score
      (_generate_ab_variants platform original_content optimized_content) in
  winner = Some control
  \/ exists hook, winner = Some (variant_b control hook).
Proof.
  intros control winner. subst winner.
  rewrite ab_variants_parts. fold control.
  unfold hook_part, cta_part. fold control.
  destruct (has_video_script original_content);
    [destruct (hooks_of optimized_content) as [|hook hooks]|];
    destruct (cta_alternatives original_content) as [|first_cta others];
    cbn [app PySort.max PySort.max_from v_viral_score variant_b variant_c];
    repeat match goal with
           | |- context [?a <? ?b] => destruct (Z.ltb_spec a b)
           end;
    try lia; eauto.
Qed.

(** With a video script and a hook, the hook variant wins whenever the
    control scores less than 100. *)
Lemma hook_variant_wins (platform : string)
      (original_content : option ContentPackage)
      (optimized_content : option OptimizerAgent.OptimizedContent)
      (hook : string) (hooks : list string) :
  has_video_script original_content = true ->
  hooks_of optimized_content = hook :: hooks ->
  v_viral_score (variant_a original_content optimized_content) < 100 ->
  PySort.max v_viral_score
    (_generate_ab_variants platform original_content optimized_content)
  = Some (variant_b (variant_a original_content optimized_content) hook).
Proof.
  intros Hscript Hhooks Hscore.
  rewrite ab_variants_parts. unfold hook_part, cta_part.
  rewrite Hscript, Hhooks.
  set (control := variant_a original_content optimized_content) in *.
  destruct (cta_alternatives original_content) as [|first_cta others];
    cbn [app PySort.max PySort.max_from v_viral_score variant_b variant_c];
    repeat match goal with
           | |- context [?a <? ?b] => destruct (Z.ltb_spec a b)
           end;
    try lia; reflexivity.
Qed.

(** The variants of [_generate_ab_variants] and the one of them that
    [max] returns. *)
Lemma variants_and_their_greatest (platform : string)
      (original_content : option ContentPackage)
      (optimized_content : option OptimizerAgent.OptimizedContent) :
    let control := variant_a original_content optimized_content in
    let variants :=
      _generate_ab_variants platform original_content optimized_content in
    (1 <= length variants <= 3)%nat
    /\ (has_variant "B" variants
        <-> has_video_script original_content = true
            /\ hooks_of optimized_content <> [])
    /\ exists winner,
        PySort.max v_viral_score variants = Some winner
        /\ variant_id winner <> "C"
        /\ (variant_id winner = "B"
            <-> has_variant "B" variants /\ v_viral_score control < 100)
        /\ (variant_id winner <> "B" -> winner = control).
Proof.
  revert platform original_content optimized_content.
  intros platform original optimized control variants.
  subst variants. rewrite ab_variants_parts. fold control.
  unfold hook_part, cta_part. fold control. rewrite !has_variant_b.
  set (score := v_viral_score control).
  assert (Hb : forall hook, v_viral_score (variant_b control hook)
                            = Z.min 100 (score + 5)) by reflexivity.
  assert (Hc : forall r s, v_viral_score (variant_c control r s) = score)
    by reflexivity.
  assert (Hquiet : forall rest : list Variant,
             existsb (fun v => String.eqb (variant_id v) "B") rest = false ->
             (forall v, In v rest -> v_viral_score v = score) ->
             (existsb (fun v => String.eqb (variant_id v) "B")
                      (control :: rest) = true
              <-> False)
             /\ exists winner,
                 PySort.max v_viral_score (control :: rest) = Some winner
                 /\ variant_id winner <> "C"
                 /\ (variant_id winner = "B" <-> False)
                 /\ (variant_id winner <> "B" -> winner = control)).
  { intros rest Hrest Hscores. split.
    - cbn [existsb]. rewrite Hrest. cbn. split; [discriminate|contradiction].
    - exists control.
      assert (Hmax : PySort.max_from v_viral_score control rest = control).
      { clear Hrest. induction rest as [|v rest IH]; [reflexivity|].
        cbn [PySort.max_from]. fold score.
        rewrite (Hscores v (or_introl eq_refl)), Z.ltb_irrefl.
        apply IH. intros v' Hv'. apply Hscores. right. exact Hv'. }
      cbn [PySort.max]. rewrite Hmax.
      split; [reflexivity|]. split; [discriminate|].
      split; [split; [discriminate|contradiction]|reflexivity]. }
  destruct (has_video_script original);
    [destruct (hooks_of optimized) as [|hook hooks]|].
  - (* a video script, no hook *)
    destruct (cta_alternatives original) as [|first_cta others];
      cbn [app length];
      (split; [lia|]);
      match goal with
      | |- context [control :: ?rest] =>
          destruct (Hquiet rest) as [Hhas [winner [Hmax [Hid [Hwb Hwc]]]]];
          [reflexivity
          |intros v Hv; cbn [In] in Hv;
           repeat (destruct Hv as [<-|Hv]; [apply Hc|]); contradiction|]
      end;
      (split; [rewrite Hhas; split; [contradiction|intros [_ H]; congruence]|]);
      exists winner; (split; [exact Hmax|]); (split; [exact Hid|]);
      (split;
       [split;
        [intros Hw; apply Hwb in Hw; contradiction
        |intros [Hh _]; apply has_variant_b, Hhas in Hh; contradiction]
       |exact Hwc]).
  - (* a video script and a hook *)
    assert (Hwin : forall rest : list Variant,
               (forall v, In v rest -> v_viral_score v = score) ->
               PySort.max v_viral_score
                          (control :: variant_b control hook :: rest)
               = Some (if score <? Z.min 100 (score + 5)
                       then variant_b control hook else control)).
    { intros rest Hscores. cbn [PySort.max PySort.max_from].
      fold score. rewrite Hb.
      destruct (score <? Z.min 100 (score + 5)) eqn:Hlt.
      - f_equal. induction rest as [|v rest IH]; [reflexivity|].
        cbn [PySort.max_from]. rewrite Hb, (Hscores v (or_introl eq_refl)).
        apply Z.ltb_lt in Hlt.
        destruct (Z.ltb_spec (Z.min 100 (score + 5)) score); [lia|].
        apply IH. intros v' Hv'. apply Hscores. right. exact Hv'.
      - f_equal. induction rest as [|v rest IH]; [reflexivity|].
        cbn [PySort.max_from]. fold score.
        rewrite (Hscores v (or_introl eq_refl)), Z.ltb_irrefl.
        apply IH. intros v' Hv'. apply Hscores. right. exact Hv'. }
    destruct (cta_alternatives original) as [|first_cta others];
      cbn [app length existsb];
      (split; [lia|]);
      (split; [split; [intros _; split; [reflexivity|discriminate]
                      |intros _; reflexivity]|]);
      (rewrite Hwin;
       [|intros v Hv; cbn [In] in Hv;
         repeat (destruct Hv as [<-|Hv]; [apply Hc|]); contradiction]);
      (destruct (Z.ltb_spec score (Z.min 100 (score + 5))) as [Hlt|Hge];
       eexists; (split; [reflexivity|]); (split; [discriminate|]);
       (split;
        [split;
         [intros Hw;
          first [discriminate Hw
                |split; [apply has_variant_b; reflexivity|lia]]
         |intros [_ Hs]; first [reflexivity|lia]]
        |intros Hw; first [reflexivity|exfalso; apply Hw; reflexivity]])).
  - (* no video script *)
    destruct (cta_alternatives original) as [|first_cta others];
      cbn [app length];
      (split; [lia|]);
      match goal with
      | |- context [control :: ?rest] =>
          destruct (Hquiet rest) as [Hhas [winner [Hmax [Hid [Hwb Hwc]]]]];
          [reflexivity
          |intros v Hv; cbn [In] in Hv;
           repeat (destruct Hv as [<-|Hv]; [apply Hc|]); contradiction|]
      end;
      (split; [rewrite Hhas; split; [contradiction|intros [H _]; congruence]|]);
      exists winner; (split; [exact Hmax|]); (split; [exact Hid|]);
      (split;
       [split;
        [intros Hw; apply Hwb in Hw; contradiction
        |intros [Hh _]; apply has_variant_b, Hhas in Hh; contradiction]
       |exact Hwc]).
Qed.

(** [_generate_ab_variants] returns between one and three variants; the
    hook variant "B" is among them exactly when the draft has a video
    script and the optimizer gave some hook variation.  The variant that
    finalization picks is never the CTA variant "C": it is "B" exactly
    when "B" exists and the control scores less than 100, and the control
    "A" otherwise; and whenever these variants are the ones stored for a
    platform of the run, the item of this variant is the one item that
    [_finalize_node] produces for the platform. *)
Theorem winner_is_the_control_or_the_hook_variant :
  forall (platform : string) (original_content : option ContentPackage)
         (optimized_content : option OptimizerAgent.OptimizedContent),
    let control := variant_a original_content optimized_content in
    let variants :=
      _generate_ab_variants platform original_content optimized_content in
    (1 <= length variants <= 3)%nat
    /\ (has_variant "B" variants
        <-> has_video_script original_content = true
            /\ hooks_of optimized_content <> [])
    /\ exists winner,
        PySort.max v_viral_score variants = Some winner
        /\ variant_id winner <> "C"
        /\ (variant_id winner = "B"
            <-> has_variant "B" variants /\ v_viral_score control < 100)
        /\ (variant_id winner <> "B" -> winner = control)
        /\ (forall (now : string) (state : ContentWorkflowState),
              In platform (platforms state) ->
              Py.get platform (ab_test_variants state) = Some variants ->
              In (content_item now state platform winner)
                 (final_content (_finalize_node now state))
              /\ Forall (fun item =>
                           Py.get "platform" item = Some (PStr platform) ->
                           item = content_item now state platform winner)
                        (final_content (_finalize_node now state))).
Proof.
  intros platform original optimized control variants.
  destruct (variants_and_their_greatest platform original optimized)
    as [Hlength [Hhook [winner [Hmax [Hid [Hb Hcontrol]]]]]].
  fold control in Hb, Hcontrol. fold variants in Hlength, Hhook, Hmax, Hb.
  split; [exact Hlength|]. split; [exact Hhook|].
  exists winner.
  split; [exact Hmax|]. split; [exact Hid|]. split; [exact Hb|].
  split; [exact Hcontrol|].
  intros now state Hin Hget.
  apply finalize_picks; [exact Hin|].
  unfold variants_of. rewrite Hget. exact Hmax.
Qed.

(** What the optimizer returns at noon for the sample draft of
    "tiktok". *)
Definition tiktok_optimized : option OptimizerAgent.OptimizedContent :=
  match OptimizerAgent.optimize_content
          Samples.exact Samples.no_repr ["SaaS"] [] 12 Samples.tiktok_draft
          "tiktok" Samples.flowly with
  | Returned o => Some o
  | Raised _ => None
  end.

Definition tiktok_variants : list Variant :=
  _generate_ab_variants "tiktok" (Some Samples.tiktok_draft) tiktok_optimized.

(** A state that reaches FINALIZE with these variants. *)
Definition tiktok_state : ContentWorkflowState :=
  {| user_id := "u1"; webapp_id := "w1"; webapp_data := Samples.flowly;
     user_api_keys := ∅; user_plan := "free"; platforms := ["tiktok"];
     research_results := empty_research;
     content_packages := [("tiktok", Samples.tiktok_draft)];
     media_assets := []; optimized_content := []; viral_scores := [];
     ab_test_variants := [("tiktok", tiktok_variants)]; final_content := [];
     current_stage := AB_TEST; errors := [];
     cost_estimate := 0; actual_cost := 0 |}.

(** The control scores 81, the hook variant 86: the item is the hook
    variant's. *)
Lemma hook_variant_witness :
  map (fun v => (variant_id v, v_viral_score v)) tiktok_variants
  = [("A", 81); ("B", 86); ("C", 81)]
  /\ map (fun item => (Py.get "variant_id" item, Py.get "viral_score" item))
         (final_content (_finalize_node "1.5" tiktok_state))
     = [(Some (PStr "B"), Some (PInt 86))]
  /\ exists winner,
      PySort.max v_viral_score tiktok_variants = Some winner
      /\ variant_id winner = "B"
      /\ In (content_item "1.5" tiktok_state "tiktok" winner)
            (final_content (_finalize_node "1.5" tiktok_state)).
Proof.
  split; [vm_compute; reflexivity|].
  split; [vm_compute; reflexivity|].
  destruct (winner_is_the_control_or_the_hook_variant
              "tiktok" (Some Samples.tiktok_draft) tiktok_optimized)
    as [_ [_ [winner [Hmax [_ [Hb [_ Hitem]]]]]]].
  exists winner. split; [exact Hmax|]. split.
  - apply Hb. split.
    + exists (nth 1 tiktok_variants (variant_a None None)).
      split; vm_compute; [right; left; reflexivity|reflexivity].
    + vm_compute. reflexivity.
  - apply (Hitem "1.5" tiktok_state); [left; reflexivity|reflexivity].
Defined.

End VariantFacts.

(** * The run of the pipeline *)

Module RunFacts.
Import NightlyWorkflowV2.
Import WorkflowFacts.

(** Two states that differ in their error lists at most. *)
Definition same_but_errors (s s' : ContentWorkflowState) : Prop :=
  set_errors [] s = set_errors [] s'.

Lemma same_but_errors_refl (s : ContentWorkflowState) : same_but_errors s s.
Proof. reflexivity. Qed.

Lemma same_but_errors_trans (a b c : ContentWorkflowState) :
  same_but_errors a b -> same_but_errors b c -> same_but_errors a c.
Proof. unfold same_but_errors. congruence. Qed.

Lemma same_but_errors_set (errs : list string) (s : ContentWorkflowState) :
  same_but_errors (set_errors errs s) s.
Proof. reflexivity. Qed.

(** Such states have the same fields but for the error list. *)
Lemma same_final_content (s s' : ContentWorkflowState) :
  same_but_errors s s' -> final_content s = final_content s'.
Proof. intros H. exact (f_equal final_content H). Qed.

Lemma same_viral_scores (s s' : ContentWorkflowState) :
  same_but_errors s s' -> viral_scores s = viral_scores s'.
Proof. intros H. exact (f_equal viral_scores H). Qed.

Lemma same_cost_estimate (s s' : ContentWorkflowState) :
  same_but_errors s s' -> cost_estimate s = cost_estimate s'.
Proof. intros H. exact (f_equal cost_estimate H). Qed.

Lemma same_actual_cost (s s' : ContentWorkflowState) :
  same_but_errors s s' -> actual_cost s = actual_cost s'.
Proof. intros H. exact (f_equal actual_cost H). Qed.

Lemma same_research_results (s s' : ContentWorkflowState) :
  same_but_errors s s' -> research_results s = research_results s'.
Proof. intros H. exact (f_equal research_results H). Qed.

Lemma same_content_packages (s s' : ContentWorkflowState) :
  same_but_errors s s' -> content_packages s = content_packages s'.
Proof. intros H. exact (f_equal content_packages H). Qed.

Section Orchestrator.

Variable research_webapp : WebApp -> call_result ResearchResults.
Variable generate_content_package :
  nat -> ResearchResults -> WebApp -> string -> call_result ContentPackage.
Variable fl : Q -> Q.
Variable repr_content : Content -> string.
Variable hour : Z.
Variable environ : gmap string string.
Variable remote : string -> string -> call_result string.
Variable now : string.

Local Abbreviation handler_of n :=
  (handler research_webapp generate_content_package fl repr_content hour
           environ remote now n).

Lemma creative_loop_drafts_only (state state' : ContentWorkflowState)
      (todo : list string) :
  research_results state = research_results state' ->
  webapp_data state = webapp_data state' ->
  forall (call : nat) (drafts : list (string * ContentPackage))
         (errs errs' : list string),
    fst (creative_loop generate_content_package state call todo (drafts, errs))
    = fst (creative_loop generate_content_package state' call todo
                         (drafts, errs')).
Proof.
  intros Hr Hw.
  induction todo as [|platform rest IH]; intros call drafts errs errs';
    [reflexivity|].
  cbn [creative_loop]. rewrite Hr, Hw.
  destruct (generate_content_package call _ _ platform); apply IH.
Qed.

Lemma optimize_loop_results_only (cats tags : list string)
      (webapp_data : WebApp) (drafts : list (string * ContentPackage)) :
  forall optimized scores (errs errs' : list string),
    fst (fold_left
           (fun '(optimized, scores, errs) '(platform, package) =>
              match OptimizerAgent.optimize_content
                      fl repr_content cats tags hour package platform
                      webapp_data with
              | Returned o =>
                  (Py.set platform o optimized,
                   Py.set platform (OptimizerAgent.opt_viral_score o) scores,
                   errs)
              | Raised e =>
                  (optimized, scores,
                   add_error errs
                     ("Optimization failed for " ++ platform ++ ": " ++ e))
              end)
           drafts (optimized, scores, errs))
    = fst (fold_left
             (fun '(optimized, scores, errs) '(platform, package) =>
                match OptimizerAgent.optimize_content
                        fl repr_content cats tags hour package platform
                        webapp_data with
                | Returned o =>
                    (Py.set platform o optimized,
                     Py.set platform (OptimizerAgent.opt_viral_score o) scores,
                     errs)
                | Raised e =>
                    (optimized, scores,
                     add_error errs
                       ("Optimization failed for " ++ platform ++ ": " ++ e))
                end)
             drafts (optimized, scores, errs')).
Proof.
  induction drafts as [|[platform package] drafts IH];
    intros optimized scores errs errs'; [reflexivity|].
  cbn [fold_left].
  destruct (OptimizerAgent.optimize_content _ _ _ _ _ _ _ _); apply IH.
Qed.

(** What a handler returns depends on the error list it reads in the
    error list it returns only. *)
Lemma handler_same_but_errors (n : Node) (s s' : ContentWorkflowState) :
  same_but_errors s s' ->
  same_but_errors (handler_of n s) (handler_of n s').
Proof.
  unfold same_but_errors. intros H.
  destruct s as [uid wid w keys plan ps r drafts assets opt scores ab final
                     stage errs est act].
  destruct s' as [uid' wid' w' keys' plan' ps' r' drafts' assets' opt'
                       scores' ab' final' stage' errs' est' act'].
  cbn in H. injection H as -> -> -> -> -> -> -> -> -> -> -> -> -> -> -> ->.
  destruct n; cbn [handler].
  - unfold _research_node. cbn [webapp_data].
    destruct (research_webapp w'); reflexivity.
  - unfold _creative_node. cbn [platforms errors].
    match goal with
    | |- context [creative_loop _ ?a _ _ (_, errs)] =>
        match goal with
        | |- context [creative_loop _ ?b _ _ (_, errs')] =>
            pose proof (creative_loop_drafts_only a b ps' eq_refl eq_refl
                          0%nat [] errs errs') as Hloop
        end
    end.
    destruct (creative_loop _ _ _ _ (_, errs)) as [d e].
    destruct (creative_loop _ _ _ _ (_, errs')) as [d' e'].
    cbn [fst] in Hloop. subst d'. reflexivity.
  - unfold _media_node.
    cbn [content_packages user_api_keys user_plan].
    destruct (fold_left _ _ _) as [media total]. reflexivity.
  - unfold _optimize_node.
    cbn [content_packages research_results webapp_data errors].
    pose proof (optimize_loop_results_only
                  (res_trending_categories r') (res_trending_hashtags r')
                  w' drafts' [] [] errs errs') as Hloop.
    destruct (fold_left _ _ (_, _, errs)) as [[o sc] e].
    destruct (fold_left _ _ (_, _, errs')) as [[o' sc'] e'].
    cbn [fst] in Hloop. injection Hloop as -> ->. reflexivity.
  - reflexivity.
  - reflexivity.
Qed.

Local Abbreviation step_of n :=
  (step research_webapp generate_content_package fl repr_content hour
        environ remote now n).

Lemma step_same_but_errors (n : Node) (c s : ContentWorkflowState) :
  same_but_errors c s ->
  same_but_errors (step_of n c) (handler_of n s).
Proof.
  intros H. apply same_but_errors_trans with (handler_of n c).
  - apply same_but_errors_set.
  - apply handler_same_but_errors. exact H.
Qed.

(** But for the error list, [ainvoke] returns what the handlers return
    when each is handed the state that the one before it returned. *)
Lemma ainvoke_same_but_errors (input : ContentWorkflowState) :
  same_but_errors
    (ainvoke research_webapp generate_content_package fl repr_content hour
             environ remote now input)
    (handed_over research_webapp generate_content_package fl repr_content
                 hour environ remote now input).
Proof.
  rewrite ainvoke_steps. unfold handed_over.
  apply (step_same_but_errors finalize).
  apply (step_same_but_errors ab_test).
  apply (step_same_but_errors optimize).
  apply (step_same_but_errors media).
  apply (step_same_but_errors creative).
  apply (step_same_but_errors research).
  apply same_but_errors_set.
Qed.

(** The fields that no handler writes. *)
Definition fixed_fields (s : ContentWorkflowState) :=
  (user_id s, webapp_id s, webapp_data s, user_api_keys s, user_plan s,
   platforms s, actual_cost s).

Lemma handler_fixed (n : Node) (s : ContentWorkflowState) :
  fixed_fields (handler_of n s) = fixed_fields s.
Proof.
  destruct n; cbn [handler].
  - unfold _research_node. destruct (research_webapp _); reflexivity.
  - unfold _creative_node. destruct (creative_loop _ _ _ _ _); reflexivity.
  - unfold _media_node. destruct (fold_left _ _ _); reflexivity.
  - unfold _optimize_node. destruct (fold_left _ _ _) as [[o sc] e].
    reflexivity.
  - reflexivity.
  - reflexivity.
Qed.

(** The states that the handlers hand over, from the input of the run
    to the state before FINALIZE. *)
Definition after_research (input : ContentWorkflowState) :=
  _research_node research_webapp input.
Definition after_creative (input : ContentWorkflowState) :=
  _creative_node generate_content_package (after_research input).
Definition after_media (input : ContentWorkflowState) :=
  _media_node environ remote now (after_creative input).
Definition after_optimize (input : ContentWorkflowState) :=
  _optimize_node fl repr_content hour (after_media input).
Definition after_ab_test (input : ContentWorkflowState) :=
  _ab_test_node (after_optimize input).

Lemma handed_over_unfold (input : ContentWorkflowState) :
  handed_over research_webapp generate_content_package fl repr_content hour
              environ remote now input
  = _finalize_node now (after_ab_test input).
Proof. reflexivity. Qed.

Lemma after_ab_test_fixed (input : ContentWorkflowState) :
  fixed_fields (after_ab_test input) = fixed_fields input.
Proof.
  unfold after_ab_test, after_optimize, after_media, after_creative,
    after_research.
  etransitivity; [exact (handler_fixed ab_test _)|].
  etransitivity; [exact (handler_fixed optimize _)|].
  etransitivity; [exact (handler_fixed media _)|].
  etransitivity; [exact (handler_fixed creative _)|].
  exact (handler_fixed research _).
Qed.

Lemma after_ab_test_platforms (input : ContentWorkflowState) :
  platforms (after_ab_test input) = platforms input.
Proof.
  pose proof (after_ab_test_fixed input) as H.
  unfold fixed_fields in H. congruence.
Qed.

Lemma after_ab_test_owner (input : ContentWorkflowState) :
  user_id (after_ab_test input) = user_id input
  /\ webapp_id (after_ab_test input) = webapp_id input.
Proof.
  pose proof (after_ab_test_fixed input) as H.
  unfold fixed_fields in H. split; congruence.
Qed.

(** The variants of a platform of the run. *)
Lemma after_ab_test_variants (input : ContentWorkflowState)
      (platform : string) :
  In platform (platforms input) ->
  Py.get platform (ab_test_variants (after_ab_test input))
  = Some (_generate_ab_variants
            platform
            (Py.get platform (content_packages (after_optimize input)))
            (Py.get platform (optimized_content (after_optimize input)))).
Proof.
  intros Hin. unfold after_ab_test, _ab_test_node.
  cbn [ab_test_variants set_current_stage set_ab_test_variants].
  rewrite (get_after_sets
             (fun q => _generate_ab_variants
                         q
                         (Py.get q (content_packages (after_optimize input)))
                         (Py.get q (optimized_content (after_optimize input))))).
  assert (Hp : platforms (after_optimize input) = platforms input).
  { unfold after_optimize, after_media, after_creative, after_research.
    pose proof (handler_fixed optimize
                  (_media_node environ remote now
                     (_creative_node generate_content_package
                        (_research_node research_webapp input)))) as H4.
    pose proof (handler_fixed media
                  (_creative_node generate_content_package
                     (_research_node research_webapp input))) as H3.
    pose proof (handler_fixed creative
                  (_research_node research_webapp input)) as H2.
    pose proof (handler_fixed research input) as H1.
    unfold fixed_fields in *. cbn [handler] in *. congruence. }
  rewrite Hp.
  destruct (in_dec string_dec platform (platforms input)); [|contradiction].
  reflexivity.
Qed.

(** The winner among the variants of a platform. *)
Definition winner_of (input : ContentWorkflowState) (platform : string)
  : Variant :=
  let variants :=
    _generate_ab_variants
      platform
      (Py.get platform (content_packages (after_optimize input)))
      (Py.get platform (optimized_content (after_optimize input))) in
  match PySort.max v_viral_score variants with
  | Some best => best
  | None => variant_a None None
  end.

Lemma variants_have_a_winner (platform : string)
      (original : option ContentPackage)
      (optimized : option OptimizerAgent.OptimizedContent) :
  exists best,
    PySort.max v_viral_score (_generate_ab_variants platform original optimized)
    = Some best.
Proof.
  destruct (ab_variants_shape platform original optimized)
    as [hook_part [recommended [_ ->]]].
  simpl. eauto.
Qed.

(** The items of the run, one per entry of the platform list, each the
    item of the winner among the platform's variants. *)
Lemma handed_over_items (input : ContentWorkflowState) :
  final_content
    (handed_over research_webapp generate_content_package fl repr_content
                 hour environ remote now input)
  = map (fun platform =>
           content_item now (after_ab_test input) platform
                        (winner_of input platform))
        (platforms input).
Proof.
  rewrite handed_over_unfold, finalize_items, after_ab_test_platforms.
  assert (H : forall platform,
             In platform (platforms input) ->
             items_of now (after_ab_test input) platform
             = [content_item now (after_ab_test input) platform
                             (winner_of input platform)]).
  { intros platform Hin. unfold items_of, winner_of.
    rewrite (after_ab_test_variants input platform Hin).
    destruct (variants_have_a_winner
                platform
                (Py.get platform (content_packages (after_optimize input)))
                (Py.get platform (optimized_content (after_optimize input))))
      as [best ->].
    reflexivity. }
  induction (platforms input) as [|platform rest IH]; [reflexivity|].
  cbn [flat_map map]. rewrite (H platform (or_introl eq_refl)).
  cbn [app]. f_equal. apply IH.
  intros p Hp. apply H. right. exact Hp.
Qed.

Lemma ainvoke_items (input : ContentWorkflowState) :
  final_content
    (ainvoke research_webapp generate_content_package fl repr_content hour
             environ remote now input)
  = map (fun platform =>
           content_item now (after_ab_test input) platform
                        (winner_of input platform))
        (platforms input).
Proof.
  rewrite <- handed_over_items.
  apply same_final_content, ainvoke_same_but_errors.
Qed.

(** What the handlers after RESEARCH, CREATIVE, MEDIA and OPTIMIZE
    leave as it was. *)
Lemma creative_keeps_research (s : ContentWorkflowState) :
  research_results (_creative_node generate_content_package s)
  = research_results s.
Proof.
  unfold _creative_node. destruct (creative_loop _ _ _ _ _). reflexivity.
Qed.

Lemma media_keeps (s : ContentWorkflowState) :
  research_results (_media_node environ remote now s) = research_results s
  /\ content_packages (_media_node environ remote now s)
     = content_packages s.
Proof.
  unfold _media_node. destruct (fold_left _ _ _). split; reflexivity.
Qed.

Lemma optimize_keeps (s : ContentWorkflowState) :
  research_results (_optimize_node fl repr_content hour s)
  = research_results s
  /\ content_packages (_optimize_node fl repr_content hour s)
     = content_packages s
  /\ media_assets (_optimize_node fl repr_content hour s) = media_assets s
  /\ cost_estimate (_optimize_node fl repr_content hour s)
     = cost_estimate s.
Proof.
  unfold _optimize_node. destruct (fold_left _ _ _) as [[o sc] e].
  repeat split; reflexivity.
Qed.

Lemma after_optimize_packages (input : ContentWorkflowState) :
  content_packages (after_optimize input)
  = content_packages (after_creative input).
Proof.
  unfold after_optimize, after_media.
  destruct (optimize_keeps (_media_node environ remote now
                                        (after_creative input)))
    as [_ [-> _]].
  apply media_keeps.
Qed.

Lemma handed_over_research (input : ContentWorkflowState) :
  research_results
    (handed_over research_webapp generate_content_package fl repr_content
                 hour environ remote now input)
  = research_results (after_research input).
Proof.
  rewrite handed_over_unfold.
  change (research_results (_finalize_node now (after_ab_test input)))
    with (research_results (after_optimize input)).
  unfold after_optimize, after_media, after_creative.
  destruct (optimize_keeps
              (_media_node environ remote now
                 (_creative_node generate_content_package
                    (after_research input)))) as [-> _].
  destruct (media_keeps (_creative_node generate_content_package
                                        (after_research input))) as [-> _].
  apply creative_keeps_research.
Qed.

(** ** A product without a name *)

Lemma optimize_content_raises (cats tags : list string)
      (package : ContentPackage) (platform : string) (webapp_data : WebApp) :
  wa_name webapp_data = None ->
  exists msg,
    OptimizerAgent.optimize_content fl repr_content cats tags hour
                                    package platform webapp_data
    = Raised msg.
Proof.
  intros Hname.
  unfold OptimizerAgent.optimize_content,
    OptimizerAgent._calculate_viral_score, OptimizerAgent._score_uniqueness.
  rewrite Hname.
  destruct (caption (get_content package)) as [c|]; [|eauto].
  destruct (cap_text c); eauto.
Qed.

(** When every optimization raises, the loop of [_optimize_node] stores
    nothing and adds one entry per draft. *)
Lemma optimize_loop_all_raise (cats tags : list string)
      (webapp_data : WebApp) (drafts : list (string * ContentPackage)) :
  wa_name webapp_data = None ->
  forall optimized scores errs,
    exists added,
      fold_left
        (fun '(optimized, scores, errs) '(platform, package) =>
           match OptimizerAgent.optimize_content
                   fl repr_content cats tags hour package platform
                   webapp_data with
           | Returned o =>
               (Py.set platform o optimized,
                Py.set platform (OptimizerAgent.opt_viral_score o) scores,
                errs)
           | Raised e =>
               (optimized, scores,
                add_error errs
                  ("Optimization failed for " ++ platform ++ ": " ++ e))
           end)
        drafts (optimized, scores, errs)
      = (optimized, scores, (errs ++ added)%list)
      /\ forall platform package,
          In (platform, package) drafts ->
          exists msg,
            In ("Optimization failed for " ++ platform ++ ": " ++ msg) added.
Proof.
  intros Hname.
  induction drafts as [|[platform package] drafts IH];
    intros optimized scores errs.
  - exists []. rewrite app_nil_r. split; [reflexivity|]. intros ? ? [].
  - cbn [fold_left].
    destruct (optimize_content_raises cats tags package platform webapp_data
                Hname) as [msg ->].
    destruct (IH optimized scores
                 (add_error errs
                    ("Optimization failed for " ++ platform ++ ": " ++ msg)))
      as [added [-> Hadded]].
    exists (("Optimization failed for " ++ platform ++ ": " ++ msg) :: added).
    split; [unfold add_error; rewrite <- app_assoc; reflexivity|].
    intros p pkg [[= <- <-]|Hin].
    + exists msg. left. reflexivity.
    + destruct (Hadded p pkg Hin) as [m Hm]. exists m. right. exact Hm.
Qed.

Lemma optimize_node_nameless (s : ContentWorkflowState) :
  wa_name (webapp_data s) = None ->
  optimized_content (_optimize_node fl repr_content hour s) = []
  /\ viral_scores (_optimize_node fl repr_content hour s) = []
  /\ forall platform package,
      In (platform, package) (content_packages s) ->
      exists msg,
        In ("Optimization failed for " ++ platform ++ ": " ++ msg)
           (errors (_optimize_node fl repr_content hour s)).
Proof.
  intros Hname. unfold _optimize_node.
  destruct (optimize_loop_all_raise
              (res_trending_categories (research_results s))
              (res_trending_hashtags (research_results s))
              (webapp_data s) (content_packages s) Hname [] [] (errors s))
    as [added [-> Hadded]].
  split; [reflexivity|]. split; [reflexivity|].
  intros platform package Hin.
  destruct (Hadded platform package Hin) as [msg Hmsg].
  exists msg. cbn. apply in_or_app. right. exact Hmsg.
Qed.

Lemma after_optimize_webapp (input : ContentWorkflowState) :
  webapp_data (after_media input) = webapp_data input.
Proof.
  unfold after_media, after_creative, after_research.
  pose proof (handler_fixed media
                (_creative_node generate_content_package
                   (_research_node research_webapp input))) as H3.
  pose proof (handler_fixed creative
                (_research_node research_webapp input)) as H2.
  pose proof (handler_fixed research input) as H1.
  unfold fixed_fields in *. cbn [handler] in *. congruence.
Qed.

(** Without a score the only variants are the control and the CTA
    variant, and the control wins. *)
Lemma unscored_winner (platform : string)
      (original : option ContentPackage) :
  PySort.max v_viral_score (_generate_ab_variants platform original None)
  = Some (variant_a original None).
Proof.
  rewrite VariantFacts.ab_variants_parts.
  unfold VariantFacts.hook_part, VariantFacts.cta_part.
  destruct (VariantFacts.has_video_script original);
    destruct (cta_alternatives original); reflexivity.
Qed.

(** ** The channels

    The states that the graph holds after each step, and what they
    share with the states that the handlers hand over. *)

Definition channels_after_media (input : ContentWorkflowState) :=
  step_of media
    (step_of creative
       (step_of research (write (set_errors [] input) input))).

Lemma channels_after_media_same (input : ContentWorkflowState) :
  same_but_errors (channels_after_media input) (after_media input).
Proof.
  unfold channels_after_media, after_media, after_creative, after_research.
  apply (step_same_but_errors media).
  apply (step_same_but_errors creative).
  apply (step_same_but_errors research).
  apply same_but_errors_set.
Qed.

Lemma ainvoke_from_media (input : ContentWorkflowState) :
  ainvoke research_webapp generate_content_package fl repr_content hour
          environ remote now input
  = step_of finalize
      (step_of ab_test (step_of optimize (channels_after_media input))).
Proof. apply ainvoke_steps. Qed.

(** An entry of the error list stays in it. *)
Lemma step_keeps_entry (n : Node) (c : ContentWorkflowState) (m : string) :
  In m (errors c) -> In m (errors (step_of n c)).
Proof. intros H. rewrite step_errors. apply in_or_app. left. exact H. Qed.

Lemma step_adds_entry (n : Node) (c : ContentWorkflowState) (m : string) :
  In m (errors (handler_of n c)) -> In m (errors (step_of n c)).
Proof. intros H. rewrite step_errors. apply in_or_app. right. exact H. Qed.

Lemma same_webapp_data (s s' : ContentWorkflowState) :
  same_but_errors s s' -> webapp_data s = webapp_data s'.
Proof. intros H. exact (f_equal webapp_data H). Qed.

Lemma same_optimized_content (s s' : ContentWorkflowState) :
  same_but_errors s s' -> optimized_content s = optimized_content s'.
Proof. intros H. exact (f_equal optimized_content H). Qed.

Lemma handed_over_optimized (input : ContentWorkflowState) :
  optimized_content
    (handed_over research_webapp generate_content_package fl repr_content
                 hour environ remote now input)
  = optimized_content (after_optimize input)
  /\ viral_scores
       (handed_over research_webapp generate_content_package fl repr_content
                    hour environ remote now input)
     = viral_scores (after_optimize input)
  /\ content_packages
       (handed_over research_webapp generate_content_package fl repr_content
                    hour environ remote now input)
     = content_packages (after_creative input)
  /\ cost_estimate
       (handed_over research_webapp generate_content_package fl repr_content
                    hour environ remote now input)
     = cost_estimate (after_media input).
Proof.
  rewrite handed_over_unfold.
  split; [reflexivity|]. split; [reflexivity|]. split.
  - change (content_packages (_finalize_node now (after_ab_test input)))
      with (content_packages (after_optimize input)).
    apply after_optimize_packages.
  - change (cost_estimate (_finalize_node now (after_ab_test input)))
      with (cost_estimate (after_optimize input)).
    unfold after_optimize. apply optimize_keeps.
Qed.

(** For a product without a name the optimizer raises for every draft:
    the run ends with no optimized content and no viral score, every
    platform still gets an item, built from the control variant "A" with
    the score 50 and no hashtag, and the error list holds an
    "Optimization failed" entry for every draft. *)
Theorem nameless_product_gets_unscored_items (input : ContentWorkflowState) :
  wa_name (webapp_data input) = None ->
  let final :=
    ainvoke research_webapp generate_content_package fl repr_content hour
            environ remote now input in
  optimized_content final = [] /\ viral_scores final = []
  /\ length (final_content final) = length (platforms input)
  /\ Forall (fun item =>
               Py.get "variant_id" item = Some (PStr "A")
               /\ Py.get "viral_score" item = Some (PInt 50)
               /\ Py.get "hashtags" item = Some (PList []))
            (final_content final)
  /\ forall platform package,
      In (platform, package) (content_packages final) ->
      exists msg,
        In ("Optimization failed for " ++ platform ++ ": " ++ msg)
           (errors final).
Proof.
  intros Hname final.
  assert (Hw : wa_name (webapp_data (after_media input)) = None)
    by (rewrite after_optimize_webapp; exact Hname).
  destruct (optimize_node_nameless (after_media input) Hw)
    as [Hopt [Hscores _]].
  fold (after_optimize input) in Hopt, Hscores.
  destruct (handed_over_optimized input) as [Ho [Hs [Hp _]]].
  pose proof (ainvoke_same_but_errors input) as Hsame. fold final in Hsame.
  split; [rewrite (same_optimized_content _ _ Hsame), Ho; exact Hopt|].
  split; [rewrite (same_viral_scores _ _ Hsame), Hs; exact Hscores|].
  assert (Hitems : final_content final
                   = map (fun platform =>
                            content_item now (after_ab_test input) platform
                                         (winner_of input platform))
                         (platforms input)) by apply ainvoke_items.
  split; [rewrite Hitems; apply length_map|].
  split.
  - rewrite Hitems. apply List.Forall_forall. intros item Hitem.
    apply in_map_iff in Hitem. destruct Hitem as [platform [<- _]].
    unfold winner_of. rewrite Hopt. cbn [Py.get].
    rewrite unscored_winner.
    repeat split; reflexivity.
  - intros platform package Hin.
    rewrite (same_content_packages _ _ Hsame), Hp in Hin.
    pose proof (channels_after_media_same input) as Hc.
    assert (Hcw : wa_name (webapp_data (channels_after_media input)) = None)
      by (rewrite (same_webapp_data _ _ Hc); exact Hw).
    destruct (optimize_node_nameless (channels_after_media input) Hcw)
      as [_ [_ Herrors]].
    destruct (Herrors platform package) as [msg Hmsg].
    { rewrite (same_content_packages _ _ Hc).
      destruct (media_keeps (after_creative input)) as [_ Hm].
      unfold after_media. rewrite Hm. exact Hin. }
    exists msg. subst final. rewrite ainvoke_from_media.
    apply step_keeps_entry, step_keeps_entry.
    apply (step_adds_entry optimize). exact Hmsg.
Qed.

(** ** A research that fails *)

(** The research results that [_research_node] falls back on. *)
Definition fallback_research (webapp_data : WebApp) : ResearchResults :=
  {| research_date := None;
     trending_topics := [];
     content_angles := _get_fallback_content_angles webapp_data;
     recommended_hashtags := [];
     res_trending_categories := [];
     res_trending_hashtags := [] |}.

Lemma research_node_fallback (s : ContentWorkflowState) (e : string) :
  research_webapp (webapp_data s) = Raised e ->
  research_results (_research_node research_webapp s)
  = fallback_research (webapp_data s)
  /\ errors (_research_node research_webapp s) = ["Research failed: " ++ e].
Proof.
  intros H. unfold _research_node. rewrite H. split; reflexivity.
Qed.

Lemma In_set {A : Type} (k k' : string) (v v' : A) (d : list (string * A)) :
  In (k, v) (Py.set k' v' d) -> (k = k' /\ v = v') \/ In (k, v) d.
Proof.
  induction d as [|[k0 v0] d IH]; cbn [Py.set].
  - intros [[= <- <-]|[]]. left. split; reflexivity.
  - destruct (String.eqb k' k0).
    + intros [[= <- <-]|H]; [left; split; reflexivity|right; right; exact H].
    + intros [H|H]; [right; left; exact H|].
      destruct (IH H) as [Heq|Hin]; [left; exact Heq|right; right; exact Hin].
Qed.

(** Every draft that the loop of [_creative_node] adds was returned by
    a call of the creative agent for its platform, with the research
    results and the product of the state. *)
Lemma creative_loop_sources (state : ContentWorkflowState)
      (todo : list string) :
  forall (call : nat) (drafts : list (string * ContentPackage))
         (errs : list string) (platform : string) (package : ContentPackage),
    In (platform, package)
       (fst (creative_loop generate_content_package state call todo
                           (drafts, errs))) ->
    In (platform, package) drafts
    \/ exists n : nat,
        (call <= n < call + length todo)%nat
        /\ generate_content_package n (research_results state)
                                    (webapp_data state) platform
           = Returned package.
Proof.
  induction todo as [|p rest IH]; intros call drafts errs platform package;
    cbn [creative_loop]; [intros H; left; exact H|].
  destruct (generate_content_package call _ _ p) as [made|e] eqn:Hcall;
    intros H; apply IH in H.
  - destruct H as [H|[n [Hn H]]].
    + apply In_set in H. destruct H as [[-> ->]|H]; [|left; exact H].
      right. exists call. split; [cbn [length]; lia|exact Hcall].
    + right. exists n. split; [cbn [length]; lia|exact H].
  - destruct H as [H|[n [Hn H]]]; [left; exact H|].
    right. exists n. split; [cbn [length]; lia|exact H].
Qed.

Lemma creative_node_sources (state : ContentWorkflowState)
      (platform : string) (package : ContentPackage) :
  In (platform, package)
     (content_packages (_creative_node generate_content_package state)) ->
  exists n : nat,
    (n < length (platforms state))%nat
    /\ generate_content_package n (research_results state)
                                (webapp_data state) platform
       = Returned package.
Proof.
  unfold _creative_node.
  pose proof (creative_loop_sources state (platforms state) 0 []
                                    (errors state) platform package) as H.
  destruct (creative_loop _ _ _ _ _) as [drafts errs]. cbn in *.
  intros Hin. destruct (H Hin) as [[]|[n [Hn Hcall]]].
  exists n. split; [lia|exact Hcall].
Qed.

Lemma research_keeps_webapp (s : ContentWorkflowState) :
  webapp_data (_research_node research_webapp s) = webapp_data s
  /\ platforms (_research_node research_webapp s) = platforms s.
Proof.
  unfold _research_node. destruct (research_webapp _); split; reflexivity.
Qed.

(** When the research agent raises, the run goes on with the fallback
    research results: the error list holds "Research failed: " and the
    message, every draft comes from a call of the creative agent with the
    fallback results, every platform gets an item, and the metadata of
    every item has no research date and no trending topic. *)
Theorem failed_research_falls_back (input : ContentWorkflowState) (e : string) :
  research_webapp (webapp_data input) = Raised e ->
  let final :=
    ainvoke research_webapp generate_content_package fl repr_content hour
            environ remote now input in
  research_results final = fallback_research (webapp_data input)
  /\ In ("Research failed: " ++ e) (errors final)
  /\ length (final_content final) = length (platforms input)
  /\ (forall platform package,
        In (platform, package) (content_packages final) ->
        exists n : nat,
          (n < length (platforms input))%nat
          /\ generate_content_package
               n (fallback_research (webapp_data input))
               (webapp_data input) platform
             = Returned package)
  /\ Forall (fun item =>
               Py.get "generation_metadata" item
               = Some (PDict [ ("research_date", PNone);
                               ("trending_topics", PList []);
                               ("cost_estimate",
                                PNum (cost_estimate final)) ]))
            (final_content final).
Proof.
  intros Hfail final.
  pose proof (ainvoke_same_but_errors input) as Hsame. fold final in Hsame.
  destruct (research_node_fallback input e Hfail) as [Hres _].
  fold (after_research input) in Hres.
  destruct (handed_over_optimized input) as [_ [_ [Hp Hcost]]].
  assert (Hitems : final_content final
                   = map (fun platform =>
                            content_item now (after_ab_test input) platform
                                         (winner_of input platform))
                         (platforms input)) by apply ainvoke_items.
  assert (Hr : research_results final = fallback_research (webapp_data input)).
  { rewrite (same_research_results _ _ Hsame), handed_over_research.
    exact Hres. }
  split; [exact Hr|]. split.
  - subst final. rewrite ainvoke_steps.
    do 5 apply step_keeps_entry.
    apply (step_adds_entry research).
    cbn [handler]. unfold _research_node.
    change (webapp_data (write (set_errors [] input) input))
      with (webapp_data input).
    rewrite Hfail. left. reflexivity.
  - split; [rewrite Hitems; apply length_map|]. split.
    + intros platform package Hin.
      rewrite (same_content_packages _ _ Hsame), Hp in Hin.
      unfold after_creative in Hin.
      apply creative_node_sources in Hin.
      destruct (research_keeps_webapp input) as [Hw Hps].
      fold (after_research input) in Hw, Hps.
      rewrite Hres, Hw, Hps in Hin. exact Hin.
    + rewrite Hitems. apply List.Forall_forall. intros item Hitem.
      apply in_map_iff in Hitem. destruct Hitem as [platform [<- _]].
      assert (Hab : research_results (after_ab_test input)
                    = fallback_research (webapp_data input)).
      { rewrite <- Hres. rewrite <- handed_over_research.
        rewrite handed_over_unfold. reflexivity. }
      assert (Hc : cost_estimate (after_ab_test input) = cost_estimate final).
      { rewrite (same_cost_estimate _ _ Hsame).
        rewrite handed_over_unfold. reflexivity. }
      unfold content_item. cbn [Py.get String.eqb Ascii.eqb Bool.eqb].
      rewrite Hab, Hc. reflexivity.
Qed.

(** ** The cost estimate *)

Lemma costs_nonneg (keys env : gmap string string) (name : string) :
  (0 <= MediaAgentV2.config_cost (MediaAgentV2.providers keys env) name)%Q
  /\ (0 <= MediaAgentV2.config_cost
             (MediaAgentV2.video_providers keys env) name)%Q
  /\ (0 <= MediaAgentV2.config_cost
             (MediaAgentV2.audio_providers keys env) name)%Q.
Proof.
  unfold MediaAgentV2.config_cost, MediaAgentV2.providers,
    MediaAgentV2.video_providers, MediaAgentV2.audio_providers.
  cbn [Py.get].
  repeat split;
    repeat match goal with
           | |- context [if ?b then _ else _] => destruct b
           end; cbn; unfold Qle; simpl; lia.
Qed.

Lemma estimate_nonneg (keys env : gmap string string)
      (package : ContentPackage) :
  (0 <= MediaAgentV2.cost_total
          (MediaAgentV2.estimate_cost keys env package))%Q.
Proof.
  unfold MediaAgentV2.estimate_cost. cbn [MediaAgentV2.cost_total].
  generalize (get_content package). intros content.
  match goal with
  | |- (0 <= ?i + ?v + ?a)%Q =>
      cut ((0 <= i)%Q /\ (0 <= v)%Q /\ (0 <= a)%Q);
        [generalize i, v, a; intros x y z [Hx [Hy Hz]]; lra|]
  end.
  split; [|split].
  - destruct (Py.has _); [|apply Qle_refl].
    destruct (PySort.min _ _); [apply costs_nonneg|apply Qle_refl].
  - destruct (Py.has _); [|apply Qle_refl].
    destruct (PySort.min _ _); [apply costs_nonneg|apply Qle_refl].
  - destruct (video_script content) as [script|]; [|apply Qle_refl].
    destruct (MediaAgentV2._get_available_providers _ _ _ _)
      as [|cheapest others]; [apply Qle_refl|].
    destruct (Py.str_truthy _); [|apply Qle_refl].
    apply Qmult_le_0_compat; [|apply costs_nonneg].
    unfold Qle. simpl. lia.
Qed.

Lemma estimate_without_credentials (package : ContentPackage) :
  MediaAgentV2.cost_total (MediaAgentV2.estimate_cost ∅ ∅ package) = 0%Q.
Proof.
  unfold MediaAgentV2.estimate_cost. cbn [MediaAgentV2.cost_total].
  rewrite !MediaFacts.no_credentials_list_nothing.
  cbn [PySort.min].
  destruct (Py.has (image_prompts _)), (Py.has (video_script _)),
    (video_script _); reflexivity.
Qed.

(** The total that the loop of [_media_node] adds up. *)
Lemma media_loop_total (keys env : gmap string string) (plan : string)
      (drafts : list (string * ContentPackage)) :
  forall (media : list (string * list (string * MediaAgentV2.MediaAsset)))
         (total : Q),
    snd (fold_left
           (fun '(media, total_cost) '(platform, package) =>
              (Py.set platform
                 (MediaAgentV2.generate_content_media
                    keys plan env remote now package platform) media,
               (total_cost
                + MediaAgentV2.cost_total
                    (MediaAgentV2.estimate_cost keys env package))%Q))
           drafts (media, total))
    = fold_left
        (fun total_cost '(platform, package) =>
           (total_cost
            + MediaAgentV2.cost_total
                (MediaAgentV2.estimate_cost keys env package))%Q)
        drafts total.
Proof.
  induction drafts as [|[platform package] drafts IH]; intros media total;
    [reflexivity|].
  cbn [fold_left]. apply IH.
Qed.

Lemma media_node_estimate (s : ContentWorkflowState) :
  cost_estimate (_media_node environ remote now s)
  = fold_left
      (fun total_cost '(platform, package) =>
         (total_cost
          + MediaAgentV2.cost_total
              (MediaAgentV2.estimate_cost (user_api_keys s) environ
                                          package))%Q)
      (content_packages s) 0%Q.
Proof.
  unfold _media_node.
  rewrite <- (media_loop_total (user_api_keys s) environ (user_plan s)
                               (content_packages s) [] 0%Q).
  destruct (fold_left _ _ _). reflexivity.
Qed.

Lemma total_nonneg (keys env : gmap string string)
      (drafts : list (string * ContentPackage)) :
  forall total : Q,
    (0 <= total)%Q ->
    (0 <= fold_left
            (fun total_cost '(platform, package) =>
               (total_cost
                + MediaAgentV2.cost_total
                    (MediaAgentV2.estimate_cost keys env package))%Q)
            drafts total)%Q.
Proof.
  induction drafts as [|[platform package] drafts IH]; intros total Htotal;
    [exact Htotal|].
  cbn [fold_left]. apply IH.
  pose proof (estimate_nonneg keys env package). lra.
Qed.

Lemma total_without_credentials (drafts : list (string * ContentPackage)) :
  fold_left
    (fun total_cost '(platform, package) =>
       (total_cost
        + MediaAgentV2.cost_total
            (MediaAgentV2.estimate_cost ∅ ∅ package))%Q)
    drafts 0%Q
  = 0%Q.
Proof.
  induction drafts as [|[platform package] drafts IH]; [reflexivity|].
  cbn [fold_left]. rewrite estimate_without_credentials. exact IH.
Qed.

Lemma after_creative_keys (input : ContentWorkflowState) :
  user_api_keys (after_creative input) = user_api_keys input
  /\ actual_cost (after_creative input) = actual_cost input.
Proof.
  unfold after_creative, after_research.
  pose proof (handler_fixed creative (_research_node research_webapp input))
    as Hc.
  pose proof (handler_fixed research input) as Hr.
  cbn [handler] in Hc, Hr. unfold fixed_fields in Hc, Hr.
  split; congruence.
Qed.

(** The cost estimate of a run is never negative and is 0 when there is
    no credential; every item reports it in its metadata; the actual
    cost of the state is never written. *)
Theorem cost_estimate_is_an_estimate_only (input : ContentWorkflowState) :
  let final :=
    ainvoke research_webapp generate_content_package fl repr_content hour
            environ remote now input in
  (0 <= cost_estimate final)%Q
  /\ actual_cost final = actual_cost input
  /\ Forall (fun item =>
               exists metadata,
                 Py.get "generation_metadata" item = Some (PDict metadata)
                 /\ Py.get "cost_estimate" metadata
                    = Some (PNum (cost_estimate final)))
            (final_content final)
  /\ (user_api_keys input = ∅ -> environ = ∅ -> cost_estimate final = 0%Q).
Proof.
  intros final.
  pose proof (ainvoke_same_but_errors input) as Hsame. fold final in Hsame.
  destruct (handed_over_optimized input) as [_ [_ [_ Hcost]]].
  destruct (after_creative_keys input) as [Hkeys Hact].
  assert (Hest : cost_estimate final
                 = fold_left
                     (fun total_cost '(platform, package) =>
                        (total_cost
                         + MediaAgentV2.cost_total
                             (MediaAgentV2.estimate_cost
                                (user_api_keys input) environ package))%Q)
                     (content_packages (after_creative input)) 0%Q).
  { rewrite (same_cost_estimate _ _ Hsame), Hcost.
    unfold after_media. rewrite media_node_estimate, Hkeys. reflexivity. }
  split; [rewrite Hest; apply total_nonneg; apply Qle_refl|].
  split.
  { rewrite (same_actual_cost _ _ Hsame), handed_over_unfold.
    pose proof (handler_fixed finalize (after_ab_test input)) as Hf.
    pose proof (after_ab_test_fixed input) as Hab.
    cbn [handler] in Hf. unfold fixed_fields in Hf, Hab. congruence. }
  split.
  - assert (Hitems : final_content final
                     = map (fun platform =>
                              content_item now (after_ab_test input) platform
                                           (winner_of input platform))
                           (platforms input)) by apply ainvoke_items.
    rewrite Hitems. apply List.Forall_forall. intros item Hitem.
    apply in_map_iff in Hitem. destruct Hitem as [platform [<- _]].
    assert (Hc : cost_estimate (after_ab_test input) = cost_estimate final).
    { rewrite (same_cost_estimate _ _ Hsame).
      rewrite handed_over_unfold. reflexivity. }
    unfold content_item. cbn [Py.get String.eqb Ascii.eqb Bool.eqb].
    eexists. split; [reflexivity|].
    cbn [Py.get String.eqb Ascii.eqb Bool.eqb]. rewrite Hc. reflexivity.
  - intros Hnone Henv. rewrite Hest, Hnone, Henv.
    apply total_without_credentials.
Qed.

(** ** What an item takes from the draft and from the optimizer *)

(** The caption text of a draft, [""] without a draft or a caption. *)
Definition draft_caption (original_content : option ContentPackage)
  : string :=
  match original_content with
  | Some p =>
      match caption (get_content p) with
      | Some c => OptimizerAgent.caption_text c
      | None => ""
      end
  | None => ""
  end.

(** The hashtags that the optimizer chose, none without its result. *)
Definition chosen_hashtags
           (optimized_content : option OptimizerAgent.OptimizedContent)
  : list string :=
  match optimized_content with
  | Some o => OptimizerAgent.opt_hashtags o
  | None => []
  end.

Lemma control_fields (original_content : option ContentPackage)
      (optimized_content : option OptimizerAgent.OptimizedContent) :
  v_caption (variant_a original_content optimized_content)
  = draft_caption original_content
  /\ v_hashtags (variant_a original_content optimized_content)
     = chosen_hashtags optimized_content
  /\ v_confidence (variant_a original_content optimized_content)
     = (8 # 10)%Q.
Proof.
  destruct original_content, optimized_content; repeat split; reflexivity.
Qed.

Lemma winner_fields (platform : string)
      (original_content : option ContentPackage)
      (optimized_content : option OptimizerAgent.OptimizedContent) :
  let winner :=
    match PySort.max v_viral_score
                     (_generate_ab_variants platform original_content
                                            optimized_content) with
    | Some best => best
    | None => variant_a None None
    end in
  v_caption winner = draft_caption original_content
  /\ v_hashtags winner = chosen_hashtags optimized_content
  /\ v_confidence winner = (8 # 10)%Q.
Proof.
  intros winner. subst winner.
  destruct (VariantFacts.winner_choice platform original_content
                                       optimized_content)
    as [Hmax|[hook Hmax]]; cbv zeta in Hmax; rewrite Hmax.
  - apply control_fields.
  - cbn [variant_b v_caption v_hashtags v_confidence].
    apply control_fields.
Qed.

(** The caption of every item is the caption text of the draft of its
    platform, as the creative agent wrote it, and the empty string
    without a draft: what [_optimize_caption] and [_add_emojis] return
    reaches no item.  The hashtags are those that the optimizer chose,
    none when it raised; the confidence is 0.8. *)
Theorem finalized_items_carry_the_draft_caption
        (input : ContentWorkflowState) :
  let final :=
    ainvoke research_webapp generate_content_package fl repr_content hour
            environ remote now input in
  map (fun item =>
         (Py.get "platform" item, Py.get "caption" item,
          Py.get "hashtags" item, Py.get "confidence_score" item))
      (final_content final)
  = map (fun platform =>
           (Some (PStr platform),
            Some (PStr (draft_caption
                          (Py.get platform (content_packages final)))),
            Some (PList (map PStr
                             (chosen_hashtags
                                (Py.get platform
                                        (optimized_content final))))),
            Some (PNum (8 # 10))))
        (platforms input).
Proof.
  intros final.
  pose proof (ainvoke_same_but_errors input) as Hsame. fold final in Hsame.
  destruct (handed_over_optimized input) as [Ho [_ [Hp _]]].
  assert (Hpackages : content_packages final
                      = content_packages (after_optimize input))
    by (rewrite (same_content_packages _ _ Hsame), Hp;
        symmetry; apply after_optimize_packages).
  assert (Hoptimized : optimized_content final
                       = optimized_content (after_optimize input))
    by (rewrite (same_optimized_content _ _ Hsame); exact Ho).
  assert (Hitems : final_content final
                   = map (fun platform =>
                            content_item now (after_ab_test input) platform
                                         (winner_of input platform))
                         (platforms input)) by apply ainvoke_items.
  rewrite Hitems, map_map, Hpackages, Hoptimized.
  apply map_ext. intros platform.
  destruct (winner_fields
              platform
              (Py.get platform (content_packages (after_optimize input)))
              (Py.get platform (optimized_content (after_optimize input))))
    as [Hcaption [Hhashtags Hconfidence]].
  unfold content_item. cbn [Py.get String.eqb Ascii.eqb Bool.eqb].
  unfold winner_of. rewrite Hcaption, Hhashtags, Hconfidence. reflexivity.
Qed.

(** ** The media of an item *)

(** The locators of the assets that have one, in the order of the
    assets. *)
Definition asset_urls (assets : list (string * MediaAgentV2.MediaAsset))
  : list string :=
  flat_map (fun '(asset_type, asset) =>
              match MediaAgentV2.url asset with
              | Some u => if Py.str_truthy u then [u] else []
              | None => []
              end)
           assets.

Lemma get_absent {A : Type} (k : string) (d : list (string * A)) :
  ~ In k (map fst d) -> Py.get k d = None.
Proof.
  induction d as [|[k' v] d IH]; intros Hout; [reflexivity|].
  cbn [Py.get]. destruct (String.eqb k k') eqn:Hk.
  - apply String.eqb_eq in Hk. exfalso. apply Hout. left. symmetry. exact Hk.
  - apply IH. intros Hin. apply Hout. right. exact Hin.
Qed.

Lemma set_keys {A : Type} (k : string) (v : A) (d : list (string * A))
      (k' : string) :
  In k' (map fst (Py.set k v d)) <-> k' = k \/ In k' (map fst d).
Proof.
  induction d as [|[k0 v0] d IH]; cbn [Py.set map fst In].
  - intuition.
  - destruct (String.eqb k k0) eqn:Hk; cbn [map fst In].
    + apply String.eqb_eq in Hk. subst k0. intuition.
    + rewrite IH. intuition.
Qed.

Lemma set_keeps_distinct {A : Type} (k : string) (v : A)
      (d : list (string * A)) :
  NoDup (map fst d) -> NoDup (map fst (Py.set k v d)).
Proof.
  induction d as [|[k0 v0] d IH]; intros Hd; cbn [Py.set map fst].
  - apply NoDup_singleton.
  - cbn [map fst] in Hd. apply NoDup_cons in Hd.
    destruct Hd as [Hout Hd]. rewrite list_elem_of_In in Hout.
    destruct (String.eqb k k0) eqn:Hk; cbn [map fst].
    + apply String.eqb_eq in Hk. subst k0.
      apply NoDup_cons. rewrite list_elem_of_In. split; assumption.
    + apply String.eqb_neq in Hk.
      apply NoDup_cons. split; [|exact (IH Hd)].
      rewrite list_elem_of_In, set_keys.
      intros [Heq|Hin]; [apply Hk; symmetry; exact Heq|exact (Hout Hin)].
Qed.

(** The drafts of [_creative_node] have distinct platforms. *)
Lemma creative_loop_distinct (state : ContentWorkflowState)
      (todo : list string) :
  forall (call : nat) (drafts : list (string * ContentPackage))
         (errs : list string),
    NoDup (map fst drafts) ->
    NoDup (map fst (fst (creative_loop generate_content_package state call
                                       todo (drafts, errs)))).
Proof.
  induction todo as [|platform rest IH]; intros call drafts errs Hd;
    cbn [creative_loop]; [exact Hd|].
  destruct (generate_content_package call _ _ platform);
    apply IH; [apply set_keeps_distinct|]; exact Hd.
Qed.

Lemma creative_node_distinct (state : ContentWorkflowState) :
  NoDup (map fst (content_packages
                    (_creative_node generate_content_package state))).
Proof.
  destruct (creative_node_result generate_content_package state) as [-> _].
  apply creative_loop_distinct. constructor.
Qed.

(** The assets that the loop of [_media_node] stores for a platform. *)
Lemma media_loop_assets (keys : gmap string string) (plan : string)
      (platform : string) (drafts : list (string * ContentPackage)) :
  NoDup (map fst drafts) ->
  forall (media : list (string * list (string * MediaAgentV2.MediaAsset)))
         (total : Q),
    Py.get platform
      (fst (fold_left
              (fun '(media, total_cost) '(platform, package) =>
                 (Py.set platform
                    (MediaAgentV2.generate_content_media
                       keys plan environ remote now package platform) media,
                  (total_cost
                   + MediaAgentV2.cost_total
                       (MediaAgentV2.estimate_cost keys environ package))%Q))
              drafts (media, total)))
    = match Py.get platform drafts with
      | Some package =>
          Some (MediaAgentV2.generate_content_media
                  keys plan environ remote now package platform)
      | None => Py.get platform media
      end.
Proof.
  induction drafts as [|[k package] drafts IH]; intros Hd media total;
    [reflexivity|].
  cbn [map fst] in Hd. apply NoDup_cons in Hd.
  destruct Hd as [Hout Hd]. rewrite list_elem_of_In in Hout.
  cbn [fold_left Py.get]. rewrite (IH Hd).
  destruct (String.eqb platform k) eqn:Hk.
  - apply String.eqb_eq in Hk. subst k.
    rewrite (get_absent platform drafts Hout). apply get_set_eq.
  - apply String.eqb_neq in Hk.
    destruct (Py.get platform drafts); [reflexivity|].
    apply get_set_ne. exact Hk.
Qed.

Lemma media_node_assets (s : ContentWorkflowState) (platform : string) :
  NoDup (map fst (content_packages s)) ->
  Py.get platform (media_assets (_media_node environ remote now s))
  = match Py.get platform (content_packages s) with
    | Some package =>
        Some (MediaAgentV2.generate_content_media
                (user_api_keys s) (user_plan s) environ remote now
                package platform)
    | None => None
    end.
Proof.
  intros Hd. unfold _media_node.
  pose proof (media_loop_assets (user_api_keys s) (user_plan s) platform
                                (content_packages s) Hd [] 0%Q) as H.
  destruct (fold_left _ _ _) as [media total]. exact H.
Qed.

Lemma after_creative_plan (input : ContentWorkflowState) :
  user_plan (after_creative input) = user_plan input.
Proof.
  unfold after_creative, after_research.
  pose proof (handler_fixed creative (_research_node research_webapp input))
    as Hc.
  pose proof (handler_fixed research input) as Hr.
  cbn [handler] in Hc, Hr. unfold fixed_fields in Hc, Hr. congruence.
Qed.

(** The media URLs of every item are the locators of the assets that
    [generate_content_media] returns for the draft of its platform, in
    the order of the assets, without the assets that have none; an item
    without a draft has no media URL. *)
Theorem finalized_items_list_the_media_of_their_draft
        (input : ContentWorkflowState) :
  let final :=
    ainvoke research_webapp generate_content_package fl repr_content hour
            environ remote now input in
  map (fun item => (Py.get "platform" item, Py.get "media_urls" item))
      (final_content final)
  = map (fun platform =>
           (Some (PStr platform),
            Some (PList
                    (map PStr
                         (asset_urls
                            match Py.get platform (content_packages final)
                            with
                            | Some package =>
                                MediaAgentV2.generate_content_media
                                  (user_api_keys input) (user_plan input)
                                  environ remote now package platform
                            | None => []
                            end)))))
        (platforms input).
Proof.
  intros final.
  pose proof (ainvoke_same_but_errors input) as Hsame. fold final in Hsame.
  destruct (handed_over_optimized input) as [_ [_ [Hp _]]].
  assert (Hpackages : content_packages final
                      = content_packages (after_creative input))
    by (rewrite (same_content_packages _ _ Hsame); exact Hp).
  assert (Hitems : final_content final
                   = map (fun platform =>
                            content_item now (after_ab_test input) platform
                                         (winner_of input platform))
                         (platforms input)) by apply ainvoke_items.
  assert (Hmedia : media_assets (after_ab_test input)
                   = media_assets (after_media input)).
  { change (media_assets (after_ab_test input))
      with (media_assets (after_optimize input)).
    unfold after_optimize. apply optimize_keeps. }
  destruct (after_creative_keys input) as [Hkeys _].
  pose proof (after_creative_plan input) as Hplan.
  rewrite Hitems, map_map, Hpackages.
  apply map_ext. intros platform.
  unfold content_item. cbn [Py.get String.eqb Ascii.eqb Bool.eqb].
  unfold _extract_media_urls. rewrite Hmedia.
  unfold after_media at 1.
  rewrite (media_node_assets (after_creative input) platform
                             (creative_node_distinct (after_research input))).
  rewrite Hkeys, Hplan.
  destruct (Py.get platform (content_packages (after_creative input)));
    reflexivity.
Qed.

(** ** The hook variant *)

(** The first hooks of the table [viral_hooks]. *)
Definition first_hooks : list string :=
  [ "Wait until you see this...";
    "POV: You finally found the answer";
    "Save this for later!";
    "Hot take:";
    "I made a $X mistake so you don't have to" ].

(** [_generate_hook_variations] always gives a first hook, one of the
    five above: none of them holds the placeholder that is replaced. *)
Lemma hook_variations_head (platform : string) (webapp_data : WebApp) :
  exists hook rest,
    OptimizerAgent._generate_hook_variations platform webapp_data
    = hook :: rest
    /\ In hook first_hooks.
Proof.
  unfold OptimizerAgent._generate_hook_variations.
  generalize (PyStr.lower
                match wa_category webapp_data with
                | Some c => c
                | None => "SaaS"
                end).
  intros category.
  generalize (PyStr.split_head "_" platform). intros key.
  unfold OptimizerAgent.viral_hooks. cbn [Py.get].
  repeat match goal with
         | |- context [if String.eqb key ?k then _ else _] =>
             destruct (String.eqb key k)
         end;
    cbn [firstn map]; eexists; eexists;
    (split; [reflexivity|]); vm_compute; tauto.
Qed.

Lemma optimize_content_result (cats tags : list string)
      (package : ContentPackage) (platform : string) (webapp_data : WebApp)
      (o : OptimizerAgent.OptimizedContent) :
  OptimizerAgent.optimize_content fl repr_content cats tags hour package
                                  platform webapp_data
  = Returned o ->
  OptimizerAgent.opt_hook_variations o
  = OptimizerAgent._generate_hook_variations platform webapp_data
  /\ OptimizerAgent._calculate_viral_score fl repr_content cats hour
                                           package platform webapp_data
     = Returned (OptimizerAgent.opt_viral_score o).
Proof.
  unfold OptimizerAgent.optimize_content.
  destruct (match caption (get_content package) with
            | Some c =>
                match cap_text c with
                | Some _ => Returned tt
                | None => Raised "'text'"
                end
            | None => Returned tt
            end); [|discriminate].
  destruct (OptimizerAgent._calculate_viral_score _ _ _ _ _ _ _);
    [|discriminate].
  intros [= <-]. split; reflexivity.
Qed.

(** What the loop of [_optimize_node] has stored: a result that the
    optimizer returned for a draft of the platform, and its score. *)
Definition stored (cats tags : list string) (webapp_data : WebApp)
           (drafts : list (string * ContentPackage))
           (optimized : list (string * OptimizerAgent.OptimizedContent))
           (scores : list (string * OptimizerAgent.ViralScoreResult))
  : Prop :=
  forall platform o,
    Py.get platform optimized = Some o ->
    (exists package,
        In (platform, package) drafts
        /\ OptimizerAgent.optimize_content fl repr_content cats tags hour
                                           package platform webapp_data
           = Returned o)
    /\ Py.get platform scores = Some (OptimizerAgent.opt_viral_score o).

Lemma optimize_loop_stored (cats tags : list string) (webapp_data : WebApp)
      (drafts : list (string * ContentPackage)) :
  forall done optimized scores errs,
    stored cats tags webapp_data done optimized scores ->
    stored cats tags webapp_data (done ++ drafts)
      (fst (fst (fold_left
                   (fun '(optimized, scores, errs) '(platform, package) =>
                      match OptimizerAgent.optimize_content
                              fl repr_content cats tags hour package platform
                              webapp_data with
                      | Returned o =>
                          (Py.set platform o optimized,
                           Py.set platform
                                  (OptimizerAgent.opt_viral_score o) scores,
                           errs)
                      | Raised e =>
                          (optimized, scores,
                           add_error errs
                             ("Optimization failed for " ++ platform ++ ": "
                                ++ e))
                      end)
                   drafts (optimized, scores, errs))))
      (snd (fst (fold_left
                   (fun '(optimized, scores, errs) '(platform, package) =>
                      match OptimizerAgent.optimize_content
                              fl repr_content cats tags hour package platform
                              webapp_data with
                      | Returned o =>
                          (Py.set platform o optimized,
                           Py.set platform
                                  (OptimizerAgent.opt_viral_score o) scores,
                           errs)
                      | Raised e =>
                          (optimized, scores,
                           add_error errs
                             ("Optimization failed for " ++ platform ++ ": "
                                ++ e))
                      end)
                   drafts (optimized, scores, errs)))).
Proof.
  induction drafts as [|[platform package] drafts IH];
    intros done optimized scores errs Hstored.
  - rewrite List.app_nil_r. exact Hstored.
  - cbn [fold_left].
    replace (done ++ (platform, package) :: drafts)%list
      with ((done ++ [(platform, package)]) ++ drafts)%list
      by (rewrite <- List.app_assoc; reflexivity).
    destruct (OptimizerAgent.optimize_content _ _ _ _ _ package platform _)
      as [o|e] eqn:Ho; apply IH; intros p o' Hget.
    + destruct (String.eqb p platform) eqn:Hp.
      * apply String.eqb_eq in Hp. subst p.
        rewrite get_set_eq in Hget. injection Hget as <-.
        split; [|apply get_set_eq].
        exists package. split; [|exact Ho].
        apply in_or_app. right. left. reflexivity.
      * apply String.eqb_neq in Hp.
        rewrite (get_set_ne _ _ _ _ Hp) in Hget.
        destruct (Hstored p o' Hget) as [[pkg [Hin Hopt]] Hscore].
        split; [|rewrite (get_set_ne _ _ _ _ Hp); exact Hscore].
        exists pkg. split; [|exact Hopt]. apply in_or_app. left. exact Hin.
    + destruct (Hstored p o' Hget) as [[pkg [Hin Hopt]] Hscore].
      split; [|exact Hscore].
      exists pkg. split; [|exact Hopt]. apply in_or_app. left. exact Hin.
Qed.

Lemma optimize_node_stored (s : ContentWorkflowState) :
  stored (res_trending_categories (research_results s))
         (res_trending_hashtags (research_results s))
         (webapp_data s) (content_packages s)
         (optimized_content (_optimize_node fl repr_content hour s))
         (viral_scores (_optimize_node fl repr_content hour s)).
Proof.
  pose proof (optimize_loop_stored
                (res_trending_categories (research_results s))
                (res_trending_hashtags (research_results s))
                (webapp_data s) (content_packages s) [] [] [] (errors s))
    as H.
  unfold _optimize_node.
  destruct (fold_left _ _ _) as [[optimized scores] errs].
  apply H. intros p o Hget. discriminate.
Qed.

(** For a platform whose draft has a video script and was optimized,
    under a rounding of the float operations within one millionth: the
    item of the platform is the hook variant "B", its title is the first
    hook variation of the platform, one of five fixed sentences, and its
    viral score is the overall score plus 5, while the viral scores of
    the run report the overall score, which is at most 93. *)
Theorem video_items_take_the_first_hook (input : ContentWorkflowState) :
  ScoringFacts.rounds fl ->
  let final :=
    ainvoke research_webapp generate_content_package fl repr_content hour
            environ remote now input in
  forall (platform : string) (package : ContentPackage)
         (o : OptimizerAgent.OptimizedContent),
    Py.get platform (content_packages final) = Some package ->
    Py.has (video_script (get_content package)) = true ->
    Py.get platform (optimized_content final) = Some o ->
    exists hook,
      hd_error (OptimizerAgent._generate_hook_variations
                  platform (webapp_data input))
      = Some hook
      /\ In hook first_hooks
      /\ Py.get platform (viral_scores final)
         = Some (OptimizerAgent.opt_viral_score o)
      /\ OptimizerAgent.overall (OptimizerAgent.opt_viral_score o) <= 93
      /\ Forall (fun item =>
                   Py.get "platform" item = Some (PStr platform) ->
                   Py.get "variant_id" item = Some (PStr "B")
                   /\ Py.get "title" item = Some (PStr hook)
                   /\ Py.get "viral_score" item
                      = Some (PInt (OptimizerAgent.overall
                                      (OptimizerAgent.opt_viral_score o)
                                    + 5)))
                (final_content final).
Proof.
  intros Hfl final platform package o Hpackage Hscript Hoptimized.
  pose proof (ainvoke_same_but_errors input) as Hsame. fold final in Hsame.
  destruct (handed_over_optimized input) as [Ho [Hs [Hp _]]].
  assert (Hpackages : content_packages final
                      = content_packages (after_optimize input))
    by (rewrite (same_content_packages _ _ Hsame), Hp;
        symmetry; apply after_optimize_packages).
  assert (Hopt : optimized_content final
                 = optimized_content (after_optimize input))
    by (rewrite (same_optimized_content _ _ Hsame); exact Ho).
  assert (Hscores : viral_scores final = viral_scores (after_optimize input))
    by (rewrite (same_viral_scores _ _ Hsame); exact Hs).
  rewrite Hpackages in Hpackage. rewrite Hopt in Hoptimized.
  destruct (optimize_node_stored (after_media input) platform o Hoptimized)
    as [[package' [Hin Hreturned]] Hscore].
  rewrite after_optimize_webapp in Hreturned.
  destruct (optimize_content_result _ _ _ _ _ _ Hreturned) as [Hhooks Hcalc].
  destruct (ReportFacts.calculated_scores _ _ _ _ _ _ _ _ Hfl Hcalc)
    as [_ [[_ Hoverall] _]].
  destruct (hook_variations_head platform (webapp_data input))
    as [hook [rest [Hhead Hfirst]]].
  exists hook.
  split; [rewrite Hhead; reflexivity|].
  split; [exact Hfirst|].
  split; [rewrite Hscores; exact Hscore|].
  split; [exact Hoverall|].
  assert (Hitems : final_content final
                   = map (fun platform =>
                            content_item now (after_ab_test input) platform
                                         (winner_of input platform))
                         (platforms input)) by apply ainvoke_items.
  rewrite Hitems. apply List.Forall_forall. intros item Hitem.
  apply in_map_iff in Hitem. destruct Hitem as [p [<- _]].
  unfold content_item at 1. cbn [Py.get String.eqb Ascii.eqb Bool.eqb].
  intros [= ->].
  assert (Hwinner : winner_of input platform
                    = variant_b (variant_a (Some package) (Some o)) hook).
  { unfold winner_of. rewrite Hpackage, Hoptimized.
    rewrite (VariantFacts.hook_variant_wins
               platform (Some package) (Some o) hook rest);
      [reflexivity|exact Hscript| |cbn [variant_a v_viral_score]; lia].
    cbn [VariantFacts.hooks_of]. rewrite Hhooks. exact Hhead. }
  unfold content_item. cbn [Py.get String.eqb Ascii.eqb Bool.eqb].
  rewrite Hwinner. cbn [variant_b variant_a variant_id v_title v_viral_score].
  rewrite Z.min_r by lia. repeat split; reflexivity.
Qed.

End Orchestrator.

(** The state that [run] starts the graph from. *)
Definition initial_state (user_id webapp_id : string) (webapp_data : WebApp)
           (platforms : list string) (user_api_keys : gmap string string)
           (user_plan : string) : ContentWorkflowState :=
  {| user_id := user_id; webapp_id := webapp_id;
     webapp_data := webapp_data; user_api_keys := user_api_keys;
     user_plan := user_plan; platforms := platforms;
     research_results := empty_research; content_packages := [];
     media_assets := []; optimized_content := []; viral_scores := [];
     ab_test_variants := []; final_content := [];
     current_stage := RESEARCH; errors := [];
     cost_estimate := 0; actual_cost := 0 |}.

(** The items that [run] returns: for every entry of the platform list,
    the item of the winner among the platform's variants. *)
Lemma run_content
      (research_webapp : WebApp -> call_result ResearchResults)
      (generate_content_package :
         nat -> ResearchResults -> WebApp -> string ->
         call_result ContentPackage)
      (fl : Q -> Q) (repr_content : Content -> string) (hour : Z)
      (environ : gmap string string)
      (remote : string -> string -> call_result string) (now : string)
      (user_id webapp_id : string) (webapp_data : WebApp)
      (platforms : list string) (user_api_keys : gmap string string)
      (user_plan : string) :
  let input :=
    initial_state user_id webapp_id webapp_data platforms user_api_keys
                  user_plan in
  content (run research_webapp generate_content_package fl repr_content hour
               environ remote now
               user_id webapp_id webapp_data platforms user_api_keys
               user_plan)
  = map (fun platform =>
           content_item
             now
             (after_ab_test research_webapp generate_content_package fl
                            repr_content hour environ remote now input)
             platform
             (winner_of research_webapp generate_content_package fl
                        repr_content hour environ remote now input platform))
        platforms.
Proof.
  intros input. unfold run. cbn [content].
  fold (initial_state user_id webapp_id webapp_data platforms user_api_keys
                      user_plan).
  fold input. rewrite ainvoke_items. reflexivity.
Qed.

(** The items that [run] returns follow the platform list, entry by
    entry: the item at a position has the platform at that position, the
    content type of that platform, the user and product of the run, and
    the id "content_", the platform, "_" and the clock's value. *)
Theorem finalized_items_follow_the_platform_list :
  forall (research_webapp : WebApp -> call_result ResearchResults)
         (generate_content_package :
            nat -> ResearchResults -> WebApp -> string ->
            call_result ContentPackage)
         (fl : Q -> Q) (repr_content : Content -> string) (hour : Z)
         (environ : gmap string string)
         (remote : string -> string -> call_result string) (now : string)
         (user_id webapp_id : string) (webapp_data : WebApp)
         (platforms : list string) (user_api_keys : gmap string string)
         (user_plan : string),
    let result :=
      run research_webapp generate_content_package fl repr_content hour
          environ remote now
          user_id webapp_id webapp_data platforms user_api_keys user_plan in
    map (fun item =>
           (Py.get "platform" item, Py.get "type" item,
            Py.get "user_id" item, Py.get "webapp_id" item,
            Py.get "id" item))
        (content result)
    = map (fun platform =>
             (Some (PStr platform),
              Some (PStr (_determine_content_type platform)),
              Some (PStr user_id), Some (PStr webapp_id),
              Some (PStr ("content_" ++ platform ++ "_" ++ now))))
          platforms.
Proof.
  intros research_webapp generate_content_package fl repr_content hour
         environ remote now uid wid w ps keys plan result.
  subst result. unfold run. cbn [content].
  fold (initial_state uid wid w ps keys plan).
  rewrite ainvoke_items. cbn [NightlyWorkflowV2.platforms initial_state].
  rewrite map_map. apply map_ext. intros platform.
  destruct (after_ab_test_owner research_webapp generate_content_package
              fl repr_content hour environ remote now
              (initial_state uid wid w ps keys plan)) as [Huid Hwid].
  unfold content_item. cbn [Py.get String.eqb Ascii.eqb Bool.eqb].
  rewrite Huid, Hwid. reflexivity.
Qed.

(** A product without a name, and a research that is down. *)
Definition nameless : WebApp :=
  {| wa_id := Some "w2"; wa_name := None; wa_category := Some "SaaS" |}.

Definition research_down (w : WebApp) : call_result ResearchResults :=
  Raised "trend service unavailable".

Definition creative_from_angles (call : nat) (research : ResearchResults)
           (w : WebApp) (platform : string) : call_result ContentPackage :=
  match content_angles research with
  | [] => Raised "no content angle"
  | _ :: _ =>
      Returned (if String.eqb platform "tiktok" then Samples.tiktok_draft
                else Samples.twitter_draft)
  end.

Definition nameless_final : ContentWorkflowState :=
  ainvoke Samples.research_ok Samples.creative_youtube_down Samples.exact
          Samples.no_repr 12 ∅ Samples.offline "1.5"
          (initial_state "u1" "w2" nameless ["youtube"; "twitter"] ∅ "free").

Definition research_down_final : ContentWorkflowState :=
  ainvoke research_down creative_from_angles Samples.exact
          Samples.no_repr 12 ∅ Samples.offline "1.5"
          (initial_state "u1" "w1" Samples.flowly ["tiktok"; "twitter"] ∅
                         "free").

Lemma nameless_product_witness :
  optimized_content nameless_final = [] /\ viral_scores nameless_final = []
  /\ length (final_content nameless_final) = 2%nat
  /\ Forall (fun item =>
               Py.get "variant_id" item = Some (PStr "A")
               /\ Py.get "viral_score" item = Some (PInt 50)
               /\ Py.get "hashtags" item = Some (PList []))
            (final_content nameless_final)
  /\ forall platform package,
      In (platform, package) (content_packages nameless_final) ->
      exists msg,
        In ("Optimization failed for " ++ platform ++ ": " ++ msg)
           (errors nameless_final).
Proof.
  exact (nameless_product_gets_unscored_items
           Samples.research_ok Samples.creative_youtube_down Samples.exact
           Samples.no_repr 12 ∅ Samples.offline "1.5"
           (initial_state "u1" "w2" nameless ["youtube"; "twitter"] ∅ "free")
           eq_refl).
Defined.

Lemma failed_research_witness :
  research_results research_down_final = fallback_research Samples.flowly
  /\ In "Research failed: trend service unavailable"
        (errors research_down_final)
  /\ length (final_content research_down_final) = 2%nat
  /\ (forall platform package,
        In (platform, package) (content_packages research_down_final) ->
        exists n : nat,
          (n < 2)%nat
          /\ creative_from_angles n (fallback_research Samples.flowly)
                                  Samples.flowly platform
             = Returned package)
  /\ Forall (fun item =>
               Py.get "generation_metadata" item
               = Some (PDict [ ("research_date", PNone);
                               ("trending_topics", PList []);
                               ("cost_estimate",
                                PNum (cost_estimate research_down_final)) ]))
            (final_content research_down_final).
Proof.
  exact (failed_research_falls_back
           research_down creative_from_angles Samples.exact
           Samples.no_repr 12 ∅ Samples.offline "1.5"
           (initial_state "u1" "w1" Samples.flowly ["tiktok"; "twitter"] ∅
                          "free")
           "trend service unavailable" eq_refl).
Defined.

(** A run for "tiktok" whose draft has a video script. *)
Definition creative_tiktok (call : nat) (research : ResearchResults)
           (w : WebApp) (platform : string) : call_result ContentPackage :=
  Returned Samples.tiktok_draft.

Definition tiktok_final : ContentWorkflowState :=
  ainvoke Samples.research_ok creative_tiktok Samples.exact
          Samples.no_repr 12 ∅ Samples.offline "1.5"
          (initial_state "u1" "w1" Samples.flowly ["tiktok"] ∅ "free").

Lemma video_items_witness :
  exists o,
    Py.get "tiktok" (optimized_content tiktok_final) = Some o
    /\ OptimizerAgent.overall (OptimizerAgent.opt_viral_score o) = 78
    /\ exists hook,
        hd_error (OptimizerAgent._generate_hook_variations
                    "tiktok" Samples.flowly)
        = Some hook
        /\ In hook first_hooks
        /\ Py.get "tiktok" (viral_scores tiktok_final)
           = Some (OptimizerAgent.opt_viral_score o)
        /\ OptimizerAgent.overall (OptimizerAgent.opt_viral_score o) <= 93
        /\ Forall (fun item =>
                     Py.get "platform" item = Some (PStr "tiktok") ->
                     Py.get "variant_id" item = Some (PStr "B")
                     /\ Py.get "title" item = Some (PStr hook)
                     /\ Py.get "viral_score" item
                        = Some (PInt (OptimizerAgent.overall
                                        (OptimizerAgent.opt_viral_score o)
                                      + 5)))
                  (final_content tiktok_final).
Proof.
  eexists. split; [vm_compute; reflexivity|].
  split; [reflexivity|].
  assert (Hpackage : Py.get "tiktok" (content_packages tiktok_final)
                     = Some Samples.tiktok_draft)
    by (vm_compute; reflexivity).
  refine (video_items_take_the_first_hook
            Samples.research_ok creative_tiktok Samples.exact
            Samples.no_repr 12 ∅ Samples.offline "1.5"
            (initial_state "u1" "w1" Samples.flowly ["tiktok"] ∅ "free")
            ScoringFacts.rounds_id "tiktok" Samples.tiktok_draft _
            Hpackage eq_refl _).
  vm_compute. reflexivity.
Defined.

End RunFacts.

(** * The aggregation of the trends *)

Module TrendFacts.
Import ResearchAgentV2.

(** The key under which the loop remembers a topic. *)
Definition key_of (t : Topic) : string :=
  match topic t with Some name => PyStr.lower name | None => "" end.

Definition named (t : Topic) : Prop := topic t <> None.

(** [t] is in [l] and nothing before it has its key. *)
Definition first_of_its_key (l : list Topic) (t : Topic) : Prop :=
  exists before after,
    l = (before ++ t :: after)%list
    /\ Forall (fun earlier => key_of earlier <> key_of t) before.

Lemma unique_loop_raises (todo : list Topic) :
  forall seen unique_topics,
    (exists msg, unique_loop todo seen unique_topics = Raised msg)
    <-> Exists (fun t => topic t = None) todo.
Proof.
  induction todo as [|t rest IH]; intros seen unique_topics;
    cbn [unique_loop].
  - split; [intros [msg H]; discriminate|intros H; inversion H].
  - destruct (topic t) as [name|] eqn:Hname.
    + destruct (bool_decide _ && _); rewrite IH;
        (split; [intros H; right; exact H|]);
        intros H; inversion H; subst; congruence.
    + split; [intros _; left; exact Hname|intros _; eauto].
Qed.

(** What the loop keeps, for a list that it has read up to [done]. *)
Record kept (done unique_topics : list Topic) (seen : gset string) : Prop := {
  kept_seen : forall k, k ∈ seen <-> In k (map key_of unique_topics);
  kept_nodup : NoDup (map key_of unique_topics);
  kept_long :
    Forall (fun t => named t /\ (2 < String.length (key_of t))%nat)
           unique_topics;
  kept_first : Forall (first_of_its_key done) unique_topics;
  kept_all :
    Forall (fun t => (2 < String.length (key_of t))%nat ->
                     In (key_of t) (map key_of unique_topics)) done
}.





Section Loop.

Variable R : Topic -> Topic -> Prop.


End Loop.

(** Among topics of equal score, those of X come before those of
    TikTok; the other scores belong to one source each. *)
Definition tie (a b : Topic) : Prop :=
  source a = "tiktok" -> source b = "tiktok".












(** [_aggregate_trends] raises exactly when some rising query of Google
    Trends has no "query"; it returns in every other case. *)
Theorem aggregation_raises_iff_a_rising_query_is_nameless
        (research_results : TrendSources) :
  (exists msg, _aggregate_trends research_results = Raised msg)
  <-> Exists (fun q => query q = None) (google_queries research_results).
Proof.
  unfold _aggregate_trends.
  pose proof (unique_loop_raises (all_topics research_results) ∅ [])
    as Hraises.
  assert (Hnone : Exists (fun t => topic t = None)
                         (all_topics research_results)
                  <-> Exists (fun q => query q = None)
                             (google_queries research_results)).
  { unfold all_topics. rewrite !List.Exists_app, !List.Exists_exists.
    split.
    - intros [[t [Ht Hn]]|[[t [Ht Hn]]|[[t [Ht Hn]]|[t [Ht Hn]]]]];
        apply in_map_iff in Ht; destruct Ht as [q [<- Hq]];
        try discriminate.
      exists q. split; [exact Hq|exact Hn].
    - intros [q [Hq Hn]]. right. right. right.
      exists {| topic := query q; source := "google_trends"; score := 3;
                growth := Some (value q) |}.
      split; [|exact Hn].
      apply in_map_iff. exists q. split; [reflexivity|exact Hq]. }
  rewrite <- Hnone, <- Hraises.
  destruct (unique_loop _ _ _) as [unique_topics|msg].
  - split; intros [m H]; discriminate.
  - split; intros _; eauto.
Qed.




End TrendFacts.

(** * The nightly task *)

Module TaskFacts.
Import Tasks.
Import NightlyWorkflowV2.
Import RunFacts.

(** The platforms that the task asks [run] for. *)
Definition platforms_of (user : User) (integrations : list string)
  : list string :=
  let platforms :=
    match integrations with
    | [] => default_platforms
    | _ :: _ => integrations
    end in
  if String.eqb (plan user) "free" then firstn 3 platforms else platforms.

(** What the theorem below says of a row. *)
Definition row_summary (r : ContentRow) :=
  (c_user_id r, c_webapp_id r, c_platform r, c_type r, c_status r,
   c_llm_tokens_used r).

Definition expected_summary (user : User) (webapp : WebAppRow)
           (platform : string) :=
  (Tasks.id user, w_id webapp, PStr platform,
   PStr (_determine_content_type platform), PENDING, PInt 0).

Lemma new_content_of_item (user : User) (webapp : WebAppRow) (now : string)
      (state : ContentWorkflowState) (platform : string) (best : Variant) :
  exists r,
    new_content user webapp (content_item now state platform best)
    = Returned r
    /\ row_summary r = expected_summary user webapp platform.
Proof.
  eexists. split; reflexivity.
Qed.

Lemma add_contents_of_items (user : User) (webapp : WebAppRow) (now : string)
      (state : ContentWorkflowState) (best : string -> Variant)
      (platforms : list string) :
  forall session,
  exists rows,
    add_contents user webapp
      (map (fun platform => content_item now state platform (best platform))
           platforms) session
    = ((session ++ rows)%list, None)
    /\ map row_summary rows = map (expected_summary user webapp) platforms.
Proof.
  induction platforms as [|platform rest IH]; intros session.
  - exists []. rewrite List.app_nil_r. split; reflexivity.
  - destruct (new_content_of_item user webapp now state platform
                                  (best platform)) as [r [Hr Hsum]].
    cbn [map add_contents]. rewrite Hr.
    destruct (IH (session ++ [r])%list) as [rows [Hrows Hsums]].
    exists (r :: rows). rewrite Hrows, <- List.app_assoc.
    split; [reflexivity|].
    cbn [map]. rewrite Hsum, Hsums. reflexivity.
Qed.

Section Task.

Variable research_webapp :
  nat -> WebApp -> call_result NightlyWorkflowV2.ResearchResults.
Variable generate_content_package :
  nat -> nat -> NightlyWorkflowV2.ResearchResults -> WebApp -> string ->
  call_result ContentPackage.
Variable fl : Q -> Q.
Variable repr_content : Content -> string.
Variable hour : nat -> Z.
Variable environ : gmap string string.
Variable remote : nat -> string -> string -> call_result string.
Variable now : nat -> string.

Local Abbreviation body_of :=
  (webapp_body research_webapp generate_content_package fl repr_content hour
               environ remote now).

Lemma webapp_body_rows (user_api_keys : gmap string string)
      (integrations : list string) (run_no : nat) (webapp : WebAppRow)
      (session : list ContentRow) (user : User) :
  exists rows,
    body_of user_api_keys integrations run_no webapp (session, user)
    = ((session ++ rows)%list,
       add_used (Z.of_nat (length (platforms_of user integrations))) user)
    /\ map row_summary rows
       = map (expected_summary user webapp) (platforms_of user integrations).
Proof.
  unfold webapp_body, workflow_run.
  fold (platforms_of user integrations).
  change (success (run _ _ _ _ _ _ _ _ _ _ _ _ _ _)) with true.
  cbv iota.
  rewrite run_content. cbv zeta.
  set (input := initial_state _ _ _ _ _ _).
  destruct (add_contents_of_items
              user webapp (now run_no)
              (after_ab_test (research_webapp run_no)
                             (generate_content_package run_no) fl
                             repr_content (hour run_no) environ
                             (remote run_no) (now run_no) input)
              (winner_of (research_webapp run_no)
                         (generate_content_package run_no) fl
                         repr_content (hour run_no) environ
                         (remote run_no) (now run_no) input)
              (platforms_of user integrations) session)
    as [rows [Hrows Hsums]].
  exists rows. rewrite Hrows, length_map. split; [reflexivity|exact Hsums].
Qed.

Lemma add_used_twice (a b : Z) (user : User) :
  add_used b (add_used a user) = add_used (a + b) user.
Proof.
  unfold add_used. cbn. f_equal. lia.
Qed.

Lemma platforms_of_add_used (n : Z) (user : User)
      (integrations : list string) :
  platforms_of (add_used n user) integrations = platforms_of user integrations.
Proof. reflexivity. Qed.

Lemma expected_summary_add_used (n : Z) (user : User) (webapp : WebAppRow) :
  expected_summary (add_used n user) webapp = expected_summary user webapp.
Proof. reflexivity. Qed.

Lemma count_step (n : Z) (a b : nat) :
  n + Z.of_nat b + Z.of_nat (a * b) = n + Z.of_nat (S a * b).
Proof. lia. Qed.

Lemma webapps_loop_step (user_api_keys : gmap string string)
      (integrations : list string) (run_no : nat) (webapp : WebAppRow)
      (rest : list WebAppRow) (state : list ContentRow * User) :
  webapps_loop research_webapp generate_content_package fl repr_content
               hour environ remote now user_api_keys integrations run_no
               (webapp :: rest) state
  = webapps_loop research_webapp generate_content_package fl repr_content
                 hour environ remote now user_api_keys integrations
                 (S run_no) rest
                 (body_of user_api_keys integrations run_no webapp state).
Proof. reflexivity. Qed.

Lemma webapps_loop_rows (user_api_keys : gmap string string)
      (integrations : list string) (user : User)
      (webapps : list WebAppRow) :
  forall (run_no : nat) (session : list ContentRow) (n : Z),
  exists rows,
    webapps_loop research_webapp generate_content_package fl repr_content
                 hour environ remote now user_api_keys integrations run_no
                 webapps (session, add_used n user)
    = ((session ++ rows)%list,
       add_used
         (n + Z.of_nat (length webapps
                        * length (platforms_of user integrations)))
         user)
    /\ map row_summary rows
       = flat_map (fun webapp =>
                     map (expected_summary user webapp)
                         (platforms_of user integrations))
                  webapps.
Proof.
  induction webapps as [|webapp rest IH]; intros run_no session n.
  - exists []. cbn [webapps_loop length Nat.mul flat_map map].
    change (Z.of_nat 0) with 0. rewrite List.app_nil_r, Z.add_0_r.
    split; reflexivity.
  - rewrite webapps_loop_step.
    destruct (webapp_body_rows user_api_keys integrations run_no webapp
                               session (add_used n user))
      as [rows [Hrows Hsums]].
    rewrite platforms_of_add_used, expected_summary_add_used in Hsums.
    rewrite Hrows, platforms_of_add_used, add_used_twice.
    destruct (IH (S run_no) (session ++ rows)%list
                 (n + Z.of_nat (length (platforms_of user integrations))))
      as [more [Hmore Hsums']].
    exists (rows ++ more)%list. rewrite Hmore, List.app_assoc.
    split.
    + rewrite count_step. reflexivity.
    + rewrite map_app, Hsums, Hsums'. reflexivity.
Qed.

Lemma add_used_0 (user : User) : add_used 0 user = user.
Proof.
  destruct user. unfold add_used. cbn. f_equal. lia.
Qed.

Lemma platforms_of_bounds (user : User) (integrations : list string) :
  (1 <= length (platforms_of user integrations))%nat
  /\ (plan user = "free" ->
      (length (platforms_of user integrations) <= 3)%nat).
Proof.
  unfold platforms_of.
  destruct (String.eqb (plan user) "free") eqn:Hplan.
  - split; [|intros _; apply firstn_le_length].
    destruct integrations as [|a [|b [|c rest]]]; cbn; lia.
  - split; [|intros H; apply String.eqb_neq in Hplan; contradiction].
    destruct integrations; cbn; lia.
Qed.

(** What the nightly task commits for a user.  The platforms are the
    connected ones, or the six default ones when there is none, cut to
    the first three for the free plan; there is at least one.  A user
    without a product, or whose usage has reached the quota, gets no row
    and keeps its usage.  Any other user gets, for every product and
    every platform, in this order, one row with the status PENDING, the
    content type of the platform and no token counted, and its usage
    goes up by the number of rows, whatever the quota. *)
Theorem nightly_task_stores_a_pending_row_per_webapp_and_platform
        (run_no : nat) (user : User) (webapps : list WebAppRow)
        (user_api_keys : gmap string string) (integrations : list string) :
  let platforms := platforms_of user integrations in
  let committed :=
    user_body research_webapp generate_content_package fl repr_content hour
              environ remote now run_no user webapps user_api_keys
              integrations in
  (1 <= length platforms)%nat
  /\ (plan user = "free" -> (length platforms <= 3)%nat)
  /\ (webapps = [] \/ monthly_content_quota user <= monthly_content_used user ->
      committed = ([], user))
  /\ (webapps <> [] ->
      monthly_content_used user < monthly_content_quota user ->
      map row_summary (fst committed)
      = flat_map (fun webapp =>
                    map (expected_summary user webapp) platforms)
                 webapps
      /\ snd committed
         = add_used (Z.of_nat (length webapps * length platforms)) user).
Proof.
  intros platforms committed.
  destruct (platforms_of_bounds user integrations) as [Hone Hfree].
  split; [exact Hone|]. split; [exact Hfree|].
  subst committed. unfold user_body. split.
  - intros [->|Hquota]; [reflexivity|].
    destruct webapps; [reflexivity|].
    apply Z.leb_le in Hquota. rewrite Hquota. reflexivity.
  - intros Hsome Hbelow.
    destruct webapps as [|webapp rest]; [contradiction|].
    apply Z.leb_gt in Hbelow. rewrite Hbelow.
    destruct (webapps_loop_rows user_api_keys integrations user
                                (webapp :: rest) run_no [] 0)
      as [rows [Hrows Hsums]].
    rewrite add_used_0 in Hrows. rewrite Hrows.
    cbn [fst snd app]. split; [exact Hsums|]. reflexivity.
Qed.

End Task.

(** A user of the free plan, one item short of the quota, with two
    products and no connected integration. *)
Definition nearly_spent : User :=
  {| Tasks.id := "u1"; plan := "free"; monthly_content_quota := 10;
     monthly_content_used := 9 |}.

Definition two_products : list WebAppRow :=
  [ {| w_id := "w1"; w_name := "Flowly"; w_category := "SaaS" |};
    {| w_id := "w2"; w_name := "Notely"; w_category := "Productivity" |} ].

Definition nearly_spent_night : list ContentRow * User :=
  user_body (fun _ => Samples.research_ok)
            (fun _ => Samples.creative_youtube_down)
            Samples.exact Samples.no_repr (fun _ => 12) ∅
            (fun _ => Samples.offline) (fun _ => "1.5")
            0 nearly_spent two_products ∅ [].

(** The quota is tested once, before the first product: the night leaves
    this user with six rows and fifteen items counted against a quota
    of ten. *)
Lemma quota_is_tested_once_a_night :
  map (fun r => (c_webapp_id r, c_platform r)) (fst nearly_spent_night)
  = [ ("w1", PStr "youtube"); ("w1", PStr "tiktok");
      ("w1", PStr "instagram");
      ("w2", PStr "youtube"); ("w2", PStr "tiktok");
      ("w2", PStr "instagram") ]
  /\ monthly_content_used (snd nearly_spent_night) = 15
  /\ monthly_content_quota (snd nearly_spent_night) = 10.
Proof.
  vm_compute. repeat split; reflexivity.
Qed.

End TaskFacts.
